(** * Momentary: prompt scheduling, capture window and session authentication

    A shallow embedding of [app/main.py] and [app/db.py].

    Modelling conventions.
    - A [datetime] is an aware UTC instant, counted in microseconds since the
      epoch (the resolution of Python's [datetime]); a [timedelta] is a signed
      number of microseconds.  Calendar days are numbered by [Z] from the
      epoch; the calendar ends with [date.max], and a step past it raises
      [OverflowError].
    - A call that may raise returns an [option] or a [result]; [None] stands
      for the exception.
    - [sqlite3] binds an [int] parameter as a 64-bit integer and raises
      [OverflowError] on one that does not fit; the methods of the store
      that take a Telegram id are modelled with that check.
    - The clock, the random generator, the message channel and the object
      store are inputs of the functions that consult them. *)

From Stdlib Require Import ZArith List Lia String Ascii.
From Stdlib.Strings Require Import Byte.
From Stdlib.Floats Require SpecFloat.
From Stdlib.Numbers Require Import DecimalString DecimalZ DecimalPos.
From Stdlib.micromega Require Import ZifyNat.
From stdpp Require Import base option gmap sets list list_numbers strings sorting.

Local Open Scope Z_scope.

(** ** Exceptions *)

Inductive exn :=
  | AttributeError | IndexError | ValueError | TypeError | RuntimeError
  | OverflowError | NetworkError | S3Error | HTTPException (status : Z).

Inductive result (A : Type) :=
  | Ok (a : A)
  | Raise (e : exn).
Arguments Ok {A} a.
Arguments Raise {A} e.

#[global] Instance result_ret : MRet result := fun A a => Ok a.
#[global] Instance result_bind : MBind result := fun A B f m =>
  match m with
  | Ok a => f a
  | Raise e => Raise e
  end.

(** An option whose [None] is the exception [e]. *)
Definition expect {A} (e : exn) (o : option A) : result A :=
  match o with
  | Some a => Ok a
  | None => Raise e
  end.

(** ** Instants *)

Definition datetime : Type := Z.
Definition timedelta : Type := Z.

Definition US_PER_SECOND : Z := 1000000.
Definition US_PER_MINUTE : Z := 60 * US_PER_SECOND.
Definition US_PER_HOUR : Z := 60 * US_PER_MINUTE.
Definition US_PER_DAY : Z := 24 * US_PER_HOUR.

(** [timedelta(days=n)] and a duration of [n] whole seconds. *)
Definition days (n : Z) : timedelta := n * US_PER_DAY.
Definition seconds (n : Z) : timedelta := n * US_PER_SECOND.

(** [dt.date()], as a day number. *)
Definition dt_date (t : datetime) : Z := t / US_PER_DAY.

(** [date.max], 9999-12-31, as a day number. *)
Definition DATE_MAX : Z := 2932896.

(** [day + timedelta(days=1)]: [OverflowError] past [date.max]. *)
Definition next_day (day : Z) : result Z :=
  if bool_decide (day < DATE_MAX) then Ok (day + 1) else Raise OverflowError.

(** [dt.hour] and [dt.minute]. *)
Definition dt_hour (t : datetime) : Z := (t mod US_PER_DAY) / US_PER_HOUR.
Definition dt_minute (t : datetime) : Z := ((t mod US_PER_DAY) / US_PER_MINUTE) mod 60.

(** [datetime(year, month, day, hour=, minute=, tzinfo=timezone.utc)] for the
    calendar day [day]; [ValueError] when a field is out of range. *)
Definition datetime_utc (day hour minute : Z) : option datetime :=
  if bool_decide (0 <= hour < 24 /\ 0 <= minute < 60)
  then Some (day * US_PER_DAY + hour * US_PER_HOUR + minute * US_PER_MINUTE)
  else None.

(** [td.total_seconds() > n] for an integer [n].  The quotient by [10**6] is
    computed in floating point, correctly rounded; rounding is monotone and
    both [n] and the microsecond count are exact, so the comparison is the
    one on microseconds. *)
Definition total_seconds_gt (td : timedelta) (n : Z) : bool :=
  bool_decide (seconds n < td).

(** [timestamp.hour * 60 + timestamp.minute], the minute of the day. *)
Definition minute_of_day (t : datetime) : Z := dt_hour t * 60 + dt_minute t.

(** ** Time-slot picker ([choose_prompt_time]) *)

(** [random.choice(seq)]: [seq[randbelow(len(seq))]], [IndexError] on an empty
    sequence.  [r] is the raw draw. *)
Definition random_choice {A} (r : nat) (l : list A) : option A :=
  match l with
  | [] => None
  | _ => l !! (r mod length l)%nat
  end.

Definition MINUTES_PER_DAY : Z := 24 * 60.

(** [[m for m in range(24 * 60) if m not in excluded_minutes]], replaced by
    the whole range when it comes out empty. *)
Definition available_minutes (excluded_minutes : gset Z) : list Z :=
  let available := filter (fun m => m ∉ excluded_minutes) (seqZ 0 MINUTES_PER_DAY) in
  match available with
  | [] => seqZ 0 MINUTES_PER_DAY
  | _ => available
  end.

(** One selection: draw a minute and build the instant on [target_day].  The
    source writes this block twice, once for each selection. *)
Definition candidate (r : nat) (target_day : Z) (excluded_minutes : gset Z)
  : option datetime :=
  minute_of_day ← random_choice r (available_minutes excluded_minutes);
  let hour := minute_of_day / 60 in
  let minute := minute_of_day mod 60 in
  datetime_utc target_day hour minute.

(** Lines 75 to 79: the day of the first selection. *)
Definition first_target_day (now : datetime) (last_prompt : option datetime)
  : result Z :=
  let today := dt_date now in
  match last_prompt with
  | Some lp => if bool_decide (dt_date lp = today) then next_day today else Ok today
  | None => Ok today
  end.

Definition choose_prompt_time (r1 r2 : nat) (now : datetime)
    (last_prompt : option datetime) (excluded_minutes : gset Z) : result datetime :=
  let today := dt_date now in
  target_day ← first_target_day now last_prompt;
  target ← expect IndexError (candidate r1 target_day excluded_minutes);
  if bool_decide (target <= now)
  then
    target_day ← next_day today;
    expect IndexError (candidate r2 target_day excluded_minutes)
  else Ok target.

(** ** Capture window *)

(** The two guards of [handle_photo] that gate a submission on the last
    prompt: a prompt must be recorded, and [(now - last_prompt)] must not
    exceed 60 seconds. *)
Inductive window_verdict := NoPrompt | Missed | InWindow.

Definition capture_window (now : datetime) (last_prompt : option datetime)
  : window_verdict :=
  match last_prompt with
  | None => NoPrompt
  | Some lp => if total_seconds_gt (now - lp) 60 then Missed else InWindow
  end.

Definition accept (now : datetime) (last_prompt : option datetime) : bool :=
  match capture_window now last_prompt with
  | InWindow => true
  | _ => false
  end.

(** ** The record store ([app/db.py])

    The tables are modelled after [Database.init()] has run: the singleton
    rows of [prompt_state], [registration_state] and [schedule_state] exist.
    A table with an [AUTOINCREMENT] key is the list of its rows in key order
    together with its value in [sqlite_sequence], the largest key an
    [INSERT] has taken.  Timestamps are stored as
    ISO-8601 text and read back with [fromisoformat]; the model keeps the
    instant. *)

Record user_row := {
  user_id : Z;
  user_telegram_id : Z;
  user_username : option string;
  user_created_at : datetime }.

(** [user_{chat_id}/{timestamp:%Y%m%d_%H%M%S}.jpg]: the key is determined by
    the chat id and the whole second of the timestamp. *)
Definition object_key : Type := Z * Z.

Record photo_row := {
  photo_id : Z;
  photo_user_id : Z;
  photo_timestamp : datetime;
  photo_object_key : object_key }.

Record ban_row := {
  ban_telegram_id : Z;
  ban_reason : option string;
  ban_created_at : datetime }.

Record history_row := {
  history_id : Z;
  history_prompt_time : datetime;
  history_minute_of_day : Z }.

Record Database := {
  users : list user_row;
  users_seq : Z;
  photos : list photo_row;
  photos_seq : Z;
  last_prompt : option datetime;
  registrations_open : bool;
  next_prompt : option datetime;
  banned_users : list ban_row;
  prompt_history : list history_row;
  prompt_history_seq : Z }.

(** The store right after [Database.init()] on a fresh file. *)
Definition init : Database := {|
  users := []; users_seq := 0;
  photos := []; photos_seq := 0;
  last_prompt := None;
  registrations_open := true;
  next_prompt := None;
  banned_users := [];
  prompt_history := []; prompt_history_seq := 0 |}.

Definition are_registrations_open (d : Database) : bool := registrations_open d.

Definition get_next_prompt (d : Database) : option datetime := next_prompt d.

Definition set_next_prompt (timestamp : option datetime) (d : Database) : Database :=
  {| users := users d; users_seq := users_seq d;
     photos := photos d; photos_seq := photos_seq d;
     last_prompt := last_prompt d;
     registrations_open := registrations_open d;
     next_prompt := timestamp;
     banned_users := banned_users d;
     prompt_history := prompt_history d;
     prompt_history_seq := prompt_history_seq d |}.

(** [execute(sql, (n, ...))] with an [int] parameter: SQLite stores it in 64
    bits, and [sqlite3] raises [OverflowError] on a value that does not fit,
    before the statement runs. *)
Definition INT64_MIN : Z := - 2 ^ 63.
Definition INT64_MAX : Z := 2 ^ 63 - 1.

Definition bind_int (n : Z) : result Z :=
  if bool_decide (INT64_MIN <= n <= INT64_MAX) then Ok n else Raise OverflowError.

(** [SELECT 1 FROM banned_users WHERE telegram_id = ?] finds a row. *)
Definition is_user_banned_sql (telegram_id : Z) (d : Database) : bool :=
  bool_decide (telegram_id ∈ ban_telegram_id <$> banned_users d).

Definition is_user_banned (telegram_id : Z) (d : Database) : result bool :=
  telegram_id ← bind_int telegram_id;
  Ok (is_user_banned_sql telegram_id d).

(** [ORDER BY key] and [ORDER BY key DESC]. *)
Definition order_by {A} (key : A -> Z) (rows : list A) : list A :=
  merge_sort (fun a b => bool_decide (key a <= key b)) rows.

Definition order_by_desc {A} (key : A -> Z) (rows : list A) : list A :=
  merge_sort (fun a b => bool_decide (key b <= key a)) rows.

(** [SELECT * FROM banned_users ORDER BY created_at DESC]. *)
Definition get_banned_users (d : Database) : list ban_row :=
  order_by_desc ban_created_at (banned_users d).

(** [SELECT * FROM users ORDER BY id]. *)
Definition get_users (d : Database) : list user_row :=
  order_by user_id (users d).

(** [SELECT * FROM users WHERE telegram_id = ?], first row. *)
Definition get_user_by_telegram_sql (telegram_id : Z) (d : Database)
  : option user_row :=
  list_find (fun u => user_telegram_id u = telegram_id) (users d) ≫= fun '(_, u) => Some u.

Definition get_user_by_telegram (telegram_id : Z) (d : Database)
  : result (option user_row) :=
  telegram_id ← bind_int telegram_id;
  Ok (get_user_by_telegram_sql telegram_id d).

Definition set_users (us : list user_row) (seq : Z) (d : Database) : Database :=
  {| users := us; users_seq := seq;
     photos := photos d; photos_seq := photos_seq d;
     last_prompt := last_prompt d;
     registrations_open := registrations_open d;
     next_prompt := next_prompt d;
     banned_users := banned_users d;
     prompt_history := prompt_history d;
     prompt_history_seq := prompt_history_seq d |}.

(** [INSERT ... ON CONFLICT(telegram_id) DO UPDATE SET username =
    excluded.username], then the [SELECT id] of that row.  The [INSERT] takes
    the next value of the [AUTOINCREMENT] sequence before the conflict is
    seen, and the sequence keeps it: a call on an id that is on record
    leaves a gap in the row ids.  [now] is the clock reading taken for
    [created_at]. *)
Definition upsert_user_sql (now : datetime) (telegram_id : Z)
    (username : option string) (d : Database) : Z * Database :=
  let id := users_seq d + 1 in
  match get_user_by_telegram_sql telegram_id d with
  | Some u =>
      let rename (r : user_row) :=
        if bool_decide (user_telegram_id r = telegram_id)
        then {| user_id := user_id r; user_telegram_id := user_telegram_id r;
                user_username := username; user_created_at := user_created_at r |}
        else r in
      (user_id u, set_users (rename <$> users d) id d)
  | None =>
      let row := {| user_id := id; user_telegram_id := telegram_id;
                    user_username := username; user_created_at := now |} in
      (id, set_users (users d ++ [row]) id d)
  end.

Definition upsert_user (now : datetime) (telegram_id : Z) (username : option string)
    (d : Database) : result (Z * Database) :=
  telegram_id ← bind_int telegram_id;
  Ok (upsert_user_sql now telegram_id username d).

Definition add_photo (user_id : Z) (timestamp : datetime) (key : object_key)
    (d : Database) : Database :=
  let id := photos_seq d + 1 in
  let row := {| photo_id := id; photo_user_id := user_id;
                photo_timestamp := timestamp; photo_object_key := key |} in
  {| users := users d; users_seq := users_seq d;
     photos := photos d ++ [row]; photos_seq := id;
     last_prompt := last_prompt d;
     registrations_open := registrations_open d;
     next_prompt := next_prompt d;
     banned_users := banned_users d;
     prompt_history := prompt_history d;
     prompt_history_seq := prompt_history_seq d |}.

Definition set_last_prompt (timestamp : datetime) (d : Database) : Database :=
  {| users := users d; users_seq := users_seq d;
     photos := photos d; photos_seq := photos_seq d;
     last_prompt := Some timestamp;
     registrations_open := registrations_open d;
     next_prompt := next_prompt d;
     banned_users := banned_users d;
     prompt_history := prompt_history d;
     prompt_history_seq := prompt_history_seq d |}.

Definition get_last_prompt (d : Database) : option datetime := last_prompt d.

Definition set_prompt_history (rows : list history_row) (seq : Z) (d : Database)
  : Database :=
  {| users := users d; users_seq := users_seq d;
     photos := photos d; photos_seq := photos_seq d;
     last_prompt := last_prompt d;
     registrations_open := registrations_open d;
     next_prompt := next_prompt d;
     banned_users := banned_users d;
     prompt_history := rows;
     prompt_history_seq := seq |}.

Definition add_prompt_history (timestamp : datetime) (d : Database) : Database :=
  let minute_of_day := dt_hour timestamp * 60 + dt_minute timestamp in
  let id := prompt_history_seq d + 1 in
  let row := {| history_id := id; history_prompt_time := timestamp;
                history_minute_of_day := minute_of_day |} in
  set_prompt_history (prompt_history d ++ [row]) id d.

(** [LIMIT ?]: a negative bound means no bound. *)
Definition sql_limit {A} (limit : Z) (rows : list A) : list A :=
  if bool_decide (limit < 0) then rows else take (Z.to_nat limit) rows.

Definition get_recent_prompt_minutes (limit : Z) (d : Database) : list Z :=
  history_minute_of_day <$> sql_limit limit (order_by_desc history_id (prompt_history d)).

(** [DELETE FROM prompt_history WHERE id NOT IN (SELECT id FROM
    prompt_history ORDER BY id DESC LIMIT ?)]. *)
Definition prune_prompt_history (limit : Z) (d : Database) : Database :=
  let keep := history_id <$> sql_limit limit (order_by_desc history_id (prompt_history d)) in
  set_prompt_history
    (filter (fun r => history_id r ∈ keep) (prompt_history d))
    (prompt_history_seq d) d.

(** Rows in strictly increasing order of [key]: how a table sits on disk
    under its [INTEGER PRIMARY KEY]. *)
Definition ascending {A} (key : A -> Z) (rows : list A) : Prop :=
  StronglySorted (fun a b => key a < key b) rows.

(** The [prompt_history] table is in key order, below its sequence value. *)
Definition history_wf (d : Database) : Prop :=
  ascending history_id (prompt_history d) /\
  Forall (fun r => history_id r <= prompt_history_seq d) (prompt_history d).

(** ** Process state and effects ([app/main.py])

    The module-level handles [db], [storage] and [bot_app] and what the
    outside world has observed so far.  A handler is a state transformer
    that either returns or raises; what it wrote before raising stays
    written. *)

Inductive text :=
  | PromptText               (* Momentary time! ... You have 60 seconds. *)
  | BannedText               (* You are banned from this app. *)
  | NoPromptText             (* No prompt is active yet. Check back later! *)
  | MissedWindowText         (* Sorry, you missed the 60-second window. ... *)
  | PhotoReceivedText        (* Photo received! It's saved to your journal. *)
  | AlreadyRegisteredText    (* You're already registered. ... *)
  | RegistrationsClosedText  (* Registrations are currently closed. ... *)
  | RegistrationSuccessfulText.

Inductive event :=
  | Sent (chat_id : Z) (body : text)        (* the channel took the message *)
  | SendFailed (chat_id : Z) (body : text)  (* the channel raised *)
  | Slept (duration : timedelta)            (* [asyncio.sleep] *)
  | LogInfo
  | LogWarning (chat_id : Z).

Record World := {
  db : option Database;
  storage : option (gmap object_key (list byte));
  bot_app : bool;
  trace : list event }.

Definition Eff (A : Type) : Type := World -> result A * World.

#[global] Instance Eff_ret : MRet Eff := fun A a w => (Ok a, w).
#[global] Instance Eff_bind : MBind Eff := fun A B f m w =>
  match m w with
  | (Ok a, w') => f a w'
  | (Raise e, w') => (Raise e, w')
  end.

Definition raise {A} (e : exn) : Eff A := fun w => (Raise e, w).

(** [try: body except Exception: handler]. *)
Definition try_except {A} (body : Eff A) (handler : exn -> Eff A) : Eff A := fun w =>
  match body w with
  | (Ok a, w') => (Ok a, w')
  | (Raise e, w') => handler e w'
  end.

Definition get_world : Eff World := fun w => (Ok w, w).

Definition emit (e : event) : Eff unit := fun w =>
  (Ok tt, {| db := db w; storage := storage w; bot_app := bot_app w;
             trace := trace w ++ [e] |}).

Definition put_db (d : Database) : Eff unit := fun w =>
  (Ok tt, {| db := Some d; storage := storage w; bot_app := bot_app w;
             trace := trace w |}).

(** A method call on the global [db]; on [None] the attribute lookup fails. *)
Definition db_call {A} (f : Database -> A * Database) : Eff A :=
  w ← get_world;
  match db w with
  | Some d => let '(a, d') := f d in put_db d';; mret a
  | None => raise AttributeError
  end.

Definition db_query {A} (q : Database -> A) : Eff A := db_call (fun d => (q d, d)).
Definition db_exec (f : Database -> Database) : Eff unit := db_call (fun d => (tt, f d)).

(** A method call that may raise; it has written nothing when it does. *)
Definition db_try_call {A} (f : Database -> result (A * Database)) : Eff A :=
  w ← get_world;
  match db w with
  | Some d =>
      match f d with
      | Ok (a, d') => put_db d';; mret a
      | Raise e => raise e
      end
  | None => raise AttributeError
  end.

Definition db_try_query {A} (q : Database -> result A) : Eff A :=
  db_try_call (fun d => a ← q d; Ok (a, d)).
Definition db_try_exec (f : Database -> result Database) : Eff unit :=
  db_try_call (fun d => d' ← f d; Ok (tt, d')).

Definition lift_result {A} (r : result A) : Eff A := fun w => (r, w).

(** An option whose [None] is an exception of the callee. *)
Definition or_raise {A} (e : exn) (o : option A) : Eff A :=
  match o with
  | Some a => mret a
  | None => raise e
  end.

(** [for x in xs: body(x)]. *)
Fixpoint for_each {A} (xs : list A) (body : A -> Eff unit) : Eff unit :=
  match xs with
  | [] => mret tt
  | x :: xs' => body x;; for_each xs' body
  end.

(** [bot_app.bot.send_message(chat_id=..., text=...)]; [deliver] tells
    whether the channel takes a message for that chat. *)
Definition send_message (deliver : Z -> bool) (chat_id : Z) (body : text) : Eff unit :=
  if deliver chat_id then emit (Sent chat_id body)
  else emit (SendFailed chat_id body);; raise NetworkError.

Definition sleep (duration : timedelta) : Eff unit := emit (Slept duration).

Definition PROMPT_MINUTE_HISTORY_DAYS : Z := 1440.

(** *** Broadcast *)

Definition send_daily_prompt (deliver : Z -> bool) (prompt_time : datetime) : Eff unit :=
  w ← get_world;
  match db w, bot_app w with
  | Some _, true =>
      users ← db_query get_users;
      match users with
      | [] => emit LogInfo
      | _ =>
          banned ← db_query get_banned_users;
          let banned_ids : gset Z := list_to_set (ban_telegram_id <$> banned) in
          for_each users (fun user =>
            if bool_decide (user_telegram_id user ∈ banned_ids) then mret tt
            else try_except
                   (send_message deliver (user_telegram_id user) PromptText)
                   (fun _ => emit (LogWarning (user_telegram_id user))));;
          db_exec (set_last_prompt prompt_time);;
          db_exec (add_prompt_history prompt_time);;
          db_exec (prune_prompt_history PROMPT_MINUTE_HISTORY_DAYS)
      end
  | _, _ => mret tt
  end.

(** What one delivery attempt leaves in the trace. *)
Definition delivery_events (deliver : Z -> bool) (chat_id : Z) : list event :=
  if deliver chat_id then [Sent chat_id PromptText]
  else [SendFailed chat_id PromptText; LogWarning chat_id].

(** The participants a broadcast writes to: those not banned, in the order
    [get_users] lists them. *)
Definition recipients (d : Database) : list user_row :=
  filter (fun u => is_user_banned_sql (user_telegram_id u) d = false) (get_users d).

Definition with_db (d : Database) (w : World) : World :=
  {| db := Some d; storage := storage w; bot_app := bot_app w; trace := trace w |}.

Definition with_trace (tr : list event) (w : World) : World :=
  {| db := db w; storage := storage w; bot_app := bot_app w; trace := tr |}.

(** The ids of the participants on record, when there is a store. *)
Definition participant_ids (w : World) : option (list Z) :=
  (fun d => user_telegram_id <$> users d) <$> db w.

(** Lines 271 to 274 of [send_daily_prompt] as one store transformer. *)
Definition record_prompt (prompt_time : datetime) (d : Database) : Database :=
  prune_prompt_history PROMPT_MINUTE_HISTORY_DAYS
    (add_prompt_history prompt_time (set_last_prompt prompt_time d)).

(** *** Scheduler *)

(** Lines 291 to 294: pick a fresh target and persist it.  [r1], [r2] are
    the draws the picker may consume. *)
Definition fresh_target (r1 r2 : nat) (now : datetime) : Eff datetime :=
  last_prompt ← db_query get_last_prompt;
  recent ← db_query (get_recent_prompt_minutes (PROMPT_MINUTE_HISTORY_DAYS - 1));
  let excluded : gset Z := list_to_set recent in
  target ← lift_result (choose_prompt_time r1 r2 now last_prompt excluded);
  db_exec (set_next_prompt (Some target));;
  mret target.

(** The head of one turn of [scheduler_loop]: read the persisted target and
    replace it when it is missing or due. *)
Definition await_target (r1 r2 : nat) (now : datetime) : Eff datetime :=
  target ← db_query get_next_prompt;
  match target with
  | Some t => if bool_decide (t <= now) then fresh_target r1 r2 now else mret t
  | None => fresh_target r1 r2 now
  end.

(** What one turn of the loop reads from outside. *)
Record turn := {
  turn_now : datetime;
  turn_r1 : nat;
  turn_r2 : nat;
  turn_deliver : Z -> bool;
  turn_prompt_time : datetime }.

(** The body of [while True] in [scheduler_loop]. *)
Definition scheduler_turn (i : turn) : Eff unit :=
  let now := turn_now i in
  w ← get_world;
  match db w with
  | None => sleep (seconds 5)
  | Some _ =>
      target ← await_target (turn_r1 i) (turn_r2 i) now;
      let sleep_seconds := target - now in
      emit LogInfo;;
      sleep sleep_seconds;;
      send_daily_prompt (turn_deliver i) (turn_prompt_time i)
  end.

(** [scheduler_loop] for as many turns as there are readings. *)
Definition scheduler_loop (turns : list turn) : Eff unit := for_each turns scheduler_turn.

(** ** Session authentication

    Python values as far as [json.loads] produces them, text and byte
    strings, and the standard-library calls the code relies on. *)

Definition bytes : Type := list byte.

#[global] Instance byte_eq_decision : EqDecision byte := Byte.byte_eq_dec.

#[warnings="-register-all"]
Inductive value :=
  | VNone
  | VBool (b : bool)
  | VInt (n : Z)
  | VFloat (f : SpecFloat.spec_float)
  | VStr (s : string)
  | VList (items : list value)
  | VDict (items : list (string * value)).

(** [d.get(key, default)]; a value that is not a dict has no [get]. *)
Definition value_get (key : string) (default : value) (v : value) : result value :=
  match v with
  | VDict items =>
      Ok (match list_find (fun kv => kv.1 = key) items with
          | Some (_, kv) => kv.2
          | None => default
          end)
  | _ => Raise AttributeError
  end.

(** [int(x)] on a float: truncation toward zero, [OverflowError] on an
    infinity and [ValueError] on a NaN. *)
Definition int_of_float (f : SpecFloat.spec_float) : result Z :=
  match f with
  | SpecFloat.S754_zero _ => Ok 0
  | SpecFloat.S754_infinity _ => Raise OverflowError
  | SpecFloat.S754_nan => Raise ValueError
  | SpecFloat.S754_finite sign m e =>
      let magnitude := Z.shiftl (Z.pos m) e in
      Ok (if sign then - magnitude else magnitude)
  end.

Class PyLib := {
  (** [hmac.new(key, msg, hashlib.sha256).digest()] and [.hexdigest()] *)
  hmac_sha256 : bytes -> bytes -> bytes;
  hmac_sha256_hex : bytes -> bytes -> string;
  (** [hashlib.sha256(data).digest()] *)
  sha256 : bytes -> bytes;
  (** [base64.urlsafe_b64encode], [base64.urlsafe_b64decode] *)
  urlsafe_b64encode : bytes -> bytes;
  urlsafe_b64decode : bytes -> option bytes;
  (** [s.encode("utf-8")], [b.decode("utf-8")] *)
  str_encode_utf8 : string -> bytes;
  bytes_decode_utf8 : bytes -> option string;
  (** [json.dumps(v, separators=(",", ":"))], [json.loads(s)] *)
  json_dumps : value -> string;
  json_loads : string -> option value;
  (** [int(s)] on text *)
  int_of_str : string -> option Z }.

Definition is_ascii_byte (b : byte) : bool := bool_decide (Byte.to_N b < 128)%N.

(** [s.encode("ascii")] and [b.decode("ascii")]. *)
Definition str_encode_ascii (s : string) : result bytes :=
  let raw := list_byte_of_string s in
  if forallb is_ascii_byte raw then Ok raw else Raise ValueError.

Definition bytes_decode_ascii (b : bytes) : result string :=
  if forallb is_ascii_byte b then Ok (string_of_list_byte b) else Raise ValueError.

(** [s.rstrip(c)] for a one-character [c]. *)
Fixpoint rstrip (c : ascii) (s : string) : string :=
  match s with
  | EmptyString => EmptyString
  | String a s' =>
      match rstrip c s' with
      | EmptyString => if Ascii.eqb a c then EmptyString else String a EmptyString
      | t => String a t
      end
  end.

(** [c * n]. *)
Fixpoint str_repeat (c : ascii) (n : nat) : string :=
  match n with
  | O => EmptyString
  | S n' => String c (str_repeat c n')
  end.

(** [s.split(sep, 1)] when [sep in s]: the text before and after the first
    occurrence; [None] when [sep not in s]. *)
Fixpoint split_once (sep : ascii) (s : string) : option (string * string) :=
  match s with
  | EmptyString => None
  | String a s' =>
      if Ascii.eqb a sep then Some (EmptyString, s')
      else '(before, after) ← split_once sep s'; Some (String a before, after)
  end.

(** [sep.join(parts)]. *)
Fixpoint str_join (sep : string) (parts : list string) : string :=
  match parts with
  | [] => EmptyString
  | [p] => p
  | p :: rest => (p ++ sep ++ str_join sep rest)%string
  end.

Record Environ := {
  APP_SESSION_SECRET : option string;
  TELEGRAM_BOT_TOKEN : option string }.

Definition SESSION_TTL_SECONDS : Z := 60 * 60 * 24 * 14.

Section SessionAuth.
Context {L : PyLib}.

(** [int(x)] for a value out of [json.loads]. *)
Definition py_int (v : value) : result Z :=
  match v with
  | VInt n => Ok n
  | VBool b => Ok (if b then 1 else 0)
  | VFloat f => int_of_float f
  | VStr s => expect ValueError (int_of_str s)
  | VNone | VList _ | VDict _ => Raise TypeError
  end.

Definition _b64url_encode (raw : bytes) : result string :=
  s ← bytes_decode_ascii (urlsafe_b64encode raw);
  mret (rstrip "=" s).

Definition _b64url_decode (raw : string) : result bytes :=
  let padded := (raw ++ str_repeat "=" (Z.to_nat ((- Z.of_nat (String.length raw)) mod 4)))%string in
  b ← str_encode_ascii padded;
  expect ValueError (urlsafe_b64decode b).

Definition _get_session_secret (env : Environ) : result bytes :=
  match APP_SESSION_SECRET env with
  | None | Some EmptyString => Raise RuntimeError
  | Some secret => Ok (str_encode_utf8 secret)
  end.

Definition session_payload (telegram_id issued_at : Z) : value :=
  VDict [("telegram_id"%string, VInt telegram_id);
         ("iat"%string, VInt issued_at);
         ("exp"%string, VInt (issued_at + SESSION_TTL_SECONDS))].

(** [time_now] is [int(time.time())]. *)
Definition create_session_token (env : Environ) (time_now : Z) (telegram_id : Z)
  : result string :=
  let issued_at := time_now in
  let payload := session_payload telegram_id issued_at in
  payload_b64 ← _b64url_encode (str_encode_utf8 (json_dumps payload));
  secret ← _get_session_secret env;
  msg ← str_encode_ascii payload_b64;
  let sig := hmac_sha256 secret msg in
  sig_b64 ← _b64url_encode sig;
  mret (payload_b64 ++ "." ++ sig_b64)%string.

(** The [try] block of [parse_and_verify_session]. *)
Definition verify_parts (env : Environ) (time_now : Z) (payload_b64 sig_b64 : string)
  : result (option value) :=
  secret ← _get_session_secret env;
  msg ← str_encode_ascii payload_b64;
  let expected_sig := hmac_sha256 secret msg in
  provided_sig ← _b64url_decode sig_b64;
  if negb (bool_decide (provided_sig = expected_sig)) then mret None
  else
    raw ← _b64url_decode payload_b64;
    s ← expect ValueError (bytes_decode_utf8 raw);
    payload ← expect ValueError (json_loads s);
    exp ← value_get "exp" (VInt 0) payload ≫= py_int;
    if bool_decide (exp < time_now) then mret None
    else mret (Some payload).

Definition parse_and_verify_session (env : Environ) (time_now : Z) (token : string)
  : option value :=
  match split_once "." token with
  | None => None
  | Some (payload_b64, sig_b64) =>
      match verify_parts env time_now payload_b64 sig_b64 with
      | Ok r => r
      | Raise _ => None
      end
  end.

(** [sorted(data.items())]: pairs in lexicographic order, text compared
    by code point. *)
Definition item_leb (a b : string * string) : bool :=
  match String.compare a.1 b.1 with
  | Lt => true
  | Eq => String.leb a.2 b.2
  | Gt => false
  end.

Definition sorted_items (data : gmap string string) : list (string * string) :=
  merge_sort item_leb (map_to_list data).

Definition data_check_string (data : gmap string string) : string :=
  str_join (String "010" EmptyString)
    ((fun kv => (kv.1 ++ "=" ++ kv.2)%string) <$> sorted_items data).

Definition is_ascii_str (s : string) : bool :=
  forallb is_ascii_byte (list_byte_of_string s).

(** [hmac.compare_digest] on text: [TypeError] unless both are ASCII. *)
Definition compare_digest_str (a b : string) : result bool :=
  if is_ascii_str a && is_ascii_str b then Ok (bool_decide (a = b))
  else Raise TypeError.

Definition verify_telegram_login_payload (env : Environ) (time_now : Z)
    (query_params : gmap string string) : result (option (gmap string string)) :=
  match TELEGRAM_BOT_TOKEN env with
  | None | Some EmptyString => Ok None
  | Some token =>
      match query_params !! "hash"%string with
      | None | Some EmptyString => Ok None
      | Some provided_hash =>
          let data := delete "hash"%string query_params in
          let secret_key := sha256 (str_encode_utf8 token) in
          let computed_hash :=
            hmac_sha256_hex secret_key (str_encode_utf8 (data_check_string data)) in
          same ← compare_digest_str computed_hash provided_hash;
          if negb same then mret None
          else
            match int_of_str (default "0"%string (data !! "auth_date"%string)) with
            | None => mret None
            | Some auth_date =>
                if bool_decide (Z.abs (time_now - auth_date) > 60 * 10)
                then mret None
                else mret (Some data)
            end
      end
  end.
End SessionAuth.

(** The alphabet of [base64.urlsafe_b64encode] (RFC 4648, section 5). *)
Definition urlsafe_alphabet : list byte :=
  list_byte_of_string
    "ABCDEFGHIJKLMNOPQRSTUVWXYZabcdefghijklmnopqrstuvwxyz0123456789-_".

(** What the session code relies on from the standard library: the encoder
    writes alphabet characters followed by at most three [=] up to a multiple
    of four, and each decoder inverts its encoder. *)
Class PyLibLaws (L : PyLib) : Prop := {
  b64encode_shape : forall raw, exists body pad,
    urlsafe_b64encode raw = body ++ replicate pad "="%byte /\
    Forall (fun b => b ∈ urlsafe_alphabet) body /\
    ((length body + pad) mod 4 = 0)%nat /\ (pad < 4)%nat;
  b64decode_encode : forall raw, urlsafe_b64decode (urlsafe_b64encode raw) = Some raw;
  utf8_decode_encode : forall s, bytes_decode_utf8 (str_encode_utf8 s) = Some s;
  json_loads_dumps : forall telegram_id issued_at,
    json_loads (json_dumps (session_payload telegram_id issued_at))
      = Some (session_payload telegram_id issued_at) }.

(** ** Handlers *)

Record User := { username : option string }.

Record Message := {
  message_chat : Z;
  photo : list Z }.   (* the sizes of the photo, as file ids *)

Record Update := {
  effective_chat : option Z;
  effective_user : option User;
  message : option Message }.

(** [update.message.reply_text(body)]. *)
Definition reply_text (update : Update) (body : text) : Eff unit :=
  m ← or_raise AttributeError (message update);
  emit (Sent (message_chat m) body).

(** [storage.upload_photo(key, data, ...)]; [accepted] tells whether the
    object store takes the object. *)
Definition upload_photo (accepted : bool) (key : object_key) (data : bytes) : Eff unit :=
  fun w =>
    match storage w with
    | None => (Raise AttributeError, w)
    | Some objects =>
        if accepted
        then (Ok tt, {| db := db w; storage := Some (<[key := data]> objects);
                        bot_app := bot_app w; trace := trace w |})
        else (Raise S3Error, w)
    end.

(** What [handle_photo] reads from outside: the clock at the window check,
    at the key, and inside [upsert_user]; the download of a file; whether
    the upload goes through. *)
Record photo_inputs := {
  photo_now : datetime;
  photo_timestamp_now : datetime;
  photo_created_at : datetime;
  photo_download : Z -> option bytes;
  photo_upload_accepted : bool }.

Definition handle_photo (i : photo_inputs) (update : Update) : Eff unit :=
  w ← get_world;
  match db w, storage w, effective_chat update with
  | Some _, Some _, Some chat_id =>
      banned ← db_try_query (is_user_banned chat_id);
      if banned : bool then reply_text update BannedText
      else
        last_prompt ← db_query get_last_prompt;
        match capture_window (photo_now i) last_prompt with
        | NoPrompt => reply_text update NoPromptText
        | Missed => reply_text update MissedWindowText
        | InWindow =>
            m ← or_raise AttributeError (message update);
            file ← or_raise IndexError (last (photo m));
            photo_bytes ← or_raise NetworkError (photo_download i file);
            user_record ← db_try_query (get_user_by_telegram chat_id);
            user_id ← match user_record with
                      | None =>
                          user ← or_raise AttributeError (effective_user update);
                          db_try_call
                            (upsert_user (photo_created_at i) chat_id (username user))
                      | Some u => mret (user_id u)
                      end;
            let timestamp := photo_timestamp_now i in
            let key : object_key := (chat_id, timestamp / US_PER_SECOND) in
            upload_photo (photo_upload_accepted i) key photo_bytes;;
            db_exec (add_photo user_id timestamp key);;
            reply_text update PhotoReceivedText
        end
  | _, _, _ => mret tt
  end.

Definition handle_start (created_at : datetime) (update : Update) : Eff unit :=
  w ← get_world;
  match db w, effective_chat update, message update with
  | Some _, Some chat_id, Some _ =>
      banned ← db_try_query (is_user_banned chat_id);
      if banned : bool then reply_text update BannedText
      else
        let name := effective_user update ≫= username in
        existing ← db_try_query (get_user_by_telegram chat_id);
        match existing with
        | Some _ =>
            db_try_call (upsert_user created_at chat_id name);;
            reply_text update AlreadyRegisteredText
        | None =>
            open ← db_query are_registrations_open;
            if negb open then reply_text update RegistrationsClosedText
            else
              db_try_call (upsert_user created_at chat_id name);;
              reply_text update RegistrationSuccessfulText
        end
  | _, _, _ => mret tt
  end.

(** [GET /auth/telegram/callback]; the value returned is the session cookie
    set on the redirect. *)
Definition telegram_auth_callback {L : PyLib} (env : Environ) (time_now : Z)
    (created_at : datetime) (query_params : gmap string string) : Eff string :=
  w ← get_world;
  match db w with
  | None => raise (HTTPException 500)
  | Some _ =>
      payload ← lift_result (verify_telegram_login_payload env time_now query_params);
      match payload with
      | None => raise (HTTPException 401)
      | Some data =>
          if bool_decide (data = ∅) then raise (HTTPException 401)
          else
            match data !! "id"%string ≫= int_of_str with
            | None => raise (HTTPException 400)
            | Some telegram_id =>
                banned ← db_try_query (is_user_banned telegram_id);
                if banned : bool then raise (HTTPException 403)
                else
                  existing ← db_try_query (get_user_by_telegram telegram_id);
                  open ← db_query are_registrations_open;
                  if bool_decide (existing = None) && negb open
                  then raise (HTTPException 403)
                  else
                    db_try_call (upsert_user created_at telegram_id
                                   (data !! "username"%string));;
                    try_except
                      (lift_result (create_session_token env time_now telegram_id))
                      (fun e => match e with
                                | RuntimeError => raise (HTTPException 500)
                                | _ => raise e
                                end)
            end
      end
  end.

(** ** A reference library

    The standard-library calls of [PyLib], written out: SHA-256 and HMAC
    (FIPS 180-4, RFC 2104), URL-safe base64 (RFC 4648), UTF-8 for code
    points below 256, and compact JSON for flat objects with integer
    members. *)

Module Ref.

Definition byte_of_Z (z : Z) : byte := default "000"%byte (Byte.of_N (Z.to_N z)).
Definition Z_of_byte (b : byte) : Z := Z.of_N (Byte.to_N b).

(** *** SHA-256 *)

Definition mask32 (x : Z) : Z := Z.land x 0xffffffff.
Definition rotr (n x : Z) : Z :=
  Z.lor (Z.shiftr x n) (mask32 (Z.shiftl x (32 - n))).
Definition Ch (x y z : Z) : Z :=
  Z.lxor (Z.land x y) (Z.land (Z.lxor x 0xffffffff) z).
Definition Maj (x y z : Z) : Z :=
  Z.lxor (Z.lxor (Z.land x y) (Z.land x z)) (Z.land y z).
Definition Sigma0 (x : Z) : Z := Z.lxor (Z.lxor (rotr 2 x) (rotr 13 x)) (rotr 22 x).
Definition Sigma1 (x : Z) : Z := Z.lxor (Z.lxor (rotr 6 x) (rotr 11 x)) (rotr 25 x).
Definition sigma0 (x : Z) : Z := Z.lxor (Z.lxor (rotr 7 x) (rotr 18 x)) (Z.shiftr x 3).
Definition sigma1 (x : Z) : Z := Z.lxor (Z.lxor (rotr 17 x) (rotr 19 x)) (Z.shiftr x 10).

(** The first 64 primes. *)
Definition is_prime (n : Z) : bool :=
  forallb (fun d => negb (n mod d =? 0)) (seqZ 2 (n - 2)).

Definition primes : list Z := Eval vm_compute in filter is_prime (seqZ 2 310).

(** The integer cube root, one bit at a time from bit [bits - 1] down. *)
Fixpoint cube_root (bits : nat) (n r : Z) : Z :=
  match bits with
  | O => r
  | S b =>
      let c := r + Z.shiftl 1 (Z.of_nat b) in
      cube_root b n (if c * c * c <=? n then c else r)
  end.

(** The round constants: the first 32 bits of the fractional parts of the
    cube roots of the primes. *)
Definition K : list Z :=
  Eval vm_compute in (fun p => mask32 (cube_root 36 (Z.shiftl p 96) 0)) <$> primes.

(** The initial hash value: the same of the square roots of the first
    eight primes. *)
Definition H0 : list Z :=
  Eval vm_compute in (fun p => mask32 (Z.sqrt (Z.shiftl p 64))) <$> take 8 primes.

(** The message, a one bit, zeros, and the bit length on 64 bits. *)
Definition pad (msg : bytes) : list Z :=
  let n := Z.of_nat (length msg) in
  let bits := 8 * n in
  (Z_of_byte <$> msg) ++ [0x80] ++ replicate (Z.to_nat ((55 - n) mod 64)) 0
    ++ ((fun i => Z.land (Z.shiftr bits (8 * i)) 0xff) <$> [7; 6; 5; 4; 3; 2; 1; 0]).

(** Big-endian words of four bytes. *)
Fixpoint words (l : list Z) : list Z :=
  match l with
  | a :: b :: c :: d :: rest =>
      (Z.shiftl a 24 + Z.shiftl b 16 + Z.shiftl c 8 + d) :: words rest
  | _ => []
  end.

Fixpoint chunks {A} (fuel n : nat) (l : list A) : list (list A) :=
  match fuel, l with
  | O, _ | _, [] => []
  | S fuel', _ => take n l :: chunks fuel' n (drop n l)
  end.

Fixpoint schedule (k : nat) (w : list Z) : list Z :=
  match k with
  | O => w
  | S k' =>
      let t := length w in
      let x (i : nat) := w !!! (t - i)%nat in
      schedule k' (w ++ [mask32 (sigma1 (x 2%nat) + x 7%nat + sigma0 (x 15%nat) + x 16%nat)])
  end.

Definition round (s : list Z) (kw : Z * Z) : list Z :=
  match s with
  | [a; b; c; d; e; f; g; h] =>
      let t1 := h + Sigma1 e + Ch e f g + kw.1 + kw.2 in
      let t2 := Sigma0 a + Maj a b c in
      [mask32 (t1 + t2); a; b; c; mask32 (d + t1); e; f; g]
  | _ => s
  end.

Definition compress (h : list Z) (block : list Z) : list Z :=
  let s := foldl round h (zip K (schedule 48 block)) in
  zip_with (fun x y => mask32 (x + y)) h s.

Definition sha256 (msg : bytes) : bytes :=
  let ws := words (pad msg) in
  let h := foldl compress H0 (chunks (length ws) 16 ws) in
  h ≫= fun w => (fun i => byte_of_Z (Z.land (Z.shiftr w (8 * i)) 0xff)) <$> [3; 2; 1; 0].

(** *** HMAC-SHA256 *)

Definition hmac_sha256 (key msg : bytes) : bytes :=
  let key := if bool_decide (64 < length key)%nat then sha256 key else key in
  let key := key ++ replicate (64 - length key) "000"%byte in
  let xor_with (c : Z) := (fun b => byte_of_Z (Z.lxor (Z_of_byte b) c)) <$> key in
  sha256 (xor_with 0x5c ++ sha256 (xor_with 0x36 ++ msg)).

Definition hex_digit (n : Z) : ascii :=
  default "0"%char (list_ascii_of_string "0123456789abcdef" !! Z.to_nat n).

Fixpoint hexlify (l : bytes) : string :=
  match l with
  | [] => EmptyString
  | b :: rest =>
      String (hex_digit (Z_of_byte b / 16))
        (String (hex_digit (Z_of_byte b mod 16)) (hexlify rest))
  end.

Definition hmac_sha256_hex (key msg : bytes) : string := hexlify (hmac_sha256 key msg).

(** *** URL-safe base64 *)

Definition b64_char (n : nat) : byte := default "A"%byte (urlsafe_alphabet !! n).

Definition b64_value (c : byte) : option nat :=
  fst <$> list_find (fun x => x = c) urlsafe_alphabet.

Fixpoint urlsafe_b64encode (l : bytes) : bytes :=
  match l with
  | [] => []
  | [a] =>
      let x := Byte.to_nat a in
      [b64_char (x / 4); b64_char (x mod 4 * 16); "="%byte; "="%byte]
  | [a; b] =>
      let x := Byte.to_nat a in
      let y := Byte.to_nat b in
      [b64_char (x / 4); b64_char (x mod 4 * 16 + y / 16);
       b64_char (y mod 16 * 4); "="%byte]
  | a :: b :: c :: rest =>
      let x := Byte.to_nat a in
      let y := Byte.to_nat b in
      let z := Byte.to_nat c in
      b64_char (x / 4) :: b64_char (x mod 4 * 16 + y / 16)
        :: b64_char (y mod 16 * 4 + z / 64) :: b64_char (z mod 64)
        :: urlsafe_b64encode rest
  end%nat.

(** The strict decoder: canonical input only. *)
Fixpoint urlsafe_b64decode (l : bytes) : option bytes :=
  match l with
  | [] => Some []
  | c1 :: c2 :: c3 :: c4 :: rest =>
      v1 ← b64_value c1;
      v2 ← b64_value c2;
      b1 ← Byte.of_nat (v1 * 4 + v2 / 16);
      if bool_decide (c3 = "="%byte) then
        if bool_decide (c4 = "="%byte /\ rest = [] /\ v2 mod 16 = 0)%nat
        then Some [b1] else None
      else
        v3 ← b64_value c3;
        b2 ← Byte.of_nat (v2 mod 16 * 16 + v3 / 4);
        if bool_decide (c4 = "="%byte) then
          if bool_decide (rest = [] /\ v3 mod 4 = 0)%nat
          then Some [b1; b2] else None
        else
          v4 ← b64_value c4;
          b3 ← Byte.of_nat (v3 mod 4 * 64 + v4);
          tail ← urlsafe_b64decode rest;
          Some (b1 :: b2 :: b3 :: tail)
  | _ => None
  end%nat.

(** *** UTF-8, for text whose code points are below 256 *)

Definition utf8_char (a : ascii) : bytes :=
  let n := nat_of_ascii a in
  if (n <? 128)%nat then [byte_of_ascii a]
  else [default "000"%byte (Byte.of_nat (192 + n / 64));
        default "000"%byte (Byte.of_nat (128 + n mod 64))]%nat.

Fixpoint str_encode_utf8 (s : string) : bytes :=
  match s with
  | EmptyString => []
  | String a s' => utf8_char a ++ str_encode_utf8 s'
  end.

Fixpoint bytes_decode_utf8 (l : bytes) : option string :=
  match l with
  | [] => Some EmptyString
  | b :: rest =>
      let n := Byte.to_nat b in
      if (n <? 128)%nat then String (ascii_of_byte b) <$> bytes_decode_utf8 rest
      else if ((n =? 194) || (n =? 195))%nat then
        match rest with
        | c :: rest' =>
            let m := Byte.to_nat c in
            if ((128 <=? m) && (m <? 192))%nat
            then String (ascii_of_nat ((n - 192) * 64 + (m - 128)))
                   <$> bytes_decode_utf8 rest'
            else None
        | [] => None
        end
      else None
  end.

(** *** Decimal numerals and compact JSON *)

Definition quote : ascii := "034"%char.

Definition decimal (z : Z) : string := NilZero.string_of_int (Z.to_int z).

Definition int_of_str (s : string) : option Z :=
  Z.of_int <$> NilZero.int_of_string s.

Definition is_numeral_char (c : ascii) : bool :=
  bool_decide (c ∈ list_ascii_of_string "-0123456789").

(** The longest prefix made of numeral characters, and the rest. *)
Fixpoint span_numeral (s : string) : string * string :=
  match s with
  | EmptyString => (EmptyString, EmptyString)
  | String c s' =>
      if is_numeral_char c
      then let '(num, rest) := span_numeral s' in (String c num, rest)
      else (EmptyString, s)
  end.

Definition json_scalar (v : value) : string :=
  match v with
  | VInt n => decimal n
  | VBool true => "true"
  | VBool false => "false"
  | VStr s => String quote (s ++ String quote EmptyString)
  | _ => "null"
  end.

Definition json_member (kv : string * value) : string :=
  (String quote (kv.1 ++ String quote EmptyString) ++ ":" ++ json_scalar kv.2)%string.

(** [json.dumps(v, separators=(",", ":"))] for scalars and for flat
    objects; keys and text are taken to need no escaping. *)
Definition json_dumps (v : value) : string :=
  match v with
  | VDict items => ("{" ++ str_join "," (json_member <$> items) ++ "}")%string
  | _ => json_scalar v
  end.

(** [json.loads] on a flat object with integer members. *)
Fixpoint json_members (fuel : nat) (s : string) : option (list (string * value)) :=
  match fuel, s with
  | S fuel', String q s1 =>
      if negb (Ascii.eqb q quote) then None
      else
        '(key, s2) ← split_once quote s1;
        match s2 with
        | String colon s3 =>
            if negb (Ascii.eqb colon ":") then None
            else
              let '(numeral, s4) := span_numeral s3 in
              n ← int_of_str numeral;
              match s4 with
              | String c s5 =>
                  if Ascii.eqb c "}" then
                    match s5 with
                    | EmptyString => Some [(key, VInt n)]
                    | _ => None
                    end
                  else if Ascii.eqb c "," then
                    rest ← json_members fuel' s5;
                    Some ((key, VInt n) :: rest)
                  else None
              | EmptyString => None
              end
        | EmptyString => None
        end
  | _, _ => None
  end.

Definition json_loads (s : string) : option value :=
  match s with
  | String c s' =>
      if negb (Ascii.eqb c "{") then None
      else if bool_decide (s' = "}"%string) then Some (VDict [])
      else VDict <$> json_members (String.length s') s'
  | EmptyString => None
  end.

End Ref.

Definition ref_lib : PyLib := {|
  hmac_sha256 := Ref.hmac_sha256;
  hmac_sha256_hex := Ref.hmac_sha256_hex;
  sha256 := Ref.sha256;
  urlsafe_b64encode := Ref.urlsafe_b64encode;
  urlsafe_b64decode := Ref.urlsafe_b64decode;
  str_encode_utf8 := Ref.str_encode_utf8;
  bytes_decode_utf8 := Ref.bytes_decode_utf8;
  json_dumps := Ref.json_dumps;
  json_loads := Ref.json_loads;
  int_of_str := Ref.int_of_str |}.

(** A numeral is made of numeral characters. *)
Definition numeral (s : string) : Prop :=
  Forall (fun c => Ref.is_numeral_char c = true) (list_ascii_of_string s).

(** ** The rest of the participant tables ([app/db.py]) *)

Definition set_registrations_open (open : bool) (d : Database) : Database :=
  {| users := users d; users_seq := users_seq d;
     photos := photos d; photos_seq := photos_seq d;
     last_prompt := last_prompt d;
     registrations_open := open;
     next_prompt := next_prompt d;
     banned_users := banned_users d;
     prompt_history := prompt_history d;
     prompt_history_seq := prompt_history_seq d |}.

Definition set_banned_users (rows : list ban_row) (d : Database) : Database :=
  {| users := users d; users_seq := users_seq d;
     photos := photos d; photos_seq := photos_seq d;
     last_prompt := last_prompt d;
     registrations_open := registrations_open d;
     next_prompt := next_prompt d;
     banned_users := rows;
     prompt_history := prompt_history d;
     prompt_history_seq := prompt_history_seq d |}.

(** What [ON CONFLICT ... DO UPDATE SET reason] does to one row. *)
Definition set_reason (telegram_id : Z) (reason : option string) (r : ban_row)
  : ban_row :=
  if bool_decide (ban_telegram_id r = telegram_id)
  then {| ban_telegram_id := ban_telegram_id r; ban_reason := reason;
          ban_created_at := ban_created_at r |}
  else r.

(** [INSERT ... ON CONFLICT(telegram_id) DO UPDATE SET reason =
    excluded.reason]: a row that is there keeps its [created_at].  [now] is
    the clock reading taken for a new row. *)
Definition ban_user_sql (now : datetime) (telegram_id : Z) (reason : option string)
    (d : Database) : Database :=
  if is_user_banned_sql telegram_id d
  then set_banned_users (set_reason telegram_id reason <$> banned_users d) d
  else set_banned_users
         (banned_users d ++ [{| ban_telegram_id := telegram_id; ban_reason := reason;
                                ban_created_at := now |}]) d.

Definition ban_user (now : datetime) (telegram_id : Z) (reason : option string)
    (d : Database) : result Database :=
  telegram_id ← bind_int telegram_id;
  Ok (ban_user_sql now telegram_id reason d).

(** [DELETE FROM banned_users WHERE telegram_id = ?]. *)
Definition unban_user_sql (telegram_id : Z) (d : Database) : Database :=
  set_banned_users
    (filter (fun r => ban_telegram_id r <> telegram_id) (banned_users d)) d.

Definition unban_user (telegram_id : Z) (d : Database) : result Database :=
  telegram_id ← bind_int telegram_id;
  Ok (unban_user_sql telegram_id d).

(** The [SELECT COUNT( * )] queries. *)
Definition count_users (d : Database) : Z := Z.of_nat (length (users d)).
Definition count_banned_users (d : Database) : Z := Z.of_nat (length (banned_users d)).
Definition count_photos_total (d : Database) : Z := Z.of_nat (length (photos d)).
Definition count_photos_for_user (user_id : Z) (d : Database) : Z :=
  Z.of_nat (length (filter (fun p => photo_user_id p = user_id) (photos d))).
Definition count_prompt_history (d : Database) : Z :=
  Z.of_nat (length (prompt_history d)).

(** [users LEFT JOIN photos ... GROUP BY u.id ORDER BY u.id]: every user with
    the number of photo rows that carry its id. *)
Definition get_users_with_photo_counts (d : Database) : list (user_row * Z) :=
  (fun u => (u, count_photos_for_user (user_id u) d)) <$> order_by user_id (users d).

(** [DELETE FROM photos WHERE user_id = ?] and [DELETE FROM users WHERE id =
    ?]; the sequence values stay, as [AUTOINCREMENT] has it. *)
Definition delete_user_sql (uid : Z) (d : Database) : Database :=
  {| users := filter (fun u => user_id u <> uid) (users d);
     users_seq := users_seq d;
     photos := filter (fun p => photo_user_id p <> uid) (photos d);
     photos_seq := photos_seq d;
     last_prompt := last_prompt d;
     registrations_open := registrations_open d;
     next_prompt := next_prompt d;
     banned_users := banned_users d;
     prompt_history := prompt_history d;
     prompt_history_seq := prompt_history_seq d |}.

(** The lookup is [get_user_by_telegram], which binds the id; the two
    [DELETE] statements run on the id of the row found. *)
Definition delete_user (telegram_id : Z) (d : Database) : result (bool * Database) :=
  user ← get_user_by_telegram telegram_id d;
  match user with
  | None => Ok (false, d)
  | Some user => Ok (true, delete_user_sql (user_id user) d)
  end.

(** [SELECT ... FROM photos WHERE user_id = ? ORDER BY timestamp DESC].  The
    column holds [isoformat()] text of UTC instants, whose text order is the
    order of the instants. *)
Definition list_photos_for_user (user_id : Z) (d : Database) : list photo_row :=
  order_by_desc photo_timestamp (filter (fun p => photo_user_id p = user_id) (photos d)).

(** The [users] table as it sits on disk: in key order below its sequence
    value, with [telegram_id] unique. *)
Definition users_wf (d : Database) : Prop :=
  ascending user_id (users d) /\
  Forall (fun u => user_id u <= users_seq d) (users d) /\
  NoDup (user_telegram_id <$> users d).

(** Every photo row carries an id that the [users] table has handed out. *)
Definition photos_wf (d : Database) : Prop :=
  Forall (fun p => photo_user_id p <= users_seq d) (photos d).

(** [banned_users] has [telegram_id] as its primary key. *)
Definition bans_wf (d : Database) : Prop :=
  NoDup (ban_telegram_id <$> banned_users d).

(** What [ON CONFLICT ... DO UPDATE SET username] does to one row. *)
Definition rename_row (telegram_id : Z) (username : option string) (r : user_row)
  : user_row :=
  if bool_decide (user_telegram_id r = telegram_id)
  then {| user_id := user_id r; user_telegram_id := user_telegram_id r;
          user_username := username; user_created_at := user_created_at r |}
  else r.

(** The participant row a submission is filed under by [handle_photo], for
    a chat id that binds: the one on record, or the one [upsert_user]
    creates. *)
Definition filed_under (i : photo_inputs) (chat_id : Z) (name : option string)
    (d : Database) : Z * Database :=
  match get_user_by_telegram_sql chat_id d with
  | Some u => (user_id u, d)
  | None => upsert_user_sql (photo_created_at i) chat_id name d
  end.

(** ** [GET /me] *)

(** [bool(v)]. *)
Definition truthy (v : value) : bool :=
  match v with
  | VNone => false
  | VBool b => b
  | VInt n => negb (n =? 0)
  | VFloat (SpecFloat.S754_zero _) => false
  | VFloat _ => true
  | VStr s => negb (bool_decide (s = EmptyString))
  | VList items => negb (bool_decide (items = []))
  | VDict items => negb (bool_decide (items = []))
  end.

(** The endpoint reads the store and never writes it.  Beside the HTTP
    errors it can end in the [KeyError] of [payload["telegram_id"]], in what
    [int()] raises or in what the lookup raises. *)
Inductive me_outcome :=
  | MeOk (user : user_row)
  | MeHTTP (status : Z)
  | MeKeyError
  | MeRaise (e : exn).

Definition get_me {L : PyLib} (env : Environ) (time_now : Z) (cookie : option string)
    (w : World) : me_outcome :=
  match db w with
  | None => MeHTTP 500
  | Some d =>
      let token := default EmptyString cookie in
      match parse_and_verify_session env time_now token with
      | None => MeHTTP 401
      | Some payload =>
          if negb (truthy payload) then MeHTTP 401
          else
            match payload with
            | VDict items =>
                match list_find (fun kv => kv.1 = "telegram_id"%string) items with
                | None => MeKeyError
                | Some (_, kv) =>
                    match py_int kv.2 with
                    | Raise e => MeRaise e
                    | Ok telegram_id =>
                        match get_user_by_telegram telegram_id d with
                        | Raise e => MeRaise e
                        | Ok None => MeHTTP 404
                        | Ok (Some user) => MeOk user
                        end
                    end
                end
            | _ => MeRaise TypeError
            end
      end
  end.

(** ** Owner commands *)

Record OwnerEnviron := {
  TELEGRAM_OWNER_ID : option string;
  BOT_OWNER_TELEGRAM_ID : option string }.

(** [os.getenv(a) or os.getenv(b)]. *)
Definition getenv_or (a b : option string) : option string :=
  match a with
  | Some (String _ _) => a
  | _ => b
  end.

(** [int(raw)] raising [ValueError] gives [None] (and a log line). *)
Definition get_owner_telegram_id {L : PyLib} (env : OwnerEnviron) : option Z :=
  match getenv_or (TELEGRAM_OWNER_ID env) (BOT_OWNER_TELEGRAM_ID env) with
  | None | Some EmptyString => None
  | Some raw => int_of_str raw
  end.

(** An update as the owner commands read it: beside the fields of [Update],
    the id of [update.effective_user] (read only when there is one) and
    [context.args]. *)
Record Command := {
  command_update : Update;
  effective_user_id : Z;
  context_args : list string }.

Definition is_owner {L : PyLib} (env : OwnerEnviron) (c : Command) : bool :=
  match get_owner_telegram_id env with
  | None => false
  | Some owner_id =>
      if bool_decide (owner_id = 0) then false
      else
        match effective_user (command_update c) with
        | None => false
        | Some _ => bool_decide (effective_user_id c = owner_id)
        end
  end.

(** One line of the [/users] listing. *)
Inductive users_line :=
  | UsersHeader (count : nat)                 (* Registered users: N *)
  | UsersEntry (telegram_id : Z) (username : option string) (photo_count : Z)
      (banned : bool).

(** What the owner commands answer on [update.message]. *)
Inductive owner_text :=
  | OwnerNotConfiguredText   (* Bot owner is not configured. ... *)
  | OwnerOnlyText            (* This command is for the bot owner only. *)
  | RegistrationsAreText (open : bool)
  | RegistrationsNowOpenText
  | RegistrationsNowClosedText
  | UsageText (usage : string)
  | NotAnIntegerText         (* telegram_id must be an integer. *)
  | BannedIdText (telegram_id : Z) (reason : option string)
  | UnbannedIdText (telegram_id : Z)
  | DeletedUserText (telegram_id : Z)
  | UserNotFoundText
  | NoRegisteredUsersText
  | UsersText (lines : list users_line)
  | PromptsText (last next : option datetime) (seconds_until : timedelta).

(** The verdict of [require_owner] and what it answers on the way. *)
Definition require_owner {L : PyLib} (env : OwnerEnviron) (c : Command)
  : bool * list owner_text :=
  let update := command_update c in
  let answer (body : owner_text) :=
    match message update with
    | Some _ => [body]
    | None => []
    end in
  match get_owner_telegram_id env with
  | None => (false, answer OwnerNotConfiguredText)
  | Some owner_id =>
      if bool_decide (owner_id = 0) then (false, answer OwnerNotConfiguredText)
      else
        match effective_user update with
        | Some _ =>
            if bool_decide (effective_user_id c = owner_id) then (true, [])
            else (false, answer OwnerOnlyText)
        | None => (false, answer OwnerOnlyText)
        end
  end.

(** The head shared by the owner commands that use the store: return
    silently without a store or a message, stop where [require_owner] says
    no, and run [body] otherwise.  The value returned is the list of answers
    sent. *)
Definition owner_command {L : PyLib} (env : OwnerEnviron) (c : Command)
    (body : Eff (list owner_text)) : Eff (list owner_text) :=
  w ← get_world;
  match db w, message (command_update c) with
  | Some _, Some _ =>
      let '(allowed, answers) := require_owner env c in
      if negb allowed then mret answers
      else more ← body; mret (answers ++ more)
  | _, _ => mret []
  end.

(** [str.isspace] on one character below 256. *)
Definition is_whitespace (c : ascii) : bool :=
  let n := nat_of_ascii c in
  ((9 <=? n) && (n <=? 13) || (28 <=? n) && (n <=? 32) || (n =? 133) || (n =? 160))%nat.

Fixpoint lstrip_whitespace (s : string) : string :=
  match s with
  | EmptyString => EmptyString
  | String c s' => if is_whitespace c then lstrip_whitespace s' else s
  end.

Fixpoint rstrip_whitespace (s : string) : string :=
  match s with
  | EmptyString => EmptyString
  | String c s' =>
      match rstrip_whitespace s' with
      | EmptyString => if is_whitespace c then EmptyString else String c EmptyString
      | t => String c t
      end
  end.

(** [s.strip()]. *)
Definition strip (s : string) : string := rstrip_whitespace (lstrip_whitespace s).

(** [int(context.args[0])] behind the usage and [ValueError] answers. *)
Definition with_telegram_id {L : PyLib} (usage : string) (c : Command)
    (body : Z -> Eff (list owner_text)) : Eff (list owner_text) :=
  match context_args c with
  | [] => mret [UsageText usage]
  | arg :: _ =>
      match int_of_str arg with
      | None => mret [NotAnIntegerText]
      | Some telegram_id => body telegram_id
      end
  end.

Section OwnerCommands.
Context {L : PyLib}.

Definition handle_registrations (env : OwnerEnviron) (c : Command)
  : Eff (list owner_text) :=
  owner_command env c
    (open_state ← db_query are_registrations_open;
     mret [RegistrationsAreText open_state]).

Definition handle_open_registrations (env : OwnerEnviron) (c : Command)
  : Eff (list owner_text) :=
  owner_command env c
    (db_exec (set_registrations_open true);; mret [RegistrationsNowOpenText]).

Definition handle_close_registrations (env : OwnerEnviron) (c : Command)
  : Eff (list owner_text) :=
  owner_command env c
    (db_exec (set_registrations_open false);; mret [RegistrationsNowClosedText]).

(** [now] is the clock reading inside [db.ban_user]. *)
Definition handle_ban (env : OwnerEnviron) (now : datetime) (c : Command)
  : Eff (list owner_text) :=
  owner_command env c
    (with_telegram_id "/ban <telegram_id> [reason]" c (fun telegram_id =>
       let text := strip (str_join " " (tail (context_args c))) in
       let reason := if bool_decide (text = EmptyString) then None else Some text in
       db_try_exec (ban_user now telegram_id reason);;
       mret [BannedIdText telegram_id reason])).

Definition handle_unban (env : OwnerEnviron) (c : Command) : Eff (list owner_text) :=
  owner_command env c
    (with_telegram_id "/unban <telegram_id>" c (fun telegram_id =>
       db_try_exec (unban_user telegram_id);;
       mret [UnbannedIdText telegram_id])).

Definition handle_delete_user (env : OwnerEnviron) (c : Command)
  : Eff (list owner_text) :=
  owner_command env c
    (with_telegram_id "/delete_user <telegram_id>" c (fun telegram_id =>
       deleted ← db_try_call (delete_user telegram_id);
       if deleted : bool then mret [DeletedUserText telegram_id]
       else mret [UserNotFoundText])).

(** The loop that cuts the listing into messages of 40 lines. *)
Fixpoint chunk_lines {A} (lines chunk : list A) : list (list A) :=
  match lines with
  | [] =>
      match chunk with
      | [] => []
      | _ => [chunk]
      end
  | line :: rest =>
      let chunk := chunk ++ [line] in
      if bool_decide (40 <= length chunk)%nat then chunk :: chunk_lines rest []
      else chunk_lines rest chunk
  end.

(** [user.get("username") or ...]: an empty name counts as none. *)
Definition shown_username (name : option string) : option string :=
  match name with
  | Some (String _ _) => name
  | _ => None
  end.

Definition handle_users (env : OwnerEnviron) (c : Command) : Eff (list owner_text) :=
  owner_command env c
    (users ← db_query get_users_with_photo_counts;
     match users with
     | [] => mret [NoRegisteredUsersText]
     | _ =>
         banned ← db_query get_banned_users;
         let banned_ids : gset Z := list_to_set (ban_telegram_id <$> banned) in
         let lines :=
           UsersHeader (length users)
           :: ((fun user : user_row * Z =>
                  UsersEntry (user_telegram_id user.1) (shown_username (user_username user.1))
                    user.2 (bool_decide (user_telegram_id user.1 ∈ banned_ids)))
               <$> users) in
         mret (UsersText <$> chunk_lines lines [])
     end).

(** [r1], [r2] are the draws the picker may consume. *)
Definition handle_prompts (env : OwnerEnviron) (r1 r2 : nat) (now : datetime)
    (c : Command) : Eff (list owner_text) :=
  owner_command env c
    (last_prompt ← db_query get_last_prompt;
     next_prompt ← db_query get_next_prompt;
     let stale := match next_prompt with
                  | Some t => bool_decide (t <= now)
                  | None => true
                  end in
     next_prompt ←
       (if stale
        then
          recent ← db_query (get_recent_prompt_minutes (PROMPT_MINUTE_HISTORY_DAYS - 1));
          let excluded : gset Z := list_to_set recent in
          target ← lift_result (choose_prompt_time r1 r2 now last_prompt excluded);
          db_exec (set_next_prompt (Some target));;
          mret (Some target)
        else mret next_prompt);
     let seconds_until := match next_prompt with
                          | Some t => t - now
                          | None => 0
                          end in
     mret [PromptsText last_prompt next_prompt seconds_until]).
End OwnerCommands.

(** ** Durations in words *)

(** [divmod(a, b)] for a positive [b]. *)
Definition divmod (a b : Z) : Z * Z := (a / b, a mod b).

(** [f"{n}{unit}"]. *)
Definition amount (n : Z) (unit : string) : string := (Ref.decimal n ++ unit)%string.

Definition format_duration (seconds : SpecFloat.spec_float) : result string :=
  total ← int_of_float seconds;
  let total := if bool_decide (total < 0) then 0 else total in
  let '(days, rem) := divmod total 86400 in
  let '(hours, rem) := divmod rem 3600 in
  let '(minutes, secs) := divmod rem 60 in
  let parts := [] in
  let parts := if bool_decide (days <> 0) then parts ++ [amount days "d"] else parts in
  let parts := if bool_decide (hours <> 0) then parts ++ [amount hours "h"] else parts in
  let parts := if bool_decide (minutes <> 0) then parts ++ [amount minutes "m"] else parts in
  let parts := parts ++ [amount secs "s"] in
  mret (str_join " " parts).

(** ** Sample data

    A store with three participants, the second of them banned, used to run
    the definitions on concrete input. *)

Definition alice : user_row :=
  {| user_id := 1; user_telegram_id := 101;
     user_username := Some "alice"%string; user_created_at := days 19000 |}.
Definition bob : user_row :=
  {| user_id := 2; user_telegram_id := 102;
     user_username := None; user_created_at := days 19001 |}.
Definition carol : user_row :=
  {| user_id := 3; user_telegram_id := 103;
     user_username := Some "carol"%string; user_created_at := days 19002 |}.

(** 2024-01-01T12:00:00Z. *)
Definition noon : datetime := days 19723 + 12 * US_PER_HOUR.

Definition sample_db : Database := {|
  users := [alice; bob; carol]; users_seq := 3;
  photos := []; photos_seq := 0;
  last_prompt := Some (days 19722 + 8 * US_PER_HOUR);
  registrations_open := false;
  next_prompt := Some (noon - 10 * US_PER_MINUTE);
  banned_users := [{| ban_telegram_id := 102; ban_reason := None;
                      ban_created_at := days 19100 |}];
  prompt_history :=
    [{| history_id := 1; history_prompt_time := days 19722 + 8 * US_PER_HOUR;
        history_minute_of_day := 480 |}];
  prompt_history_seq := 1 |}.

Definition sample_world : World :=
  {| db := Some sample_db; storage := Some ∅; bot_app := true; trace := [] |}.

Definition fresh_world : World :=
  {| db := Some init; storage := Some ∅; bot_app := true; trace := [] |}.

(** The channel refuses chat 103 and takes every other message. *)
Definition sample_deliver (chat_id : Z) : bool := negb (bool_decide (chat_id = 103)).

Definition sample_turn : turn :=
  {| turn_now := noon; turn_r1 := 7; turn_r2 := 11;
     turn_deliver := sample_deliver; turn_prompt_time := noon + 3 * US_PER_HOUR |}.

(** Noon of 9999-12-31: the last prompt went out at eight that morning, and
    the target on record is ten minutes old. *)
Definition last_day_noon : datetime := days DATE_MAX + 12 * US_PER_HOUR.

Definition last_day_db : Database :=
  set_next_prompt (Some (last_day_noon - 10 * US_PER_MINUTE))
    (set_last_prompt (days DATE_MAX + 8 * US_PER_HOUR) sample_db).

Definition last_day_world : World :=
  {| db := Some last_day_db; storage := Some ∅; bot_app := true; trace := [] |}.

Definition last_day_turn : turn :=
  {| turn_now := last_day_noon; turn_r1 := 7; turn_r2 := 11;
     turn_deliver := sample_deliver; turn_prompt_time := last_day_noon |}.

Definition sample_env : Environ :=
  {| APP_SESSION_SECRET := Some "s3cret"%string;
     TELEGRAM_BOT_TOKEN := Some "123:abc"%string |}.

(** A login assertion for id 42, signed under the bot token of
    [sample_env]. *)
Definition sample_query : gmap string string :=
  list_to_map
    [("id", "42"); ("username", "zed"); ("auth_date", "1700000000");
     ("hash", "967c355b67edf1da97ba225ee43e3f42f83219c69e3cc7081518af7ffbacb64a")]%string.

(** A photo from chat 555, which has no participant record, thirty seconds
    after the last prompt of [sample_db]. *)
Definition sample_update : Update :=
  {| effective_chat := Some 555;
     effective_user := Some {| username := Some "dana"%string |};
     message := Some {| message_chat := 555; photo := [9001; 9002] |} |}.

Definition sample_photo_inputs : photo_inputs :=
  {| photo_now := days 19722 + 8 * US_PER_HOUR + seconds 30;
     photo_timestamp_now := days 19722 + 8 * US_PER_HOUR + seconds 31;
     photo_created_at := days 19722 + 8 * US_PER_HOUR + seconds 31;
     photo_download := fun file => if bool_decide (file = 9002)
                                   then Some (list_byte_of_string "JPEG") else None;
     photo_upload_accepted := true |}.

(** ** More sample data *)

(** A message with a photo in two sizes, and the bytes of its downloads. *)
Definition photo_message (chat_id : Z) : Message :=
  {| message_chat := chat_id; photo := [9001; 9002] |}.

Definition dana : User := {| username := Some "dana"%string |}.

Definition jpeg : bytes := list_byte_of_string "JPEG".
Definition jpeg2 : bytes := list_byte_of_string "JPG2".

(** Updates from chat 101, a participant of [sample_db], and from chat 102,
    the banned one. *)
Definition alice_update : Update :=
  {| effective_chat := Some 101;
     effective_user := Some {| username := Some "alice"%string |};
     message := Some (photo_message 101) |}.

Definition bob_update : Update :=
  {| effective_chat := Some 102;
     effective_user := Some {| username := None |};
     message := Some (photo_message 102) |}.

(** A second submission, stamped four tenths of a second after the one of
    [sample_photo_inputs]. *)
Definition later_photo_inputs : photo_inputs :=
  {| photo_now := days 19722 + 8 * US_PER_HOUR + seconds 31;
     photo_timestamp_now := days 19722 + 8 * US_PER_HOUR + seconds 31 + 400000;
     photo_created_at := days 19722 + 8 * US_PER_HOUR + seconds 31 + 400000;
     photo_download := fun file => if bool_decide (file = 9002)
                                   then Some (list_byte_of_string "JPG2") else None;
     photo_upload_accepted := true |}.

(** The same submission with the object store refusing the upload. *)
Definition refused_photo_inputs : photo_inputs :=
  {| photo_now := photo_now sample_photo_inputs;
     photo_timestamp_now := photo_timestamp_now sample_photo_inputs;
     photo_created_at := photo_created_at sample_photo_inputs;
     photo_download := photo_download sample_photo_inputs;
     photo_upload_accepted := false |}.

(** [sample_db] after two photos of alice. *)
Definition journal_db : Database :=
  add_photo 1 (days 19722 + 8 * US_PER_HOUR + seconds 40) (101, 1704009640)
    (add_photo 1 (days 19721 + 9 * US_PER_HOUR) (101, 1703926800) sample_db).

(** A turn twenty minutes before noon, when the target of [sample_db] is
    still ten minutes ahead. *)
Definition early_turn : turn :=
  {| turn_now := noon - 20 * US_PER_MINUTE; turn_r1 := 7; turn_r2 := 11;
     turn_deliver := sample_deliver; turn_prompt_time := noon - 10 * US_PER_MINUTE |}.

(** The process before [on_startup] has run. *)
Definition stopped_world : World :=
  {| db := None; storage := None; bot_app := false; trace := [] |}.

Definition no_secret_env : Environ :=
  {| APP_SESSION_SECRET := None; TELEGRAM_BOT_TOKEN := Some "123:abc"%string |}.

(** Alice is the owner. *)
Definition sample_owner_env : OwnerEnviron :=
  {| TELEGRAM_OWNER_ID := Some "101"%string; BOT_OWNER_TELEGRAM_ID := None |}.

Definition owner_says (args : list string) : Command :=
  {| command_update := alice_update; effective_user_id := 101; context_args := args |}.

(** * Properties *)

(** ** Calendar arithmetic *)

Lemma US_PER_DAY_eq : US_PER_DAY = 86400000000.
Proof. reflexivity. Qed.

Lemma US_PER_MINUTE_eq : US_PER_MINUTE = 60000000.
Proof. reflexivity. Qed.

Lemma US_PER_HOUR_eq : US_PER_HOUR = 3600000000.
Proof. reflexivity. Qed.

Lemma next_day_after (now : datetime) (d off : Z) :
  dt_date now + 1 <= d -> 0 <= off -> now < d * US_PER_DAY + off.
Proof.
  unfold dt_date. rewrite US_PER_DAY_eq. intros Hd Hoff.
  pose proof (Z.mod_pos_bound now 86400000000 ltac:(lia)) as Hm.
  pose proof (Z.div_mod now 86400000000 ltac:(lia)) as Hdm.
  nia.
Qed.

Lemma datetime_utc_of_minute (day m : Z) :
  0 <= m < MINUTES_PER_DAY ->
  datetime_utc day (m / 60) (m mod 60) = Some (day * US_PER_DAY + m * US_PER_MINUTE).
Proof.
  unfold MINUTES_PER_DAY, datetime_utc. intros Hm.
  rewrite bool_decide_eq_true_2.
  - f_equal. rewrite US_PER_HOUR_eq, US_PER_MINUTE_eq.
    pose proof (Z.div_mod m 60 ltac:(lia)). lia.
  - pose proof (Z.mod_pos_bound m 60 ltac:(lia)).
    split; [|lia]. split; [apply Z.div_pos; lia | apply Z.div_lt_upper_bound; lia].
Qed.

Lemma minute_of_day_of_minute (day m : Z) :
  0 <= m < MINUTES_PER_DAY ->
  minute_of_day (day * US_PER_DAY + m * US_PER_MINUTE) = m.
Proof.
  unfold MINUTES_PER_DAY, minute_of_day, dt_hour, dt_minute. intros Hm.
  rewrite US_PER_DAY_eq, US_PER_MINUTE_eq, US_PER_HOUR_eq.
  replace (day * 86400000000 + m * 60000000) with (m * 60000000 + day * 86400000000) by lia.
  rewrite Z.mod_add by lia.
  rewrite (Z.mod_small (m * 60000000)) by lia.
  rewrite Z.div_mul by lia.
  replace 3600000000 with (60000000 * 60) by lia.
  rewrite <- Z.div_div by lia.
  rewrite Z.div_mul by lia.
  pose proof (Z.div_mod m 60 ltac:(lia)). lia.
Qed.

(** ** Time-slot picker *)

Lemma random_choice_elem {A} (r : nat) (l : list A) :
  l <> [] -> exists x, random_choice r l = Some x /\ x ∈ l.
Proof.
  intros Hl. destruct l as [|a l]; [done|].
  unfold random_choice. set (l' := a :: l).
  destruct (lookup_lt_is_Some_2 l' (r mod length l')%nat) as [x Hx].
  { apply Nat.mod_upper_bound. done. }
  exists x. split; [done|]. by eapply list_elem_of_lookup_2.
Qed.

Lemma available_minutes_range (excluded : gset Z) (m : Z) :
  m ∈ available_minutes excluded -> 0 <= m < MINUTES_PER_DAY.
Proof.
  unfold available_minutes.
  destruct (filter _ _) as [|a l] eqn:Hf.
  - rewrite elem_of_seqZ. lia.
  - rewrite <- Hf. rewrite list_elem_of_filter, elem_of_seqZ. lia.
Qed.

Lemma available_minutes_nonempty (excluded : gset Z) : available_minutes excluded <> [].
Proof.
  unfold available_minutes. destruct (filter _ _) as [|a l] eqn:Hf; [|done].
  by vm_compute.
Qed.

(** When some minute of the day is free, every available minute is free. *)
Lemma available_minutes_free (excluded : gset Z) (m0 m : Z) :
  0 <= m0 < MINUTES_PER_DAY -> m0 ∉ excluded ->
  m ∈ available_minutes excluded -> m ∉ excluded.
Proof.
  intros Hr Hfree. unfold available_minutes.
  destruct (filter _ _) as [|a l] eqn:Hf.
  - assert (m0 ∈ filter (fun m => m ∉ excluded) (seqZ 0 MINUTES_PER_DAY)) as Hin.
    { rewrite list_elem_of_filter, elem_of_seqZ. split; [done | lia]. }
    rewrite Hf in Hin. by apply not_elem_of_nil in Hin.
  - rewrite <- Hf. rewrite list_elem_of_filter. tauto.
Qed.

Lemma candidate_spec (r : nat) (day : Z) (excluded : gset Z) :
  exists m, m ∈ available_minutes excluded /\
            candidate r day excluded = Some (day * US_PER_DAY + m * US_PER_MINUTE).
Proof.
  destruct (random_choice_elem r (available_minutes excluded)
              (available_minutes_nonempty excluded)) as (m & Hm & Hin).
  exists m. split; [done|].
  unfold candidate. rewrite Hm. simpl.
  apply datetime_utc_of_minute. by eapply available_minutes_range.
Qed.

Lemma candidate_next_day (r : nat) (now : datetime) (excluded : gset Z) :
  exists t, candidate r (dt_date now + 1) excluded = Some t /\ now < t.
Proof.
  destruct (candidate_spec r (dt_date now + 1) excluded) as (m & Hin & Hc).
  eexists. split; [exact Hc|].
  apply available_minutes_range in Hin. unfold MINUTES_PER_DAY in Hin.
  apply next_day_after; [lia|]. rewrite US_PER_MINUTE_eq. lia.
Qed.

Lemma next_day_Ok (day : Z) : day < DATE_MAX -> next_day day = Ok (day + 1).
Proof. intros H. unfold next_day. by rewrite bool_decide_eq_true_2. Qed.

Lemma next_day_last (day : Z) : DATE_MAX <= day -> next_day day = Raise OverflowError.
Proof. intros H. unfold next_day. rewrite bool_decide_eq_false_2; [done | lia]. Qed.

Lemma next_day_inv (day next : Z) :
  next_day day = Ok next -> day < DATE_MAX /\ next = day + 1.
Proof. unfold next_day. case_bool_decide; [|done]. by intros [= <-]. Qed.

(** The first selection is made on today or, when the last prompt fell on
    today, on the day after. *)
Lemma first_target_day_cases (now : datetime) (last_prompt : option datetime) :
  (first_target_day now last_prompt = Ok (dt_date now) /\
   forall lp, last_prompt = Some lp -> dt_date lp <> dt_date now) \/
  (first_target_day now last_prompt = next_day (dt_date now) /\
   exists lp, last_prompt = Some lp /\ dt_date lp = dt_date now).
Proof.
  unfold first_target_day. destruct last_prompt as [lp|].
  - case_bool_decide as Hd.
    + right. split; [done|]. by exists lp.
    + left. split; [done|]. by intros ? [= <-].
  - left. by split.
Qed.

Lemma first_target_day_Ok (now : datetime) (last_prompt : option datetime) :
  dt_date now < DATE_MAX ->
  exists day, first_target_day now last_prompt = Ok day /\
              dt_date now <= day <= dt_date now + 1.
Proof.
  intros Hd. destruct (first_target_day_cases now last_prompt) as [[-> _]|[-> _]].
  - eexists. split; [done | lia].
  - rewrite next_day_Ok by done. eexists. split; [done | lia].
Qed.

(** How the picker runs once the day of the first selection is known. *)
Lemma choose_prompt_time_run (r1 r2 : nat) (now : datetime)
    (last_prompt : option datetime) (excluded : gset Z) (day : Z) (c : datetime) :
  first_target_day now last_prompt = Ok day ->
  candidate r1 day excluded = Some c ->
  choose_prompt_time r1 r2 now last_prompt excluded
  = if bool_decide (c <= now)
    then day' ← next_day (dt_date now); expect IndexError (candidate r2 day' excluded)
    else Ok c.
Proof. intros Hday Hc. unfold choose_prompt_time. by rewrite Hday; simpl; rewrite Hc. Qed.

Lemma choose_prompt_time_returns (r1 r2 : nat) (now : datetime)
    (last_prompt : option datetime) (excluded : gset Z) :
  dt_date now < DATE_MAX ->
  exists t, choose_prompt_time r1 r2 now last_prompt excluded = Ok t /\ now < t.
Proof.
  intros Hd. destruct (first_target_day_Ok now last_prompt Hd) as (day & Hday & _).
  destruct (candidate_spec r1 day excluded) as (m & Hin & Hc).
  rewrite (choose_prompt_time_run _ _ _ _ _ _ _ Hday Hc).
  case_bool_decide as Hle.
  - rewrite next_day_Ok by done. simpl.
    destruct (candidate_next_day r2 now excluded) as (t & -> & Ht). by exists t.
  - eexists. split; [done | lia].
Qed.

(** Whatever the day, an instant the picker returns is after [now]. *)
Lemma choose_prompt_time_after (r1 r2 : nat) (now : datetime)
    (last_prompt : option datetime) (excluded : gset Z) (t : datetime) :
  choose_prompt_time r1 r2 now last_prompt excluded = Ok t -> now < t.
Proof.
  unfold choose_prompt_time.
  destruct (first_target_day now last_prompt) as [day|e]; [|done]. simpl.
  destruct (candidate r1 day excluded) as [c|]; [|done]. simpl.
  case_bool_decide as Hle; [|intros [= <-]; lia].
  destruct (next_day (dt_date now)) as [day'|e] eqn:Hn; [|done]. simpl.
  apply next_day_inv in Hn as [_ ->].
  destruct (candidate_next_day r2 now excluded) as (t' & -> & Ht).
  by intros [= <-].
Qed.

(** On the last day of the calendar the picker raises as soon as it needs
    the day after. *)
Lemma choose_prompt_time_last_day (r1 r2 : nat) (now : datetime)
    (last_prompt : option datetime) (excluded : gset Z) :
  DATE_MAX <= dt_date now ->
  (forall lp, last_prompt = Some lp -> dt_date lp = dt_date now ->
     choose_prompt_time r1 r2 now last_prompt excluded = Raise OverflowError) /\
  (forall c, first_target_day now last_prompt = Ok (dt_date now) ->
     candidate r1 (dt_date now) excluded = Some c -> c <= now ->
     choose_prompt_time r1 r2 now last_prompt excluded = Raise OverflowError).
Proof.
  intros Hd. split.
  - intros lp -> Hlp. unfold choose_prompt_time, first_target_day.
    rewrite bool_decide_eq_true_2 by done. by rewrite next_day_last.
  - intros c Hday Hc Hle. rewrite (choose_prompt_time_run _ _ _ _ _ _ _ Hday Hc).
    rewrite bool_decide_eq_true_2 by done. by rewrite next_day_last.
Qed.

(** C5, as the code has it.  For every instant [now] before the last day of
    the calendar, every optional last prompt, every avoidance set (the
    saturated one included) and every pair of draws, the picker returns an
    instant, and that instant is strictly after [now]; when the first
    candidate is not strictly after [now], the result is the next-day
    candidate, taken as it is, and it is strictly after [now].  Whatever the
    day, an instant the picker returns is strictly after [now].  On the last
    day of the calendar the picker raises [OverflowError] whenever it needs
    the day after: when the last prompt fell on that day, and when the first
    candidate is not strictly after [now]. *)
Theorem choose_prompt_time_future (r1 r2 : nat) (now : datetime)
    (last_prompt : option datetime) (excluded : gset Z) :
  (dt_date now < DATE_MAX ->
   (exists t, choose_prompt_time r1 r2 now last_prompt excluded = Ok t /\ now < t) /\
   (exists day c, first_target_day now last_prompt = Ok day /\
                  candidate r1 day excluded = Some c /\
                  (now < c -> choose_prompt_time r1 r2 now last_prompt excluded = Ok c) /\
                  (c <= now ->
                   exists t, candidate r2 (dt_date now + 1) excluded = Some t /\
                             choose_prompt_time r1 r2 now last_prompt excluded = Ok t /\
                             now < t))) /\
  (forall t, choose_prompt_time r1 r2 now last_prompt excluded = Ok t -> now < t) /\
  (DATE_MAX <= dt_date now ->
   (forall lp, last_prompt = Some lp -> dt_date lp = dt_date now ->
      choose_prompt_time r1 r2 now last_prompt excluded = Raise OverflowError) /\
   (forall c, first_target_day now last_prompt = Ok (dt_date now) ->
      candidate r1 (dt_date now) excluded = Some c -> c <= now ->
      choose_prompt_time r1 r2 now last_prompt excluded = Raise OverflowError)).
Proof.
  split; [|split; [apply choose_prompt_time_after | apply choose_prompt_time_last_day]].
  intros Hd. split; [by apply choose_prompt_time_returns|].
  destruct (first_target_day_Ok now last_prompt Hd) as (day & Hday & _).
  destruct (candidate_spec r1 day excluded) as (m & Hin & Hc).
  eexists _, _. split; [exact Hday|]. split; [exact Hc|].
  rewrite (choose_prompt_time_run _ _ _ _ _ _ _ Hday Hc). split.
  - intros Hlt. rewrite bool_decide_eq_false_2; [done | lia].
  - intros Hle. rewrite bool_decide_eq_true_2 by done.
    rewrite next_day_Ok by done. simpl.
    destruct (candidate_next_day r2 now excluded) as (t & -> & Ht). by exists t.
Qed.

Lemma choose_prompt_time_future_witness :
  (exists t, choose_prompt_time 7 11 noon None ∅ = Ok t /\ noon < t) /\
  (exists day c, first_target_day noon None = Ok day /\
                 candidate 7 day ∅ = Some c /\
                 (noon < c -> choose_prompt_time 7 11 noon None ∅ = Ok c) /\
                 (c <= noon ->
                  exists t, candidate 11 (dt_date noon + 1) ∅ = Some t /\
                            choose_prompt_time 7 11 noon None ∅ = Ok t /\
                            noon < t)).
Proof.
  refine (proj1 (choose_prompt_time_future 7 11 noon None ∅) _).
  vm_compute. reflexivity.
Defined.

(** At noon of 9999-12-31 the picker raises, with the last prompt on that day
    and also without one, the first candidate being seven minutes past
    midnight: there is no next day to select on. *)
Lemma choose_prompt_time_raises_on_last_day :
  let now := last_day_noon in
  let lp := days DATE_MAX + 8 * US_PER_HOUR in
  dt_date now = DATE_MAX /\
  choose_prompt_time 7 11 now (Some lp) ∅ = Raise OverflowError /\
  choose_prompt_time 7 11 now None ∅ = Raise OverflowError.
Proof. by vm_compute. Qed.

Lemma proper_subset_free_minute (excluded : gset Z) :
  excluded ⊂ list_to_set (seqZ 0 MINUTES_PER_DAY) ->
  exists m0, 0 <= m0 < MINUTES_PER_DAY /\ m0 ∉ excluded.
Proof.
  intros [_ Hnot].
  destruct (decide (Forall (fun m => m ∈ excluded) (seqZ 0 MINUTES_PER_DAY)))
    as [Hall | Hex].
  - exfalso. apply Hnot. intros m Hm.
    rewrite elem_of_list_to_set in Hm.
    rewrite Forall_forall in Hall. by apply Hall.
  - apply not_Forall_Exists in Hex; [|intros m; apply _].
    apply Exists_exists in Hex as (m0 & Hin & Hfree).
    exists m0. split; [|done]. apply elem_of_seqZ in Hin. lia.
Qed.

(** C6. For every non-empty avoidance set that is a proper subset of the
    minutes of the day, the minute of the day of an instant the picker
    returns is not in the set, and the picker returns one for every [now]
    before the last day of the calendar; this holds of each of the two
    selections, whatever the draw and the target day. *)
Theorem chosen_minute_not_excluded (r1 r2 : nat) (now : datetime)
    (last_prompt : option datetime) (excluded : gset Z) :
  excluded ≠ ∅ ->
  excluded ⊂ list_to_set (seqZ 0 MINUTES_PER_DAY) ->
  (forall t, choose_prompt_time r1 r2 now last_prompt excluded = Ok t ->
             minute_of_day t ∉ excluded) /\
  (dt_date now < DATE_MAX ->
   exists t, choose_prompt_time r1 r2 now last_prompt excluded = Ok t /\
             minute_of_day t ∉ excluded) /\
  (forall r day, exists c, candidate r day excluded = Some c /\
                           minute_of_day c ∉ excluded).
Proof.
  intros _ Hproper.
  destruct (proper_subset_free_minute excluded Hproper) as (m0 & Hr0 & Hfree0).
  assert (forall r day, exists c, candidate r day excluded = Some c /\
                                  minute_of_day c ∉ excluded) as Hcand.
  { intros r day. destruct (candidate_spec r day excluded) as (m & Hin & Hc).
    eexists. split; [exact Hc|].
    rewrite minute_of_day_of_minute by (by eapply available_minutes_range).
    by eapply available_minutes_free. }
  assert (forall t, choose_prompt_time r1 r2 now last_prompt excluded = Ok t ->
                    minute_of_day t ∉ excluded) as Hret.
  { intros t. unfold choose_prompt_time.
    destruct (first_target_day now last_prompt) as [day|e]; [|done]. simpl.
    destruct (Hcand r1 day) as (c1 & -> & Hm1). simpl.
    case_bool_decide; [|by intros [= <-]].
    destruct (next_day (dt_date now)) as [day'|e]; [|done]. simpl.
    destruct (Hcand r2 day') as (c2 & -> & Hm2). by intros [= <-]. }
  split; [done|]. split; [|done].
  intros Hd. destruct (choose_prompt_time_returns r1 r2 now last_prompt excluded Hd)
    as (t & Ht & _).
  exists t. split; [done|]. by apply Hret.
Qed.

Lemma chosen_minute_not_excluded_witness :
  (forall t, choose_prompt_time 7 11 (days 19723) None (list_to_set [545; 546]) = Ok t ->
             minute_of_day t ∉ (list_to_set [545; 546] : gset Z)) /\
  (dt_date (days 19723) < DATE_MAX ->
   exists t, choose_prompt_time 7 11 (days 19723) None (list_to_set [545; 546]) = Ok t /\
             minute_of_day t ∉ (list_to_set [545; 546] : gset Z)) /\
  (forall r day, exists c, candidate r day (list_to_set [545; 546]) = Some c /\
                           minute_of_day c ∉ (list_to_set [545; 546] : gset Z)).
Proof.
  refine (chosen_minute_not_excluded 7 11 (days 19723) None (list_to_set [545; 546]) _ _).
  - intros H. assert (545 ∈ (∅ : gset Z)) as Hin by (rewrite <- H; set_solver).
    set_solver.
  - split.
    + intros m Hm. rewrite elem_of_list_to_set, elem_of_seqZ.
      unfold MINUTES_PER_DAY. set_unfold in Hm. lia.
    + intros H. specialize (H 0).
      rewrite elem_of_list_to_set, elem_of_seqZ in H. unfold MINUTES_PER_DAY in H.
      set_unfold in H. lia.
Defined.

(** ** Capture window *)

(** C1, as the handler has it.  A submission is accepted if and only if a
    last prompt instant is recorded and [now - lastPromptAt] is at most 60
    seconds: none recorded is rejected, 61 seconds is rejected, exactly 60
    seconds is accepted.  No lower bound is checked. *)
Theorem accept_iff (now : datetime) (last_prompt : option datetime) :
  (accept now last_prompt = true <->
     exists lp, last_prompt = Some lp /\ now - lp <= seconds 60) /\
  accept now None = false /\
  (forall lp, accept (lp + seconds 61) (Some lp) = false) /\
  (forall lp, accept (lp + seconds 60) (Some lp) = true).
Proof.
  unfold accept, capture_window, total_seconds_gt, seconds, US_PER_SECOND.
  repeat split.
  - destruct last_prompt as [lp|]; [|done].
    case_bool_decide; [done|]. intros _. exists lp. split; [done | lia].
  - intros (lp & -> & Hle). rewrite bool_decide_eq_false_2; [done | lia].
  - intros lp. rewrite bool_decide_eq_true_2; [done | lia].
  - intros lp. rewrite bool_decide_eq_false_2; [done | lia].
Qed.

(** A last prompt five seconds in the future: the difference is negative and
    the submission is accepted. *)
Lemma accept_negative_difference :
  let now := days 19723 in
  let lp := now + seconds 5 in
  now - lp < 0 /\ accept now (Some lp) = true.
Proof. vm_compute. split; reflexivity. Qed.

(** ** The prompt history *)

Lemma filter_all {A} (P : A -> Prop) `{forall x, Decision (P x)} (l : list A) :
  Forall P l -> filter P l = l.
Proof.
  induction 1 as [|x l Hx Hl IH]; [done|].
  rewrite filter_cons_True by done. by rewrite IH.
Qed.

Lemma filter_none {A} (P : A -> Prop) `{forall x, Decision (P x)} (l : list A) :
  Forall (fun x => ~ P x) l -> filter P l = [].
Proof.
  induction 1 as [|x l Hx Hl IH]; [done|].
  by rewrite filter_cons_False.
Qed.

Section order_by.
Context {A : Type} (key : A -> Z).

Lemma ascending_key_inj (rows : list A) (x y : A) :
  ascending key rows -> x ∈ rows -> y ∈ rows -> key x = key y -> x = y.
Proof.
  unfold ascending. induction 1 as [|a l Hl IH Ha]; intros Hx Hy Hk.
  - by apply not_elem_of_nil in Hx.
  - rewrite Forall_forall in Ha.
    apply elem_of_cons in Hx as [->|Hx]; apply elem_of_cons in Hy as [->|Hy].
    + done.
    + specialize (Ha _ Hy). lia.
    + specialize (Ha _ Hx). lia.
    + by apply IH.
Qed.

Lemma ascending_reverse (rows : list A) :
  ascending key rows ->
  StronglySorted (fun a b => bool_decide (key b <= key a)) (reverse rows).
Proof.
  unfold ascending. induction 1 as [|a l Hl IH Ha].
  - constructor.
  - rewrite reverse_cons. apply StronglySorted_app_2; [|done|repeat constructor].
    intros x1 x2 Hx1 Hx2. apply list_elem_of_singleton in Hx2 as ->.
    rewrite elem_of_reverse in Hx1. rewrite Forall_forall in Ha.
    specialize (Ha _ Hx1). apply bool_decide_pack. lia.
Qed.

Lemma ascending_filter (P : A -> Prop) `{forall x, Decision (P x)} (rows : list A) :
  ascending key rows -> ascending key (filter P rows).
Proof.
  unfold ascending. induction 1 as [|a l Hl IH Ha]; [constructor|].
  rewrite filter_cons. case_decide; [|done]. constructor; [done|].
  apply Forall_forall. intros x Hx. apply list_elem_of_filter in Hx as [_ Hx].
  rewrite Forall_forall in Ha. by apply Ha.
Qed.

(** On a table in key order, [ORDER BY key DESC] reads it backwards. *)
Lemma order_by_desc_ascending (rows : list A) :
  ascending key rows -> order_by_desc key rows = reverse rows.
Proof.
  intros Hasc. unfold order_by_desc.
  set (R := fun a b : A => Is_true (bool_decide (key b <= key a))).
  assert (Transitive R) as HT.
  { intros x y z Hxy Hyz. unfold R in *.
    apply bool_decide_unpack in Hxy, Hyz. apply bool_decide_pack. lia. }
  assert (Total R) as Htot.
  { intros x y. unfold R. destruct (decide (key y <= key x)).
    - left. by apply bool_decide_pack.
    - right. apply bool_decide_pack. lia. }
  apply (StronglySorted_unique_strong R).
  - intros x1 x2 Hx1 Hx2 H12 H21. unfold R in *.
    apply bool_decide_unpack in H12, H21.
    rewrite merge_sort_Permutation in Hx1. rewrite elem_of_reverse in Hx2.
    apply (ascending_key_inj rows); [done..|lia].
  - by apply (StronglySorted_merge_sort R).
  - by apply ascending_reverse.
  - rewrite merge_sort_Permutation. by rewrite reverse_Permutation.
Qed.

Lemma filter_keys_suffix (l1 l2 : list A) :
  ascending key (l1 ++ l2) ->
  filter (fun r => key r ∈ key <$> l2) (l1 ++ l2) = l2.
Proof.
  intros Hasc. rewrite filter_app.
  rewrite (filter_none _ l1), (filter_all _ l2); [done| |].
  - apply Forall_forall. intros x Hx. apply list_elem_of_fmap. eauto.
  - apply Forall_forall. intros x Hx Hin.
    apply list_elem_of_fmap in Hin as (y & Hk & Hy).
    pose proof (StronglySorted_app_1_elem_of _ _ _ _ _ Hasc Hx Hy). simpl in *. lia.
Qed.

(** Keeping the rows whose key is among the [n] largest keeps the last [n]
    rows. *)
Lemma keep_newest (n : nat) (rows : list A) :
  ascending key rows ->
  filter (fun r => key r ∈ key <$> take n (order_by_desc key rows)) rows
    = drop (length rows - n) rows.
Proof.
  intros Hasc. rewrite order_by_desc_ascending by done.
  rewrite take_reverse. set (k := (length rows - n)%nat).
  transitivity (filter (fun r => key r ∈ key <$> drop k rows)
                  (take k rows ++ drop k rows)).
  - rewrite take_drop. apply list_filter_iff. intros r.
    rewrite !list_elem_of_fmap. by setoid_rewrite elem_of_reverse.
  - apply filter_keys_suffix. by rewrite take_drop.
Qed.
End order_by.

Lemma history_wf_empty (d : Database) : prompt_history d = [] -> history_wf d.
Proof. intros H. unfold history_wf, ascending. rewrite H. by split; constructor. Qed.

Lemma add_prompt_history_wf (t : datetime) (d : Database) :
  history_wf d -> history_wf (add_prompt_history t d).
Proof.
  intros [Hasc Hseq]. unfold history_wf, ascending, add_prompt_history in *. simpl. split.
  - apply StronglySorted_app_2; [|done|repeat constructor].
    intros x1 x2 Hx1 Hx2. apply list_elem_of_singleton in Hx2 as ->. simpl.
    rewrite Forall_forall in Hseq. specialize (Hseq _ Hx1). lia.
  - apply Forall_app. split.
    + eapply Forall_impl; [exact Hseq|]. intros r Hr. simpl in Hr. lia.
    + repeat constructor. simpl. lia.
Qed.

(** [prune(limit)] keeps the [limit] rows inserted last. *)
Lemma prune_prompt_history_rows (limit : Z) (d : Database) :
  history_wf d -> 0 <= limit ->
  prompt_history (prune_prompt_history limit d)
    = drop (length (prompt_history d) - Z.to_nat limit) (prompt_history d).
Proof.
  intros [Hasc _] Hlimit. unfold prune_prompt_history, sql_limit. simpl.
  rewrite bool_decide_eq_false_2 by lia.
  by apply keep_newest.
Qed.

Lemma prune_prompt_history_wf (limit : Z) (d : Database) :
  history_wf d -> history_wf (prune_prompt_history limit d).
Proof.
  intros [Hasc Hseq]. unfold history_wf, ascending, prune_prompt_history in *. simpl. split.
  - by apply (ascending_filter history_id).
  - apply Forall_forall. intros x Hx. apply list_elem_of_filter in Hx as [_ Hx].
    rewrite Forall_forall in Hseq. by apply Hseq.
Qed.

Lemma record_prompt_wf (t : datetime) (d : Database) :
  history_wf d -> history_wf (record_prompt t d).
Proof.
  intros Hwf. unfold record_prompt.
  apply prune_prompt_history_wf, add_prompt_history_wf. exact Hwf.
Qed.

Lemma record_prompt_times (t : datetime) (d : Database) :
  history_wf d ->
  let old := history_prompt_time <$> prompt_history d in
  history_prompt_time <$> prompt_history (record_prompt t d)
    = drop (length old + 1 - 1440) (old ++ [t]).
Proof.
  intros Hwf old. unfold record_prompt.
  rewrite prune_prompt_history_rows;
    [|by apply add_prompt_history_wf | unfold PROMPT_MINUTE_HISTORY_DAYS; lia].
  unfold add_prompt_history. simpl.
  rewrite fmap_drop, fmap_app, length_app. simpl.
  unfold old. rewrite length_fmap. done.
Qed.

(** Recording prompts one at a time leaves the 1440 latest. *)
Lemma record_many_times (times : list datetime) (d : Database) :
  history_wf d ->
  (length (prompt_history d) <= 1440)%nat ->
  let old := history_prompt_time <$> prompt_history d in
  let d' := foldl (fun d t => record_prompt t d) d times in
  history_prompt_time <$> prompt_history d'
    = drop (length (old ++ times) - 1440) (old ++ times).
Proof.
  revert d. induction times as [|t times IH]; intros d Hwf Hlen; cbn [foldl].
  - rewrite app_nil_r, length_fmap.
    by replace (length (prompt_history d) - 1440)%nat with 0%nat by lia.
  - pose proof (record_prompt_times t d Hwf) as Hone. cbv zeta in Hone.
    rewrite IH; [|by apply record_prompt_wf|].
    + rewrite Hone.
      set (old := history_prompt_time <$> prompt_history d) in *.
      assert (length old = length (prompt_history d)) as Hold
        by (unfold old; by rewrite length_fmap).
      rewrite (cons_middle t old times), (assoc_L (++)).
      rewrite <- (drop_app_le (old ++ [t]) times)
        by (rewrite length_app; simpl; lia).
      rewrite drop_drop. f_equal.
      rewrite !length_app, length_drop, !length_app. simpl. lia.
    + rewrite <- (length_fmap history_prompt_time), Hone.
      rewrite length_drop, length_app, length_fmap. simpl. lia.
Qed.

Lemma record_many_from_empty (times : list datetime) (d : Database) :
  prompt_history d = [] ->
  history_prompt_time <$> prompt_history (foldl (fun d t => record_prompt t d) d times)
    = drop (length times - 1440) times.
Proof.
  intros Hempty.
  pose proof (record_many_times times d (history_wf_empty d Hempty)) as H.
  rewrite Hempty in H. cbn [length fmap list_fmap app] in H.
  apply H. lia.
Qed.

(** C2, as the code has it.  [send_daily_prompt] prunes with limit 1440
    ([PROMPT_MINUTE_HISTORY_DAYS]) after every append: starting from an empty
    history, the rows left are the latest 1440 of those appended, and after
    1450 appends exactly 1440 rows remain, the 1440 inserted last. *)
Theorem history_after_appends (times : list datetime) (d : Database) :
  prompt_history d = [] ->
  let d' := foldl (fun d t => record_prompt t d) d times in
  (forall t d0, record_prompt t d0
                = prune_prompt_history 1440
                    (add_prompt_history t (set_last_prompt t d0))) /\
  history_prompt_time <$> prompt_history d' = drop (length times - 1440) times /\
  (length times = 1450%nat ->
   length (prompt_history d') = 1440%nat /\
   history_prompt_time <$> prompt_history d' = drop 10 times).
Proof.
  intros Hempty d'.
  pose proof (record_many_from_empty times d Hempty) as H.
  fold d' in H. split; [done|]. split; [exact H|].
  intros Hlen. rewrite <- (length_fmap history_prompt_time), H, Hlen.
  split; [|done]. rewrite length_drop, Hlen. done.
Qed.

Lemma history_after_appends_witness :
  let times := days <$> seqZ 0 1450 in
  let d' := foldl (fun d t => record_prompt t d) init times in
  (forall t d0, record_prompt t d0
                = prune_prompt_history 1440
                    (add_prompt_history t (set_last_prompt t d0))) /\
  history_prompt_time <$> prompt_history d' = drop (length times - 1440) times /\
  (length times = 1450%nat ->
   length (prompt_history d') = 1440%nat /\
   history_prompt_time <$> prompt_history d' = drop 10 times).
Proof.
  intros times. exact (history_after_appends times init eq_refl).
Defined.

(** After 1450 appends from the fresh store the table holds 1440 rows, not
    1439. *)
Lemma history_1450_appends_not_1439 :
  length (prompt_history
            (foldl (fun d t => record_prompt t d) init (days <$> seqZ 0 1450)))
    <> 1439%nat.
Proof.
  intros H.
  pose proof (record_many_from_empty (days <$> seqZ 0 1450) init eq_refl) as E.
  apply (f_equal length) in E. rewrite length_fmap in E.
  rewrite H in E.
  rewrite length_drop, length_fmap, length_seqZ in E. lia.
Qed.

(** ** Effects *)

Lemma db_call_run {A} (f : Database -> A * Database) (w : World) (d : Database) :
  db w = Some d -> db_call f w = (Ok (f d).1, with_db (f d).2 w).
Proof.
  intros Hd. unfold db_call, get_world, mbind, Eff_bind. rewrite Hd.
  destruct (f d) as [a d']. reflexivity.
Qed.

Lemma db_query_run {A} (q : Database -> A) (w : World) (d : Database) :
  db w = Some d -> db_query q w = (Ok (q d), w).
Proof.
  intros Hd. unfold db_query. rewrite (db_call_run _ w d Hd). simpl.
  destruct w; simpl in *. by subst.
Qed.

Lemma db_exec_run (f : Database -> Database) (w : World) (d : Database) :
  db w = Some d -> db_exec f w = (Ok tt, with_db (f d) w).
Proof. intros Hd. unfold db_exec. by rewrite (db_call_run _ w d Hd). Qed.

Lemma bind_run {A B} (m : Eff A) (f : A -> Eff B) (w w' : World) (a : A) :
  m w = (Ok a, w') -> (m ≫= f) w = f a w'.
Proof. intros H. unfold mbind, Eff_bind. by rewrite H. Qed.

Lemma bind_ret {A B} (a : A) (f : A -> Eff B) (w : World) : (mret a ≫= f) w = f a w.
Proof. reflexivity. Qed.

Lemma bind_bind {A B C} (m : Eff A) (g : A -> Eff B) (h : B -> Eff C) (w : World) :
  ((m ≫= g) ≫= h) w = (m ≫= fun a => g a ≫= h) w.
Proof. unfold mbind, Eff_bind. by destruct (m w) as [[a|e] w']. Qed.

Lemma bind_db_query {A B} (q : Database -> A) (f : A -> Eff B) (w : World)
    (d : Database) :
  db w = Some d -> (db_query q ≫= f) w = f (q d) w.
Proof. intros Hd. apply bind_run. by apply db_query_run. Qed.

Lemma bind_db_exec {B} (g : Database -> Database) (f : unit -> Eff B) (w : World)
    (d : Database) :
  db w = Some d -> (db_exec g ≫= f) w = f tt (with_db (g d) w).
Proof. intros Hd. apply bind_run. by apply db_exec_run. Qed.

Lemma bind_db_call {A B} (g : Database -> A * Database) (f : A -> Eff B) (w : World)
    (d : Database) :
  db w = Some d -> (db_call g ≫= f) w = f (g d).1 (with_db (g d).2 w).
Proof. intros Hd. apply bind_run. by apply db_call_run. Qed.

Lemma db_try_call_run {A} (f : Database -> result (A * Database)) (w : World)
    (d : Database) :
  db w = Some d ->
  db_try_call f w
  = match f d with
    | Ok (a, d') => (Ok a, with_db d' w)
    | Raise e => (Raise e, w)
    end.
Proof.
  intros Hd. unfold db_try_call, get_world, mbind, Eff_bind. rewrite Hd.
  destruct (f d) as [[a d']|e]; [reflexivity|]. unfold raise.
  destruct w; simpl in *. by subst.
Qed.

Lemma db_try_query_run {A} (q : Database -> result A) (w : World) (d : Database) :
  db w = Some d ->
  db_try_query q w = match q d with Ok a => (Ok a, w) | Raise e => (Raise e, w) end.
Proof.
  intros Hd. unfold db_try_query. rewrite (db_try_call_run _ w d Hd).
  destruct (q d) as [a|e]; [|done]. simpl. destruct w; simpl in *. by subst.
Qed.

Lemma bind_db_try_query {A B} (q : Database -> result A) (f : A -> Eff B) (w : World)
    (d : Database) :
  db w = Some d ->
  (db_try_query q ≫= f) w
  = match q d with Ok a => f a w | Raise e => (Raise e, w) end.
Proof.
  intros Hd. unfold mbind at 1. unfold Eff_bind at 1.
  rewrite (db_try_query_run _ _ _ Hd). by destruct (q d).
Qed.

Lemma bind_db_try_call {A B} (g : Database -> result (A * Database)) (f : A -> Eff B)
    (w : World) (d : Database) :
  db w = Some d ->
  (db_try_call g ≫= f) w
  = match g d with
    | Ok (a, d') => f a (with_db d' w)
    | Raise e => (Raise e, w)
    end.
Proof.
  intros Hd. unfold mbind at 1. unfold Eff_bind at 1.
  rewrite (db_try_call_run _ _ _ Hd). by destruct (g d) as [[a d']|e].
Qed.

(** ** Binding a Telegram id *)

Lemma bind_int_Ok (n : Z) : INT64_MIN <= n <= INT64_MAX -> bind_int n = Ok n.
Proof. intros H. unfold bind_int. by rewrite bool_decide_eq_true_2. Qed.

Lemma bind_int_Raise (n : Z) :
  ~ (INT64_MIN <= n <= INT64_MAX) -> bind_int n = Raise OverflowError.
Proof. intros H. unfold bind_int. by rewrite bool_decide_eq_false_2. Qed.

Lemma bind_int_inv (n m : Z) : bind_int n = Ok m -> INT64_MIN <= n <= INT64_MAX /\ m = n.
Proof. unfold bind_int. case_bool_decide; [|done]. by intros [= <-]. Qed.

Lemma is_user_banned_inv (telegram_id : Z) (d : Database) (b : bool) :
  is_user_banned telegram_id d = Ok b ->
  INT64_MIN <= telegram_id <= INT64_MAX /\ is_user_banned_sql telegram_id d = b.
Proof.
  unfold is_user_banned. destruct (bind_int telegram_id) as [n|e] eqn:Hn; [|done].
  apply bind_int_inv in Hn as [Hr ->]. by intros [= <-].
Qed.

Lemma get_user_by_telegram_inv (telegram_id : Z) (d : Database) (o : option user_row) :
  get_user_by_telegram telegram_id d = Ok o ->
  INT64_MIN <= telegram_id <= INT64_MAX /\ get_user_by_telegram_sql telegram_id d = o.
Proof.
  unfold get_user_by_telegram. destruct (bind_int telegram_id) as [n|e] eqn:Hn; [|done].
  apply bind_int_inv in Hn as [Hr ->]. by intros [= <-].
Qed.

Lemma is_user_banned_bound (telegram_id : Z) (d : Database) :
  INT64_MIN <= telegram_id <= INT64_MAX ->
  is_user_banned telegram_id d = Ok (is_user_banned_sql telegram_id d).
Proof. intros H. unfold is_user_banned. by rewrite bind_int_Ok. Qed.

Lemma get_user_by_telegram_bound (telegram_id : Z) (d : Database) :
  INT64_MIN <= telegram_id <= INT64_MAX ->
  get_user_by_telegram telegram_id d = Ok (get_user_by_telegram_sql telegram_id d).
Proof. intros H. unfold get_user_by_telegram. by rewrite bind_int_Ok. Qed.

Lemma upsert_user_bound (now : datetime) (telegram_id : Z) (name : option string)
    (d : Database) :
  INT64_MIN <= telegram_id <= INT64_MAX ->
  upsert_user now telegram_id name d = Ok (upsert_user_sql now telegram_id name d).
Proof. intros H. unfold upsert_user. by rewrite bind_int_Ok. Qed.

Lemma banned_ids_spec (d : Database) (telegram_id : Z) :
  telegram_id ∈ (list_to_set (ban_telegram_id <$> get_banned_users d) : gset Z)
  <-> is_user_banned_sql telegram_id d = true.
Proof.
  unfold is_user_banned_sql, get_banned_users, order_by_desc.
  rewrite elem_of_list_to_set, bool_decide_eq_true.
  by rewrite merge_sort_Permutation.
Qed.

(** The delivery loop of [send_daily_prompt]: it runs to the end whatever
    the channel does, writes to nobody who is banned, and touches nothing
    but the trace. *)
Lemma delivery_loop_run (deliver : Z -> bool) (d : Database) (us : list user_row)
    (w : World) :
  for_each us (fun user =>
    if bool_decide (user_telegram_id user
                      ∈ (list_to_set (ban_telegram_id <$> get_banned_users d) : gset Z))
    then mret tt
    else try_except
           (send_message deliver (user_telegram_id user) PromptText)
           (fun _ => emit (LogWarning (user_telegram_id user)))) w
  = (Ok tt,
     with_trace
       (trace w ++
        flat_map (fun u => delivery_events deliver (user_telegram_id u))
          (filter (fun u => is_user_banned_sql (user_telegram_id u) d = false) us)) w).
Proof.
  revert w. induction us as [|u us IH]; intros w.
  - simpl. rewrite app_nil_r. by destruct w.
  - cbn [for_each]. rewrite filter_cons.
    case_bool_decide as Hb.
    + apply banned_ids_spec in Hb.
      rewrite decide_False by (by rewrite Hb).
      unfold mbind, Eff_bind, mret, Eff_ret. apply IH.
    + rewrite banned_ids_spec in Hb. apply not_true_is_false in Hb.
      rewrite decide_True by done. cbn [flat_map].
      unfold mbind, Eff_bind, try_except, send_message, delivery_events, emit, raise.
      destruct (deliver (user_telegram_id u)); simpl; rewrite IH; simpl;
        unfold with_trace; simpl; by rewrite <- !(assoc_L (++)).
Qed.

(** ** Broadcast *)

Lemma get_users_nil (d : Database) : get_users d = [] <-> users d = [].
Proof.
  unfold get_users, order_by. split; intros H.
  - apply Permutation_nil_r. rewrite <- H. by rewrite merge_sort_Permutation.
  - by rewrite H.
Qed.

(** C7, as the code has it.  For every non-empty list of participants and
    every combination of delivery outcomes, the broadcast returns normally,
    attempts delivery to each participant who is not banned and to no one
    else, one attempt each in listing order whatever the earlier outcomes
    were, and then sets [last_prompt] to the instant read after the loop,
    appends the history entry for it and prunes the history.  With no
    participant on record the broadcast only logs and returns: the store is
    left as it is. *)
Theorem send_daily_prompt_records (deliver : Z -> bool) (prompt_time : datetime)
    (w : World) (d : Database) :
  db w = Some d -> bot_app w = true ->
  (users d <> [] ->
   exists w',
     send_daily_prompt deliver prompt_time w = (Ok tt, w') /\
     trace w' = trace w ++
       flat_map (fun u => delivery_events deliver (user_telegram_id u)) (recipients d) /\
     db w' = Some (prune_prompt_history PROMPT_MINUTE_HISTORY_DAYS
                     (add_prompt_history prompt_time
                        (set_last_prompt prompt_time d))) /\
     (db w' ≫= last_prompt) = Some prompt_time /\
     storage w' = storage w) /\
  (users d = [] ->
   send_daily_prompt deliver prompt_time w
     = (Ok tt, with_trace (trace w ++ [LogInfo]) w)).
Proof.
  intros Hd Hbot.
  destruct w as [wdb wst wbot wtr]. simpl in Hd, Hbot. subst wdb wbot.
  split; intros Husers; unfold send_daily_prompt;
    unfold mbind at 1; unfold Eff_bind at 1; unfold get_world; cbn [db bot_app];
    (erewrite bind_db_query by reflexivity).
  - destruct (get_users d) as [|u us] eqn:Hus.
    { by apply get_users_nil in Hus. }
    erewrite bind_db_query by reflexivity.
    cbv zeta.
    rewrite (bind_run _ _ _ _ _ (delivery_loop_run deliver d (u :: us) _)).
    unfold with_trace. cbn [db storage bot_app trace].
    erewrite bind_db_exec by reflexivity.
    erewrite bind_db_exec by reflexivity.
    erewrite db_exec_run by reflexivity.
    eexists. split; [reflexivity|].
    unfold with_db, recipients. rewrite Hus. cbn [db storage bot_app trace].
    repeat split.
  - apply get_users_nil in Husers. rewrite Husers. reflexivity.
Qed.

Lemma send_daily_prompt_records_witness :
  exists w',
    send_daily_prompt sample_deliver noon sample_world = (Ok tt, w') /\
    trace w' = trace sample_world ++
      flat_map (fun u => delivery_events sample_deliver (user_telegram_id u))
        (recipients sample_db) /\
    db w' = Some (prune_prompt_history PROMPT_MINUTE_HISTORY_DAYS
                    (add_prompt_history noon (set_last_prompt noon sample_db))) /\
    (db w' ≫= last_prompt) = Some noon /\
    storage w' = storage sample_world.
Proof.
  refine (proj1 (send_daily_prompt_records sample_deliver noon sample_world sample_db
                   eq_refl eq_refl) _).
  simpl. discriminate.
Defined.

(** With no participant registered the broadcast returns before the
    recording step: no last prompt is set and no history entry is written. *)
Lemma send_daily_prompt_no_users :
  users init = [] /\
  exists w',
    send_daily_prompt sample_deliver noon fresh_world = (Ok tt, w') /\
    (db w' ≫= last_prompt) = None /\
    (prompt_history <$> db w') = Some [].
Proof.
  split; [reflexivity|]. eexists. split; [vm_compute; reflexivity|].
  split; reflexivity.
Qed.

(** ** Scheduler *)

Lemma fresh_target_run (r1 r2 : nat) (now : datetime) (w : World) (d : Database) :
  db w = Some d ->
  fresh_target r1 r2 now w
  = match choose_prompt_time r1 r2 now (last_prompt d)
            (list_to_set (get_recent_prompt_minutes 1439 d)) with
    | Ok target => (Ok target, with_db (set_next_prompt (Some target) d) w)
    | Raise e => (Raise e, w)
    end.
Proof.
  intros Hd. unfold fresh_target.
  erewrite bind_db_query by done.
  erewrite bind_db_query by done.
  cbv zeta.
  change (PROMPT_MINUTE_HISTORY_DAYS - 1) with 1439.
  unfold get_last_prompt.
  destruct (choose_prompt_time _ _ _ _ _) as [target|e]; [|done].
  unfold lift_result. unfold mbind at 1. unfold Eff_bind at 1.
  erewrite bind_db_exec by done. reflexivity.
Qed.

(** A turn that finds no target, or one that is due, asks for a fresh one. *)
Lemma await_target_stale (r1 r2 : nat) (now : datetime) (w : World) (d : Database) :
  db w = Some d ->
  match next_prompt d with Some t => t <= now | None => True end ->
  await_target r1 r2 now w = fresh_target r1 r2 now w.
Proof.
  intros Hd Hstale. unfold await_target. erewrite bind_db_query by done.
  unfold get_next_prompt. destruct (next_prompt d) as [t|]; [|done].
  by rewrite bool_decide_eq_true_2.
Qed.

(** A turn that finds a target still ahead takes it as it is. *)
Lemma await_target_ahead (r1 r2 : nat) (now : datetime) (w : World) (d : Database)
    (t : datetime) :
  db w = Some d -> get_next_prompt d = Some t -> now < t ->
  await_target r1 r2 now w = (Ok t, w).
Proof.
  intros Hd Hnext Hlt. unfold await_target. erewrite bind_db_query by done.
  rewrite Hnext. rewrite bool_decide_eq_false_2 by lia. done.
Qed.

Lemma scheduler_turn_run (i : turn) (w w' : World) (d : Database) (target : datetime) :
  db w = Some d ->
  await_target (turn_r1 i) (turn_r2 i) (turn_now i) w = (Ok target, w') ->
  scheduler_turn i w
  = send_daily_prompt (turn_deliver i) (turn_prompt_time i)
      (with_trace (trace w' ++ [LogInfo; Slept (target - turn_now i)]) w').
Proof.
  intros Hd Hawait. unfold scheduler_turn.
  unfold mbind at 1. unfold Eff_bind at 1. unfold get_world. rewrite Hd.
  rewrite (bind_run _ _ _ _ _ Hawait).
  unfold sleep, emit, with_trace, mbind, Eff_bind. simpl.
  by rewrite <- (assoc_L (++)).
Qed.

Lemma scheduler_turn_raises (i : turn) (w w' : World) (d : Database) (e : exn) :
  db w = Some d ->
  await_target (turn_r1 i) (turn_r2 i) (turn_now i) w = (Raise e, w') ->
  scheduler_turn i w = (Raise e, w').
Proof.
  intros Hd Hawait. unfold scheduler_turn.
  unfold mbind at 1. unfold Eff_bind at 1. unfold get_world. rewrite Hd.
  unfold mbind, Eff_bind. by rewrite Hawait.
Qed.

(** The picker fails in one way only: for want of a next day. *)
Lemma choose_prompt_time_raises (r1 r2 : nat) (now : datetime)
    (last_prompt : option datetime) (excluded : gset Z) (e : exn) :
  choose_prompt_time r1 r2 now last_prompt excluded = Raise e ->
  e = OverflowError /\ DATE_MAX <= dt_date now.
Proof.
  intros Hraise.
  destruct (decide (dt_date now < DATE_MAX)) as [Hd|Hd].
  { destruct (choose_prompt_time_returns r1 r2 now last_prompt excluded Hd)
      as (t & Ht & _). congruence. }
  split; [|lia]. revert Hraise. unfold choose_prompt_time.
  assert (forall day, next_day day = Raise e -> e = OverflowError) as Hnext.
  { intros day. unfold next_day. case_bool_decide; [done|]. by intros [= <-]. }
  destruct (first_target_day_cases now last_prompt) as [[-> _]|[-> _]].
  - simpl. destruct (candidate_spec r1 (dt_date now) excluded) as (m1 & _ & ->). simpl.
    case_bool_decide; [|done].
    destruct (next_day (dt_date now)) as [day'|e'] eqn:Hn; simpl.
    + by destruct (candidate_spec r2 day' excluded) as (m2 & _ & ->).
    + intros [= ->]. by eapply Hnext.
  - destruct (next_day (dt_date now)) as [day|e'] eqn:Hn; simpl.
    + destruct (candidate_spec r1 day excluded) as (m1 & _ & ->). simpl.
      case_bool_decide; [|done]. simpl.
      by destruct (candidate_spec r2 day excluded) as (m2 & _ & ->).
    + intros [= ->]. by eapply Hnext.
Qed.

(** C4, as the code has it.  On a scheduler turn before the last day of the
    calendar that finds the persisted target absent or not after the current
    instant, the scheduler asks the picker for a fresh target, feeding it
    the persisted last prompt and the minutes of
    [get_recent_prompt_minutes(1439)], and persists that target: a read of
    [next_prompt] after the turn's head returns it, the other tables are as
    before, and a later turn before the target takes it without asking the
    picker again.  The turn sleeps for the time left to the target before
    broadcasting; the target is strictly after the current instant, so the
    sleep is strictly positive.  When the picker raises, which it does only
    on the last day of the calendar and with [OverflowError] (it does so
    when the last prompt fell on that day), the turn ends with that
    exception and the store is as it was: the stale target stays on
    record. *)
Theorem await_target_recovers (i : turn) (w : World) (d : Database) :
  db w = Some d ->
  match next_prompt d with Some t => t <= turn_now i | None => True end ->
  let pick :=
    choose_prompt_time (turn_r1 i) (turn_r2 i) (turn_now i) (last_prompt d)
      (list_to_set (get_recent_prompt_minutes 1439 d)) in
  (dt_date (turn_now i) < DATE_MAX ->
   exists target w' d',
     pick = Ok target /\
     await_target (turn_r1 i) (turn_r2 i) (turn_now i) w = (Ok target, w') /\
     w' = with_db d' w /\ d' = set_next_prompt (Some target) d /\
     (db w' ≫= get_next_prompt) = Some target /\
     get_last_prompt d' = get_last_prompt d /\
     users d' = users d /\ banned_users d' = banned_users d /\
     prompt_history d' = prompt_history d /\
     (forall r1 r2 now, now < target -> await_target r1 r2 now w' = (Ok target, w')) /\
     turn_now i < target /\
     0 < target - turn_now i /\
     scheduler_turn i w
       = send_daily_prompt (turn_deliver i) (turn_prompt_time i)
           (with_trace (trace w ++ [LogInfo; Slept (target - turn_now i)]) w')) /\
  (forall e, pick = Raise e ->
     e = OverflowError /\ DATE_MAX <= dt_date (turn_now i) /\
     await_target (turn_r1 i) (turn_r2 i) (turn_now i) w = (Raise OverflowError, w) /\
     scheduler_turn i w = (Raise OverflowError, w) /\
     (db w ≫= get_next_prompt) = next_prompt d) /\
  (DATE_MAX <= dt_date (turn_now i) ->
   forall lp, last_prompt d = Some lp -> dt_date lp = dt_date (turn_now i) ->
              pick = Raise OverflowError).
Proof.
  intros Hd Hstale pick.
  assert (await_target (turn_r1 i) (turn_r2 i) (turn_now i) w
          = match pick with
            | Ok target => (Ok target, with_db (set_next_prompt (Some target) d) w)
            | Raise e => (Raise e, w)
            end) as Hawait.
  { rewrite (await_target_stale _ _ _ _ _ Hd Hstale).
    by rewrite (fresh_target_run _ _ _ _ _ Hd). }
  split; [|split].
  - intros Hday.
    destruct (choose_prompt_time_returns (turn_r1 i) (turn_r2 i) (turn_now i)
                (last_prompt d) (list_to_set (get_recent_prompt_minutes 1439 d)) Hday)
      as (target & Hc & Hlt).
    fold pick in Hc. rewrite Hc in Hawait.
    exists target, (with_db (set_next_prompt (Some target) d) w),
      (set_next_prompt (Some target) d).
    do 9 (split; [done|]). split; [|split; [done|split; [lia|]]].
    + intros r1 r2 now Hnow. by eapply await_target_ahead.
    + by rewrite (scheduler_turn_run _ _ _ _ _ Hd Hawait).
  - intros e Hc. rewrite Hc in Hawait.
    destruct (choose_prompt_time_raises _ _ _ _ _ _ Hc) as [-> Hday].
    do 3 (split; [done|]). split; [by apply (scheduler_turn_raises _ _ _ d)|].
    by rewrite Hd.
  - intros Hday lp Hlp Hsame.
    by apply (proj1 (choose_prompt_time_last_day _ _ _ _ _ Hday) lp).
Qed.

Lemma await_target_recovers_witness :
  exists target w' d',
    choose_prompt_time (turn_r1 sample_turn) (turn_r2 sample_turn)
      (turn_now sample_turn) (last_prompt sample_db)
      (list_to_set (get_recent_prompt_minutes 1439 sample_db)) = Ok target /\
    await_target (turn_r1 sample_turn) (turn_r2 sample_turn) (turn_now sample_turn)
      sample_world = (Ok target, w') /\
    w' = with_db d' sample_world /\ d' = set_next_prompt (Some target) sample_db /\
    (db w' ≫= get_next_prompt) = Some target /\
    get_last_prompt d' = get_last_prompt sample_db /\
    users d' = users sample_db /\ banned_users d' = banned_users sample_db /\
    prompt_history d' = prompt_history sample_db /\
    (forall r1 r2 now, now < target -> await_target r1 r2 now w' = (Ok target, w')) /\
    turn_now sample_turn < target /\
    0 < target - turn_now sample_turn /\
    scheduler_turn sample_turn sample_world
      = send_daily_prompt (turn_deliver sample_turn) (turn_prompt_time sample_turn)
          (with_trace (trace sample_world
                         ++ [LogInfo; Slept (target - turn_now sample_turn)]) w').
Proof.
  refine (proj1 (await_target_recovers sample_turn sample_world sample_db eq_refl _) _).
  - vm_compute. discriminate.
  - vm_compute. reflexivity.
Defined.

(** A turn at noon of 9999-12-31 that finds the target of ten minutes ago,
    the last prompt having gone out that morning: the picker has no next day
    to select on, the turn ends in [OverflowError], and the stale target
    stays on record. *)
Lemma await_target_raises_on_last_day :
  next_prompt last_day_db = Some (turn_now last_day_turn - 10 * US_PER_MINUTE) /\
  await_target (turn_r1 last_day_turn) (turn_r2 last_day_turn) (turn_now last_day_turn)
    last_day_world = (Raise OverflowError, last_day_world) /\
  scheduler_turn last_day_turn last_day_world = (Raise OverflowError, last_day_world).
Proof.
  assert (await_target (turn_r1 last_day_turn) (turn_r2 last_day_turn)
            (turn_now last_day_turn) last_day_world
          = (Raise OverflowError, last_day_world)) as Hawait.
  { rewrite (await_target_stale _ _ _ last_day_world last_day_db eq_refl)
      by (vm_compute; discriminate).
    rewrite (fresh_target_run _ _ _ last_day_world last_day_db eq_refl).
    assert (DATE_MAX <= dt_date (turn_now last_day_turn)) as Hday by (by vm_compute).
    destruct (choose_prompt_time_last_day (turn_r1 last_day_turn) (turn_r2 last_day_turn)
                (turn_now last_day_turn) (last_prompt last_day_db)
                (list_to_set (get_recent_prompt_minutes 1439 last_day_db)) Hday)
      as [Hraise _].
    by rewrite (Hraise _ eq_refl eq_refl). }
  split; [reflexivity|]. split; [done|].
  by apply (scheduler_turn_raises _ _ _ last_day_db).
Qed.

(** ** Text and bytes *)

Lemma string_of_list_byte_cons (x : byte) (l : bytes) :
  string_of_list_byte (x :: l) = String (ascii_of_byte x) (string_of_list_byte l).
Proof. reflexivity. Qed.

Lemma append_cons (a : ascii) (s t : string) :
  (String a s ++ t)%string = String a (s ++ t)%string.
Proof. reflexivity. Qed.

Lemma string_of_list_byte_app (a b : bytes) :
  string_of_list_byte (a ++ b)
    = (string_of_list_byte a ++ string_of_list_byte b)%string.
Proof.
  induction a as [|x a IH]; [done|].
  rewrite <- app_comm_cons, !string_of_list_byte_cons, IH. done.
Qed.

Lemma string_of_list_byte_length (l : bytes) :
  String.length (string_of_list_byte l) = length l.
Proof.
  induction l as [|x l IH]; [done|].
  rewrite string_of_list_byte_cons. cbn [String.length length]. by rewrite IH.
Qed.

Lemma string_of_list_byte_replicate (k : nat) :
  string_of_list_byte (replicate k "="%byte) = str_repeat "=" k.
Proof.
  induction k as [|k IH]; [done|].
  cbn [replicate str_repeat]. rewrite string_of_list_byte_cons, IH. done.
Qed.

Lemma ascii_of_byte_eqb (b c : byte) :
  b <> c -> Ascii.eqb (ascii_of_byte b) (ascii_of_byte c) = false.
Proof.
  intros Hne. apply Ascii.eqb_neq. intros Heq. apply Hne.
  rewrite <- (byte_of_ascii_of_byte b), <- (byte_of_ascii_of_byte c). by rewrite Heq.
Qed.

Lemma rstrip_repeat (c : ascii) (k : nat) : rstrip c (str_repeat c k) = EmptyString.
Proof.
  induction k as [|k IH]; [done|]. cbn. rewrite IH. by rewrite Ascii.eqb_refl.
Qed.

Lemma rstrip_body (body : bytes) (k : nat) :
  Forall (fun b => b <> "="%byte) body ->
  rstrip "=" (string_of_list_byte body ++ str_repeat "=" k)
    = string_of_list_byte body.
Proof.
  induction 1 as [|b body Hb Hbody IH].
  - apply rstrip_repeat.
  - rewrite string_of_list_byte_cons, append_cons.
    cbn [rstrip]. rewrite IH.
    destruct (string_of_list_byte body); [|done].
    change "="%char with (ascii_of_byte "="%byte).
    by rewrite ascii_of_byte_eqb.
Qed.

Lemma str_encode_ascii_bytes (l : bytes) :
  forallb is_ascii_byte l = true -> str_encode_ascii (string_of_list_byte l) = Ok l.
Proof.
  intros H. unfold str_encode_ascii.
  by rewrite list_byte_of_string_of_list_byte, H.
Qed.

Lemma split_once_body (body : bytes) (rest : string) :
  Forall (fun b => b <> "."%byte) body ->
  split_once "." (string_of_list_byte body ++ String "." rest)
    = Some (string_of_list_byte body, rest).
Proof.
  induction 1 as [|b body Hb Hbody IH]; [done|].
  rewrite string_of_list_byte_cons, append_cons.
  cbn [split_once].
  change "."%char with (ascii_of_byte "."%byte).
  rewrite ascii_of_byte_eqb by done.
  change (ascii_of_byte "."%byte) with "."%char.
  by rewrite IH.
Qed.

Lemma urlsafe_alphabet_facts :
  Forall (fun b => is_ascii_byte b = true /\ b <> "="%byte /\ b <> "."%byte)
    urlsafe_alphabet.
Proof.
  unfold urlsafe_alphabet. cbn [list_byte_of_string list_ascii_of_string List.map].
  repeat (constructor; [by vm_compute|]). constructor.
Qed.

Lemma alphabet_body (body : bytes) :
  Forall (fun b => b ∈ urlsafe_alphabet) body ->
  forallb is_ascii_byte body = true /\
  Forall (fun b => b <> "="%byte) body /\
  Forall (fun b => b <> "."%byte) body.
Proof.
  intros H. pose proof urlsafe_alphabet_facts as Hf. rewrite Forall_forall in Hf.
  induction H as [|b body Hb Hbody (IH1 & IH2 & IH3)]; [by repeat split|].
  destruct (Hf b Hb) as (Ha & He & Hd).
  repeat split; [|by constructor..]. cbn. by rewrite Ha, IH1.
Qed.

Lemma forallb_ascii_replicate (k : nat) :
  forallb is_ascii_byte (replicate k "="%byte) = true.
Proof. induction k; [done|]. cbn. done. Qed.

(** ** Session tokens *)

Lemma session_payload_exp (telegram_id issued_at : Z) :
  value_get "exp" (VInt 0) (session_payload telegram_id issued_at)
    = Ok (VInt (issued_at + SESSION_TTL_SECONDS)).
Proof. reflexivity. Qed.

Lemma session_payload_telegram_id (telegram_id issued_at : Z) :
  value_get "telegram_id" VNone (session_payload telegram_id issued_at)
    = Ok (VInt telegram_id).
Proof. reflexivity. Qed.

Section SessionLaws.
Context {L : PyLib} {laws : PyLibLaws L}.

(** The two helpers invert each other: stripping the padding and putting it
    back returns the text the library decodes. *)
Lemma b64url_round_trip (raw : bytes) :
  exists body,
    Forall (fun b => b ∈ urlsafe_alphabet) body /\
    _b64url_encode raw = Ok (string_of_list_byte body) /\
    _b64url_decode (string_of_list_byte body) = Ok raw.
Proof.
  destruct (b64encode_shape raw) as (body & pad & Henc & Hbody & Hlen & Hpad).
  destruct (alphabet_body body Hbody) as (Hascii & Hne & _).
  exists body. split; [done|]. split.
  - unfold _b64url_encode, bytes_decode_ascii. rewrite Henc.
    rewrite forallb_app, Hascii, forallb_ascii_replicate. simpl.
    rewrite string_of_list_byte_app, string_of_list_byte_replicate.
    by rewrite rstrip_body.
  - unfold _b64url_decode. rewrite string_of_list_byte_length.
    assert (Z.to_nat ((- Z.of_nat (length body)) mod 4) = pad) as ->.
    { apply Nat.Div0.div_exact in Hlen.
      assert (Z.of_nat (length body) + Z.of_nat pad
              = 4 * Z.of_nat ((length body + pad) / 4)) as Hz by lia.
      assert ((- Z.of_nat (length body)) mod 4 = Z.of_nat pad) as ->; [|lia].
      symmetry. apply (Z.mod_unique_pos _ _ (- Z.of_nat ((length body + pad) / 4)));
        lia. }
    rewrite <- string_of_list_byte_replicate, <- string_of_list_byte_app.
    rewrite str_encode_ascii_bytes
      by (by rewrite forallb_app, Hascii, forallb_ascii_replicate).
    cbn. rewrite <- Henc, b64decode_encode. done.
Qed.

Lemma get_session_secret_set (env : Environ) (secret : string) :
  APP_SESSION_SECRET env = Some secret -> secret <> EmptyString ->
  _get_session_secret env = Ok (str_encode_utf8 secret).
Proof.
  intros Henv Hne. unfold _get_session_secret. rewrite Henv.
  by destruct secret.
Qed.

(** C8. For every subject id, issuance returns a token; verifying it at a
    time before its [exp] (issuance time plus 14 days) returns the payload
    issued, whose [telegram_id] is the subject id; verifying it after [exp]
    yields nothing. *)
Theorem session_round_trip (env : Environ) (secret : string)
    (telegram_id issued_at now : Z) :
  APP_SESSION_SECRET env = Some secret -> secret <> EmptyString ->
  exists token,
    create_session_token env issued_at telegram_id = Ok token /\
    (now < issued_at + SESSION_TTL_SECONDS ->
     parse_and_verify_session env now token
       = Some (session_payload telegram_id issued_at) /\
     value_get "telegram_id" VNone (session_payload telegram_id issued_at)
       = Ok (VInt telegram_id)) /\
    (issued_at + SESSION_TTL_SECONDS < now ->
     parse_and_verify_session env now token = None).
Proof.
  intros Henv Hne.
  pose proof (get_session_secret_set env secret Henv Hne) as Hsecret.
  set (payload := session_payload telegram_id issued_at).
  destruct (b64url_round_trip (str_encode_utf8 (json_dumps payload)))
    as (body1 & Hb1 & Henc1 & Hdec1).
  destruct (alphabet_body body1 Hb1) as (Hascii1 & _ & Hdot1).
  set (sig := hmac_sha256 (str_encode_utf8 secret) body1).
  destruct (b64url_round_trip sig) as (body2 & Hb2 & Henc2 & Hdec2).
  exists (string_of_list_byte body1 ++ "." ++ string_of_list_byte body2)%string.
  assert (forall time_now,
            verify_parts env time_now (string_of_list_byte body1)
              (string_of_list_byte body2)
            = Ok (if bool_decide (issued_at + SESSION_TTL_SECONDS < time_now)
                  then None else Some payload)) as Hverify.
  { intros time_now. unfold verify_parts.
    rewrite Hsecret. cbn [mbind result_bind].
    rewrite (str_encode_ascii_bytes body1 Hascii1). cbn [mbind result_bind].
    rewrite Hdec2. cbn [mbind result_bind]. fold sig.
    rewrite bool_decide_eq_true_2 by done. cbn [negb].
    rewrite Hdec1. cbn [mbind result_bind].
    rewrite utf8_decode_encode. cbn [expect mbind result_bind].
    unfold payload. rewrite json_loads_dumps. cbn [expect mbind result_bind].
    rewrite session_payload_exp. cbn [mbind result_bind py_int].
    by case_bool_decide. }
  split; [|split].
  - unfold create_session_token. fold payload.
    rewrite Henc1. cbn [mbind result_bind].
    rewrite Hsecret. cbn [mbind result_bind].
    rewrite (str_encode_ascii_bytes body1 Hascii1). cbn [mbind result_bind].
    fold sig. rewrite Henc2. reflexivity.
  - intros Hlt. split; [|apply session_payload_telegram_id].
    unfold parse_and_verify_session.
    change ("." ++ string_of_list_byte body2)%string
      with (String "." (string_of_list_byte body2)).
    rewrite (split_once_body body1 _ Hdot1), Hverify.
    rewrite bool_decide_eq_false_2 by lia. done.
  - intros Hlt. unfold parse_and_verify_session.
    change ("." ++ string_of_list_byte body2)%string
      with (String "." (string_of_list_byte body2)).
    rewrite (split_once_body body1 _ Hdot1), Hverify.
    rewrite bool_decide_eq_true_2 by lia. done.
Qed.
End SessionLaws.

(** C3, as the code has it.  Verification yields the decoded payload if and
    only if the token splits at a dot, the signature half decodes to the HMAC
    recomputed over the payload half under the configured secret, the payload
    half decodes to a value with an integer [exp] (0 when the key is
    missing), and [exp] is not before the current second; a token whose
    [exp] equals the current second is still valid.  In every other case
    (mismatch, decoding failure, [exp] in the past) the result is [None];
    the function is total, so it never raises. *)
Theorem parse_and_verify_session_iff {L : PyLib} (env : Environ) (time_now : Z)
    (token : string) (payload : value) :
  parse_and_verify_session env time_now token = Some payload <->
  exists payload_b64 sig_b64 secret msg raw s exp,
    split_once "." token = Some (payload_b64, sig_b64) /\
    _get_session_secret env = Ok secret /\
    str_encode_ascii payload_b64 = Ok msg /\
    _b64url_decode sig_b64 = Ok (hmac_sha256 secret msg) /\
    _b64url_decode payload_b64 = Ok raw /\
    bytes_decode_utf8 raw = Some s /\
    json_loads s = Some payload /\
    (value_get "exp" (VInt 0) payload ≫= py_int) = Ok exp /\
    time_now <= exp.
Proof.
  unfold parse_and_verify_session, verify_parts. split.
  - destruct (split_once "." token) as [[payload_b64 sig_b64]|]; [|done].
    destruct (_get_session_secret env) as [secret|]; [|done].
    cbn [mbind result_bind].
    destruct (str_encode_ascii payload_b64) as [msg|] eqn:Hmsg; [|done].
    cbn [mbind result_bind].
    destruct (_b64url_decode sig_b64) as [provided|] eqn:Hsig; [|done].
    cbn [mbind result_bind].
    case_bool_decide as Hmatch; [|done]. cbn [negb]. subst provided.
    destruct (_b64url_decode payload_b64) as [raw|] eqn:Hraw; [|done].
    cbn [mbind result_bind].
    destruct (bytes_decode_utf8 raw) as [s|] eqn:Hs; [|done].
    cbn [expect mbind result_bind].
    destruct (json_loads s) as [p|] eqn:Hp; [|done].
    cbn [expect mbind result_bind].
    destruct (value_get "exp" (VInt 0) p ≫= py_int) as [exp|] eqn:Hexp; [|done].
    cbn [mbind result_bind].
    case_bool_decide as Hlt; [done|].
    intros [= <-].
    exists payload_b64, sig_b64, secret, msg, raw, s, exp.
    repeat split; first [done | lia].
  - intros (payload_b64 & sig_b64 & secret & msg & raw & s & exp
            & -> & -> & Hmsg & Hsig & Hraw & Hs & Hp & Hexp & Hle).
    cbn [mbind result_bind]. rewrite Hmsg. cbn [mbind result_bind].
    rewrite Hsig. cbn [mbind result_bind].
    rewrite bool_decide_eq_true_2 by done. cbn [negb].
    rewrite Hraw. cbn [mbind result_bind]. rewrite Hs. cbn [expect mbind result_bind].
    rewrite Hp. cbn [expect mbind result_bind]. rewrite Hexp. cbn [mbind result_bind].
    by rewrite bool_decide_eq_false_2 by lia.
Qed.

(** ** Login assertions *)

(** C9. With a signature that verifies, the assertion is accepted exactly
    when [auth_date] is within 600 seconds of the current time, on either
    side: 601 seconds in the past is rejected, 599 seconds in the past is
    accepted. *)
Theorem login_auth_date_window {L : PyLib} (env : Environ) (token : string)
    (query_params : gmap string string) (provided_hash auth_text : string)
    (auth_date now : Z) :
  let data := delete "hash"%string query_params in
  TELEGRAM_BOT_TOKEN env = Some token -> token <> EmptyString ->
  query_params !! "hash"%string = Some provided_hash ->
  provided_hash <> EmptyString ->
  is_ascii_str provided_hash = true ->
  provided_hash
    = hmac_sha256_hex (sha256 (str_encode_utf8 token))
        (str_encode_utf8 (data_check_string data)) ->
  data !! "auth_date"%string = Some auth_text ->
  int_of_str auth_text = Some auth_date ->
  (600 < Z.abs (now - auth_date) ->
     verify_telegram_login_payload env now query_params = Ok None) /\
  (Z.abs (now - auth_date) <= 600 ->
     verify_telegram_login_payload env now query_params = Ok (Some data)) /\
  (now - auth_date = 601 ->
     verify_telegram_login_payload env now query_params = Ok None) /\
  (now - auth_date = 599 ->
     verify_telegram_login_payload env now query_params = Ok (Some data)).
Proof.
  intros data Henv Htoken Hhash Hne Hascii Hsig Hdate Hint.
  assert (verify_telegram_login_payload env now query_params
          = Ok (if bool_decide (Z.abs (now - auth_date) > 60 * 10)
                then None else Some data)) as Hrun.
  { unfold verify_telegram_login_payload. rewrite Henv.
    destruct token as [|c token]; [done|]. rewrite Hhash.
    destruct provided_hash as [|h provided_hash]; [done|].
    fold data. rewrite <- Hsig.
    unfold compare_digest_str. rewrite Hascii. cbn [andb mbind result_bind].
    rewrite bool_decide_eq_true_2 by done. cbn [negb].
    rewrite Hdate. change (default "0"%string (Some auth_text)) with auth_text.
    rewrite Hint.
    by case_bool_decide. }
  rewrite Hrun. repeat split; intros H.
  - rewrite bool_decide_eq_true_2; [done | lia].
  - rewrite bool_decide_eq_false_2; [done | lia].
  - rewrite bool_decide_eq_true_2; [done | lia].
  - rewrite bool_decide_eq_false_2; [done | lia].
Qed.

(** ** Photo submission and the registrations gate *)

Lemma upsert_user_existing (now : datetime) (telegram_id : Z) (name : option string)
    (d : Database) :
  get_user_by_telegram_sql telegram_id d <> None ->
  user_telegram_id <$> users (upsert_user_sql now telegram_id name d).2
    = user_telegram_id <$> users d.
Proof.
  intros Hex. unfold upsert_user_sql.
  destruct (get_user_by_telegram_sql telegram_id d) as [u|]; [|done].
  cbn [snd set_users users]. rewrite <- list_fmap_compose.
  apply list_fmap_ext. intros _ r _. cbn. by case_bool_decide.
Qed.

Lemma reply_text_ids (update : Update) (body : text) (w : World) :
  participant_ids (reply_text update body w).2 = participant_ids w.
Proof.
  unfold reply_text, or_raise, mbind, Eff_bind, raise, mret, Eff_ret, emit.
  by destruct (message update).
Qed.

Lemma handle_start_closed (created_at : datetime) (update : Update) (w : World)
    (d : Database) :
  db w = Some d -> registrations_open d = false ->
  participant_ids (handle_start created_at update w).2 = participant_ids w.
Proof.
  intros Hd Hclosed. destruct w as [wdb wst wbot wtr]. simpl in Hd. subst wdb.
  unfold handle_start. unfold mbind at 1. unfold Eff_bind at 1. unfold get_world.
  cbn [db].
  destruct (effective_chat update) as [chat_id|]; [|done].
  destruct (message update) as [m|] eqn:Hm; [|done].
  erewrite bind_db_try_query by done.
  destruct (is_user_banned chat_id d) as [banned|e] eqn:Hb; [|done].
  apply is_user_banned_inv in Hb as [Hr _].
  destruct banned; [by rewrite reply_text_ids|].
  erewrite bind_db_try_query by done.
  rewrite (get_user_by_telegram_bound _ _ Hr).
  destruct (get_user_by_telegram_sql chat_id d) as [u|] eqn:Hu.
  - erewrite bind_db_try_call by done. rewrite (upsert_user_bound _ _ _ _ Hr).
    destruct (upsert_user_sql _ _ _ d) as [id d'] eqn:Hup.
    rewrite reply_text_ids.
    unfold participant_ids, with_db. cbn [db fmap option_fmap option_map].
    f_equal. change d' with (id, d').2. rewrite <- Hup.
    apply upsert_user_existing. by rewrite Hu.
  - erewrite bind_db_query by done.
    unfold are_registrations_open. rewrite Hclosed. cbn [negb].
    by rewrite reply_text_ids.
Qed.

Lemma telegram_auth_callback_closed {L : PyLib} (env : Environ) (time_now : Z)
    (created_at : datetime) (query_params : gmap string string) (w : World)
    (d : Database) :
  db w = Some d -> registrations_open d = false ->
  participant_ids (telegram_auth_callback env time_now created_at query_params w).2
    = participant_ids w.
Proof.
  intros Hd Hclosed. destruct w as [wdb wst wbot wtr]. simpl in Hd. subst wdb.
  unfold telegram_auth_callback. unfold mbind at 1. unfold Eff_bind at 1.
  unfold get_world. cbn [db].
  unfold mbind at 1. unfold Eff_bind at 1. unfold lift_result at 1.
  destruct (verify_telegram_login_payload env time_now query_params)
    as [[data|]|e]; [|done..].
  case_bool_decide; [done|].
  destruct (data !! "id"%string ≫= int_of_str) as [telegram_id|]; [|done].
  erewrite bind_db_try_query by done.
  destruct (is_user_banned telegram_id d) as [banned|e] eqn:Hb; [|done].
  apply is_user_banned_inv in Hb as [Hr _].
  destruct banned; [done|].
  erewrite bind_db_try_query by done.
  rewrite (get_user_by_telegram_bound _ _ Hr).
  erewrite bind_db_query by done.
  unfold are_registrations_open. rewrite Hclosed. cbn [negb].
  case_bool_decide as Hex; [done|]. cbn [andb].
  erewrite bind_db_try_call by done. rewrite (upsert_user_bound _ _ _ _ Hr).
  destruct (upsert_user_sql _ _ _ d) as [id d'] eqn:Hup.
  unfold try_except, lift_result.
  assert (participant_ids
            (with_db d'
               {| db := Some d; storage := wst; bot_app := wbot; trace := wtr |})
          = participant_ids
              {| db := Some d; storage := wst; bot_app := wbot; trace := wtr |})
    as Hids.
  { unfold participant_ids, with_db. cbn [db fmap option_fmap option_map].
    f_equal. change d' with (id, d').2. rewrite <- Hup.
    by apply upsert_user_existing. }
  destruct (create_session_token env time_now telegram_id) as [tok|e]; [done|].
  by destruct e.
Qed.

(** C10.  A photo arriving within the capture window from a sender who is
    not banned and has no participant record creates the record through
    [upsert_user], uploads the photo and stores its row, with the
    registrations flag off; with the flag off, the registration command and
    the login callback leave the list of participants as it is. *)
Theorem photo_registers_when_closed {L : PyLib} (i : photo_inputs) (update : Update)
    (w : World) (d : Database) (objects : gmap object_key bytes)
    (chat_id file : Z) (m : Message) (user : User) (data : bytes) (lp : datetime) :
  db w = Some d -> storage w = Some objects ->
  effective_chat update = Some chat_id ->
  message update = Some m ->
  effective_user update = Some user ->
  last (photo m) = Some file ->
  photo_download i file = Some data ->
  photo_upload_accepted i = true ->
  is_user_banned chat_id d = Ok false ->
  last_prompt d = Some lp ->
  photo_now i - lp <= seconds 60 ->
  get_user_by_telegram chat_id d = Ok None ->
  registrations_open d = false ->
  let new_user :=
    {| user_id := users_seq d + 1; user_telegram_id := chat_id;
       user_username := username user; user_created_at := photo_created_at i |} in
  let key : object_key := (chat_id, photo_timestamp_now i / US_PER_SECOND) in
  let new_photo :=
    {| photo_id := photos_seq d + 1; photo_user_id := users_seq d + 1;
       photo_timestamp := photo_timestamp_now i; photo_object_key := key |} in
  (exists w' d',
     handle_photo i update w = (Ok tt, w') /\
     db w' = Some d' /\
     users d' = users d ++ [new_user] /\
     photos d' = photos d ++ [new_photo] /\
     registrations_open d' = false /\
     storage w' = Some (<[key := data]> objects) /\
     trace w' = trace w ++ [Sent (message_chat m) PhotoReceivedText]) /\
  (forall created_at,
     participant_ids (handle_start created_at update w).2 = participant_ids w) /\
  (forall env time_now created_at query_params,
     participant_ids
       (telegram_auth_callback env time_now created_at query_params w).2
     = participant_ids w).
Proof.
  intros Hd Hst Hchat Hm Huser Hfile Hdl Hup Hban Hlp Hwin Hnew Hclosed
    new_user key new_photo.
  split; [|split].
  - destruct w as [wdb wst wbot wtr]. simpl in Hd, Hst. subst wdb wst.
    destruct (get_user_by_telegram_inv _ _ _ Hnew) as [Hr Hnew'].
    unfold handle_photo. unfold mbind at 1. unfold Eff_bind at 1. unfold get_world.
    cbn [db storage]. rewrite Hchat.
    erewrite bind_db_try_query by done. rewrite Hban.
    erewrite bind_db_query by done.
    unfold get_last_prompt, capture_window, total_seconds_gt. rewrite Hlp.
    rewrite bool_decide_eq_false_2 by lia.
    rewrite Hm. cbn [or_raise]. rewrite bind_ret.
    rewrite Hfile. cbn [or_raise]. rewrite bind_ret.
    rewrite Hdl. cbn [or_raise]. rewrite bind_ret.
    erewrite bind_db_try_query by done. rewrite Hnew.
    rewrite Huser. cbn [or_raise]. rewrite bind_bind, bind_ret.
    erewrite bind_db_try_call by done.
    rewrite (upsert_user_bound _ _ _ _ Hr).
    unfold upsert_user_sql. rewrite Hnew'.
    rewrite Hup. unfold upload_photo at 1. unfold mbind at 1. unfold Eff_bind at 1.
    unfold with_db at 1. cbn [db storage bot_app trace].
    erewrite bind_db_exec by done.
    unfold reply_text. rewrite Hm. cbn [or_raise]. rewrite bind_ret.
    unfold emit, with_db. cbn [db storage bot_app trace].
    eexists _, _. split; [reflexivity|]. cbn [db storage bot_app trace].
    split; [reflexivity|]. by repeat split.
  - intros created_at. by eapply handle_start_closed.
  - intros env time_now created_at query_params.
    by eapply telegram_auth_callback_closed.
Qed.

(** ** The reference library obeys the laws *)

Lemma list_ind3 {A} (P : list A -> Prop) :
  P [] -> (forall a, P [a]) -> (forall a b, P [a; b]) ->
  (forall a b c l, P l -> P (a :: b :: c :: l)) ->
  forall l, P l.
Proof.
  intros H0 H1 H2 H3 l.
  assert (P l /\ (forall a, P (a :: l)) /\ (forall a b, P (a :: b :: l))) as [H _].
  { induction l as [|x l (IH0 & IH1 & IH2)]; [by repeat split|].
    repeat split; [apply IH1 | intros a; apply IH2 | intros a b; by apply H3]. }
  exact H.
Qed.

(** Division and remainder by a constant, for [lia]. *)
Ltac Zify.zify_post_hook ::= Z.div_mod_to_equations.

Lemma b64_value_char (n : nat) :
  (n < 64)%nat -> Ref.b64_value (Ref.b64_char n) = Some n.
Proof.
  intros Hn. do 64 (destruct n as [|n]; [reflexivity|]). lia.
Qed.

Lemma b64_char_alphabet (n : nat) :
  (n < 64)%nat -> Ref.b64_char n ∈ urlsafe_alphabet.
Proof.
  intros Hn.
  do 64 (destruct n as [|n]; [apply list_elem_of_In; vm_compute; tauto|]).
  lia.
Qed.

Lemma b64_char_not_pad (n : nat) : (n < 64)%nat -> Ref.b64_char n <> "="%byte.
Proof.
  intros Hn. do 64 (destruct n as [|n]; [by vm_compute|]). lia.
Qed.

Lemma b64decode_quad (v1 v2 v3 v4 : nat) (rest : bytes) :
  (v1 < 64)%nat -> (v2 < 64)%nat -> (v3 < 64)%nat -> (v4 < 64)%nat ->
  Ref.urlsafe_b64decode
    (Ref.b64_char v1 :: Ref.b64_char v2 :: Ref.b64_char v3 :: Ref.b64_char v4 :: rest)
  = (b1 ← Byte.of_nat (v1 * 4 + v2 / 16);
     b2 ← Byte.of_nat (v2 mod 16 * 16 + v3 / 4);
     b3 ← Byte.of_nat (v3 mod 4 * 64 + v4);
     tail ← Ref.urlsafe_b64decode rest;
     Some (b1 :: b2 :: b3 :: tail)).
Proof.
  intros H1 H2 H3 H4. cbn [Ref.urlsafe_b64decode].
  rewrite !b64_value_char by done. cbn [mbind option_bind].
  destruct (Byte.of_nat (v1 * 4 + v2 / 16)) as [b1|]; [|done]. cbn [mbind option_bind].
  rewrite bool_decide_eq_false_2 by (by apply b64_char_not_pad).
  destruct (Byte.of_nat (v2 `mod` 16 * 16 + v3 / 4)) as [b2|]; [|done].
  cbn [mbind option_bind].
  rewrite bool_decide_eq_false_2 by (by apply b64_char_not_pad).
  done.
Qed.

Lemma ref_b64decode_encode (l : bytes) :
  Ref.urlsafe_b64decode (Ref.urlsafe_b64encode l) = Some l.
Proof.
  induction l as [|a|a b|a b c l IH] using list_ind3.
  - reflexivity.
  - pose proof (Byte.to_nat_bounded a) as Ha.
    cbn [Ref.urlsafe_b64encode Ref.urlsafe_b64decode].
    rewrite !b64_value_char by lia. cbn [mbind option_bind].
    replace (Byte.to_nat a / 4 * 4 + Byte.to_nat a mod 4 * 16 / 16)%nat
      with (Byte.to_nat a) by lia.
    rewrite Byte.of_to_nat. cbn [mbind option_bind].
    rewrite bool_decide_eq_true_2 by done.
    rewrite bool_decide_eq_true_2; [done|].
    repeat split. lia.
  - pose proof (Byte.to_nat_bounded a) as Ha.
    pose proof (Byte.to_nat_bounded b) as Hb.
    cbn [Ref.urlsafe_b64encode Ref.urlsafe_b64decode].
    rewrite !b64_value_char by lia. cbn [mbind option_bind].
    replace (Byte.to_nat a / 4 * 4
             + (Byte.to_nat a mod 4 * 16 + Byte.to_nat b / 16) / 16)%nat
      with (Byte.to_nat a) by lia.
    rewrite Byte.of_to_nat. cbn [mbind option_bind].
    rewrite bool_decide_eq_false_2 by (apply b64_char_not_pad; lia).
    replace ((Byte.to_nat a mod 4 * 16 + Byte.to_nat b / 16) mod 16 * 16
             + Byte.to_nat b mod 16 * 4 / 4)%nat
      with (Byte.to_nat b) by lia.
    rewrite Byte.of_to_nat. cbn [mbind option_bind].
    rewrite bool_decide_eq_true_2 by done.
    rewrite bool_decide_eq_true_2; [done|].
    split; [done | lia].
  - pose proof (Byte.to_nat_bounded a) as Ha.
    pose proof (Byte.to_nat_bounded b) as Hb.
    pose proof (Byte.to_nat_bounded c) as Hc.
    cbn [Ref.urlsafe_b64encode].
    rewrite b64decode_quad by lia.
    replace (Byte.to_nat a / 4 * 4
             + (Byte.to_nat a mod 4 * 16 + Byte.to_nat b / 16) / 16)%nat
      with (Byte.to_nat a) by lia.
    replace ((Byte.to_nat a mod 4 * 16 + Byte.to_nat b / 16) mod 16 * 16
             + (Byte.to_nat b mod 16 * 4 + Byte.to_nat c / 64) / 4)%nat
      with (Byte.to_nat b) by lia.
    replace ((Byte.to_nat b mod 16 * 4 + Byte.to_nat c / 64) mod 4 * 64
             + Byte.to_nat c mod 64)%nat
      with (Byte.to_nat c) by lia.
    rewrite !Byte.of_to_nat. cbn [mbind option_bind]. by rewrite IH.
Qed.

Lemma ref_b64encode_shape (raw : bytes) :
  exists body pad,
    Ref.urlsafe_b64encode raw = body ++ replicate pad "="%byte /\
    Forall (fun b => b ∈ urlsafe_alphabet) body /\
    ((length body + pad) mod 4 = 0)%nat /\ (pad < 4)%nat.
Proof.
  induction raw as [|a|a b|a b c l IH] using list_ind3.
  - exists [], 0%nat. split; [done|]. split; [constructor|]. split; [done | lia].
  - pose proof (Byte.to_nat_bounded a) as Ha.
    eexists [_; _], 2%nat. split; [reflexivity|]. split; [|split; [done|lia]].
    repeat (apply Forall_cons; split; [apply b64_char_alphabet; lia|]).
    by apply Forall_nil.
  - pose proof (Byte.to_nat_bounded a) as Ha.
    pose proof (Byte.to_nat_bounded b) as Hb.
    eexists [_; _; _], 1%nat. split; [reflexivity|]. split; [|split; [done|lia]].
    repeat (apply Forall_cons; split; [apply b64_char_alphabet; lia|]).
    by apply Forall_nil.
  - pose proof (Byte.to_nat_bounded a) as Ha.
    pose proof (Byte.to_nat_bounded b) as Hb.
    pose proof (Byte.to_nat_bounded c) as Hc.
    destruct IH as (body & pad & Henc & Hbody & Hlen & Hpad).
    eexists (_ :: _ :: _ :: _ :: body), pad.
    split; [cbn [Ref.urlsafe_b64encode]; rewrite Henc; reflexivity|].
    split; [|split; [|done]].
    + repeat (apply Forall_cons; split; [apply b64_char_alphabet; lia|]). done.
    + cbn [length]. lia.
Qed.

Lemma ref_utf8_char (a : ascii) (rest : bytes) :
  Ref.bytes_decode_utf8 (Ref.utf8_char a ++ rest)
    = String a <$> Ref.bytes_decode_utf8 rest.
Proof. destruct a as [[] [] [] [] [] [] [] []]; reflexivity. Qed.

Lemma ref_utf8_decode_encode (s : string) :
  Ref.bytes_decode_utf8 (Ref.str_encode_utf8 s) = Some s.
Proof.
  induction s as [|a s IH]; [done|].
  cbn [Ref.str_encode_utf8]. by rewrite ref_utf8_char, IH.
Qed.

Lemma append_nil_l (s : string) : (EmptyString ++ s)%string = s.
Proof. reflexivity. Qed.

Lemma append_assoc (a b c : string) : ((a ++ b) ++ c)%string = (a ++ (b ++ c))%string.
Proof.
  induction a as [|x a IH]; [done|]. by rewrite !append_cons, IH.
Qed.

Lemma numeral_uint (d : Decimal.uint) : numeral (NilEmpty.string_of_uint d).
Proof.
  unfold numeral. induction d; cbn [NilEmpty.string_of_uint list_ascii_of_string];
    [constructor | constructor; [by vm_compute | done]..].
Qed.

Lemma numeral_decimal (n : Z) : numeral (Ref.decimal n).
Proof.
  unfold Ref.decimal, NilZero.string_of_int, NilZero.string_of_uint.
  destruct (Z.to_int n) as [d|d].
  - destruct d; try apply numeral_uint. by repeat constructor.
  - unfold numeral. cbn [list_ascii_of_string]. constructor; [by vm_compute|].
    destruct d; try apply numeral_uint. by repeat constructor.
Qed.

Lemma span_numeral_app (s : string) (c : ascii) (rest : string) :
  numeral s -> Ref.is_numeral_char c = false ->
  Ref.span_numeral (s ++ String c rest) = (s, String c rest).
Proof.
  unfold numeral. intros Hs Hc. induction s as [|a s IH].
  - rewrite append_nil_l. cbn [Ref.span_numeral]. by rewrite Hc.
  - cbn [list_ascii_of_string] in Hs. apply Forall_cons in Hs as [Ha Hs].
    rewrite append_cons. cbn [Ref.span_numeral]. by rewrite Ha, (IH Hs).
Qed.

Lemma int_of_str_decimal (n : Z) : Ref.int_of_str (Ref.decimal n) = Some n.
Proof.
  unfold Ref.int_of_str, Ref.decimal. rewrite NilZero.isi.
  - cbn. by rewrite DecimalZ.of_to.
  - destruct n as [|p|p]; cbn; [done| |done].
    intros [= H]. by apply Unsigned.to_uint_nonnil in H.
  - destruct n as [|p|p]; cbn; [done|done|].
    intros [= H]. by apply Unsigned.to_uint_nonnil in H.
Qed.

Lemma length_append (a b : string) :
  String.length (a ++ b) = (String.length a + String.length b)%nat.
Proof.
  induction a as [|x a IH]; [done|].
  rewrite append_cons. cbn [String.length]. by rewrite IH.
Qed.

Lemma split_once_key (key rest : string) :
  Forall (fun c => c <> Ref.quote) (list_ascii_of_string key) ->
  split_once Ref.quote (key ++ String Ref.quote rest) = Some (key, rest).
Proof.
  induction key as [|a key IH]; intros Hkey.
  - rewrite append_nil_l. cbn [split_once]. by rewrite Ascii.eqb_refl.
  - cbn [list_ascii_of_string] in Hkey. apply Forall_cons in Hkey as [Ha Hkey].
    rewrite append_cons. cbn [split_once].
    apply Ascii.eqb_neq in Ha. rewrite Ha. by rewrite (IH Hkey).
Qed.

(** Reading one member off the front of the text. *)
Lemma json_members_step (fuel : nat) (key : string) (n : Z) (c : ascii)
    (rest : string) :
  Forall (fun c => c <> Ref.quote) (list_ascii_of_string key) ->
  Ref.is_numeral_char c = false ->
  Ref.json_members (S fuel) (Ref.json_member (key, VInt n) ++ String c rest)
  = if Ascii.eqb c "}" then
      match rest with
      | EmptyString => Some [(key, VInt n)]
      | _ => None
      end
    else if Ascii.eqb c "," then
      r ← Ref.json_members fuel rest; Some ((key, VInt n) :: r)
    else None.
Proof.
  intros Hkey Hc. unfold Ref.json_member. cbn [fst snd Ref.json_scalar].
  rewrite !append_cons, !append_assoc, !append_cons, !append_nil_l.
  cbn [Ref.json_members]. rewrite Ascii.eqb_refl. cbn [negb].
  rewrite (split_once_key key _ Hkey). cbn [mbind option_bind].
  rewrite Ascii.eqb_refl. cbn [negb].
  rewrite (span_numeral_app _ c rest (numeral_decimal n) Hc).
  rewrite int_of_str_decimal. cbn [mbind option_bind]. done.
Qed.

Lemma ref_json_loads_dumps (telegram_id issued_at : Z) :
  Ref.json_loads (Ref.json_dumps (session_payload telegram_id issued_at))
    = Some (session_payload telegram_id issued_at).
Proof.
  unfold session_payload, Ref.json_dumps.
  cbn [fmap list_fmap str_join].
  rewrite !append_assoc. rewrite !append_cons, !append_nil_l.
  set (m1 := Ref.json_member ("telegram_id"%string, VInt telegram_id)).
  set (m2 := Ref.json_member ("iat"%string, VInt issued_at)).
  set (m3 := Ref.json_member ("exp"%string, VInt (issued_at + SESSION_TTL_SECONDS))).
  cbn [Ref.json_loads]. rewrite Ascii.eqb_refl. cbn [negb].
  rewrite bool_decide_eq_false_2.
  2:{ unfold m1, Ref.json_member. rewrite !append_cons. discriminate. }
  assert (3 <= String.length (m1 ++ String "," (m2 ++ String "," (m3 ++ "}"))))%nat
    as Hfuel.
  { repeat (rewrite length_append; cbn [String.length]). lia. }
  destruct (String.length (m1 ++ String "," (m2 ++ String "," (m3 ++ "}"))))
    as [|[|[|k]]]; [lia..|].
  unfold m1, m2, m3.
  assert (forall key, key ∈ ["telegram_id"; "iat"; "exp"]%string ->
            Forall (fun c => c <> Ref.quote) (list_ascii_of_string key)) as Hkeys.
  { intros key Hkey. set_unfold in Hkey.
    destruct Hkey as [->|[->|[->|[]]]]; cbn [list_ascii_of_string];
      repeat (constructor; [by vm_compute|]); constructor. }
  rewrite json_members_step; [|apply Hkeys; set_solver | by vm_compute].
  cbn [Ascii.eqb Bool.eqb].
  rewrite json_members_step; [|apply Hkeys; set_solver | by vm_compute].
  cbn [Ascii.eqb Bool.eqb].
  change ("}"%string) with (String "}" EmptyString).
  rewrite json_members_step; [|apply Hkeys; set_solver | by vm_compute].
  reflexivity.
Qed.

Lemma ref_lib_laws : PyLibLaws ref_lib.
Proof.
  split.
  - apply ref_b64encode_shape.
  - apply ref_b64decode_encode.
  - apply ref_utf8_decode_encode.
  - apply ref_json_loads_dumps.
Qed.

(** ** The theorems on sample input *)

(** A token minted at 1700000000 and presented in the very second of its
    [exp]: the signature verifies, [exp] equals the current second, and the
    payload is returned. *)
Lemma session_valid_in_expiry_second :
  let now := 1700000000 + SESSION_TTL_SECONDS in
  exists token payload,
    create_session_token (L := ref_lib) sample_env 1700000000 42 = Ok token /\
    parse_and_verify_session (L := ref_lib) sample_env now token = Some payload /\
    (value_get "exp" (VInt 0) payload ≫= py_int (L := ref_lib)) = Ok now.
Proof.
  eexists _, _. split; [vm_compute; reflexivity|].
  split; vm_compute; reflexivity.
Qed.

Lemma session_round_trip_witness :
  exists token,
    create_session_token (L := ref_lib) sample_env 1700000000 42 = Ok token /\
    (1700000600 < 1700000000 + SESSION_TTL_SECONDS ->
     parse_and_verify_session (L := ref_lib) sample_env 1700000600 token
       = Some (session_payload 42 1700000000) /\
     value_get "telegram_id" VNone (session_payload 42 1700000000) = Ok (VInt 42)) /\
    (1700000000 + SESSION_TTL_SECONDS < 1700000600 ->
     parse_and_verify_session (L := ref_lib) sample_env 1700000600 token = None).
Proof.
  refine (@session_round_trip ref_lib ref_lib_laws sample_env "s3cret"%string
            42 1700000000 1700000600 eq_refl _).
  discriminate.
Defined.

Lemma login_auth_date_window_witness :
  let data := delete "hash"%string sample_query in
  (600 < Z.abs (1700000599 - 1700000000) ->
     verify_telegram_login_payload (L := ref_lib) sample_env 1700000599 sample_query
       = Ok None) /\
  (Z.abs (1700000599 - 1700000000) <= 600 ->
     verify_telegram_login_payload (L := ref_lib) sample_env 1700000599 sample_query
       = Ok (Some data)) /\
  (1700000599 - 1700000000 = 601 ->
     verify_telegram_login_payload (L := ref_lib) sample_env 1700000599 sample_query
       = Ok None) /\
  (1700000599 - 1700000000 = 599 ->
     verify_telegram_login_payload (L := ref_lib) sample_env 1700000599 sample_query
       = Ok (Some data)).
Proof.
  refine (@login_auth_date_window ref_lib sample_env "123:abc"%string sample_query
            "967c355b67edf1da97ba225ee43e3f42f83219c69e3cc7081518af7ffbacb64a"%string
            "1700000000"%string 1700000000 1700000599
            eq_refl _ _ _ _ _ _ _).
  - discriminate.
  - vm_compute. reflexivity.
  - discriminate.
  - vm_compute. reflexivity.
  - vm_compute. reflexivity.
  - vm_compute. reflexivity.
  - vm_compute. reflexivity.
Defined.

Lemma photo_registers_when_closed_witness :
  let new_user :=
    {| user_id := users_seq sample_db + 1; user_telegram_id := 555;
       user_username := username {| username := Some "dana"%string |};
       user_created_at := photo_created_at sample_photo_inputs |} in
  let key : object_key :=
    (555, photo_timestamp_now sample_photo_inputs / US_PER_SECOND) in
  let new_photo :=
    {| photo_id := photos_seq sample_db + 1; photo_user_id := users_seq sample_db + 1;
       photo_timestamp := photo_timestamp_now sample_photo_inputs;
       photo_object_key := key |} in
  (exists w' d',
     handle_photo sample_photo_inputs sample_update sample_world = (Ok tt, w') /\
     db w' = Some d' /\
     users d' = users sample_db ++ [new_user] /\
     photos d' = photos sample_db ++ [new_photo] /\
     registrations_open d' = false /\
     storage w' = Some (<[key := list_byte_of_string "JPEG"]> ∅) /\
     trace w' = trace sample_world
                  ++ [Sent (message_chat {| message_chat := 555; photo := [9001; 9002] |})
                        PhotoReceivedText]) /\
  (forall created_at,
     participant_ids (handle_start created_at sample_update sample_world).2
     = participant_ids sample_world) /\
  (forall env time_now created_at query_params,
     participant_ids
       (telegram_auth_callback (L := ref_lib) env time_now created_at query_params
          sample_world).2
     = participant_ids sample_world).
Proof.
  refine (@photo_registers_when_closed ref_lib sample_photo_inputs sample_update
            sample_world sample_db ∅ 555 9002
            {| message_chat := 555; photo := [9001; 9002] |}
            {| username := Some "dana"%string |}
            (list_byte_of_string "JPEG") (days 19722 + 8 * US_PER_HOUR)
            eq_refl eq_refl eq_refl eq_refl eq_refl eq_refl _ eq_refl _ eq_refl _ _
            eq_refl).
  - vm_compute. reflexivity.
  - vm_compute. reflexivity.
  - vm_compute. discriminate.
  - vm_compute. reflexivity.
Defined.

(** * Further properties *)

(** ** Looking up participants *)

Lemma get_user_by_telegram_Some (telegram_id : Z) (d : Database) (u : user_row) :
  get_user_by_telegram_sql telegram_id d = Some u ->
  u ∈ users d /\ user_telegram_id u = telegram_id.
Proof.
  unfold get_user_by_telegram_sql. intros H.
  destruct (list_find _ _) as [[i u']|] eqn:Hf; [|done]. simpl in H.
  injection H as ->. apply list_find_Some in Hf as (Hl & Hp & _).
  split; [by eapply list_elem_of_lookup_2 | done].
Qed.

Lemma get_user_by_telegram_None (telegram_id : Z) (d : Database) :
  get_user_by_telegram_sql telegram_id d = None <->
  telegram_id ∉ user_telegram_id <$> users d.
Proof.
  unfold get_user_by_telegram_sql. split.
  - intros H. destruct (list_find _ _) as [[i u']|] eqn:Hf; [done|].
    apply list_find_None in Hf. rewrite Forall_forall in Hf.
    intros Hin. apply list_elem_of_fmap in Hin as (u & -> & Hu). by apply (Hf u).
  - intros Hnot. destruct (list_find _ _) as [[i u']|] eqn:Hf; [|done].
    apply list_find_Some in Hf as (Hl & Hp & _). exfalso. apply Hnot.
    apply list_elem_of_fmap. exists u'. split; [done|]. by eapply list_elem_of_lookup_2.
Qed.

(** ** Participants *)

Lemma rename_row_telegram_id (telegram_id : Z) (name : option string) (r : user_row) :
  user_telegram_id (rename_row telegram_id name r) = user_telegram_id r.
Proof. unfold rename_row. by case_bool_decide. Qed.

Lemma rename_row_id (telegram_id : Z) (name : option string) (r : user_row) :
  user_id (rename_row telegram_id name r) = user_id r.
Proof. unfold rename_row. by case_bool_decide. Qed.

Lemma find_user_renamed (telegram_id other : Z) (name : option string)
    (l : list user_row) :
  list_find (fun u => user_telegram_id u = other) (rename_row telegram_id name <$> l)
  = prod_map id (rename_row telegram_id name)
      <$> list_find (fun u => user_telegram_id u = other) l.
Proof.
  rewrite list_find_fmap. f_equal. apply list_find_ext.
  intros u. simpl. by rewrite rename_row_telegram_id.
Qed.

Lemma upsert_user_run (now : datetime) (telegram_id : Z) (name : option string)
    (d : Database) :
  upsert_user_sql now telegram_id name d
  = match get_user_by_telegram_sql telegram_id d with
    | Some u => (user_id u,
                 set_users (rename_row telegram_id name <$> users d) (users_seq d + 1) d)
    | None =>
        (users_seq d + 1,
         set_users (users d ++ [{| user_id := users_seq d + 1;
                                   user_telegram_id := telegram_id;
                                   user_username := name;
                                   user_created_at := now |}])
           (users_seq d + 1) d)
    end.
Proof. reflexivity. Qed.

Lemma get_user_by_telegram_set_users (telegram_id : Z) (us : list user_row) (seq : Z)
    (d : Database) :
  get_user_by_telegram_sql telegram_id (set_users us seq d)
  = list_find (fun u => user_telegram_id u = telegram_id) us ≫= fun '(_, u) => Some u.
Proof. reflexivity. Qed.

Lemma upsert_user_found (now : datetime) (telegram_id : Z) (name : option string)
    (d : Database) :
  let r := upsert_user_sql now telegram_id name d in
  (exists u, get_user_by_telegram_sql telegram_id r.2 = Some u /\
             user_id u = r.1 /\ user_telegram_id u = telegram_id /\
             user_username u = name) /\
  (forall other, other <> telegram_id ->
     get_user_by_telegram_sql other r.2 = get_user_by_telegram_sql other d).
Proof.
  intros r. unfold r. rewrite upsert_user_run.
  destruct (get_user_by_telegram_sql telegram_id d) as [u|] eqn:Hu; cbn [fst snd].
  - split.
    + rewrite get_user_by_telegram_set_users, find_user_renamed.
      unfold get_user_by_telegram_sql in Hu.
      destruct (list_find _ (users d)) as [[i u']|] eqn:Hf; [|done].
      simpl in Hu. injection Hu as ->. apply list_find_Some in Hf as (_ & Hp & _).
      eexists. split; [reflexivity|].
      rewrite rename_row_id, rename_row_telegram_id.
      repeat split; [done|]. unfold rename_row. by rewrite bool_decide_eq_true_2.
    + intros other Hne.
      rewrite get_user_by_telegram_set_users, find_user_renamed.
      unfold get_user_by_telegram_sql.
      destruct (list_find _ (users d)) as [[i u']|] eqn:Hf; [|done].
      apply list_find_Some in Hf as (_ & Hp & _). simpl.
      unfold rename_row. by rewrite bool_decide_eq_false_2 by congruence.
  - apply get_user_by_telegram_None in Hu. split.
    + rewrite get_user_by_telegram_set_users.
      rewrite list_find_app_r.
      * simpl. rewrite decide_True by done. simpl. eexists. by repeat split.
      * apply list_find_None, Forall_forall. intros x Hx Hp. apply Hu.
        apply list_elem_of_fmap. by exists x.
    + intros other Hne. rewrite get_user_by_telegram_set_users.
      unfold get_user_by_telegram_sql.
      destruct (list_find (fun u => user_telegram_id u = other) (users d))
        as [[i u']|] eqn:Hf.
      * by rewrite (list_find_app_l _ _ _ _ _ Hf).
      * rewrite list_find_app_r by done. simpl.
        by rewrite decide_False by (simpl; congruence).
Qed.

Lemma ascending_fmap {A} (key : A -> Z) (f : A -> A) (rows : list A) :
  (forall r, key (f r) = key r) -> ascending key rows -> ascending key (f <$> rows).
Proof.
  intros Hk. unfold ascending. induction 1 as [|a l Hl IH Ha]; [constructor|].
  rewrite fmap_cons. constructor; [done|].
  apply Forall_fmap. eapply Forall_impl; [exact Ha|]. intros r Hr. simpl.
  by rewrite !Hk.
Qed.

Lemma ascending_snoc {A} (key : A -> Z) (rows : list A) (r : A) :
  ascending key rows -> Forall (fun x => key x < key r) rows ->
  ascending key (rows ++ [r]).
Proof.
  intros Hasc Hlt. apply StronglySorted_app_2; [|done|repeat constructor].
  intros x1 x2 Hx1 Hx2. apply list_elem_of_singleton in Hx2 as ->.
  rewrite Forall_forall in Hlt. by apply Hlt.
Qed.

Lemma users_wf_init : users_wf init.
Proof. repeat split; constructor. Qed.

Lemma upsert_user_wf (now : datetime) (telegram_id : Z) (name : option string)
    (d : Database) :
  users_wf d -> users_wf (upsert_user_sql now telegram_id name d).2.
Proof.
  intros (Hasc & Hseq & Hdup). rewrite upsert_user_run.
  destruct (get_user_by_telegram_sql telegram_id d) as [u|] eqn:Hu;
    unfold users_wf; cbn [snd set_users users users_seq].
  - split; [|split].
    + apply ascending_fmap; [apply rename_row_id | done].
    + apply Forall_fmap. eapply Forall_impl; [exact Hseq|].
      intros r Hr. simpl in *. rewrite rename_row_id. lia.
    + rewrite <- list_fmap_compose.
      erewrite list_fmap_ext; [exact Hdup|].
      intros _ r _. simpl. apply rename_row_telegram_id.
  - apply get_user_by_telegram_None in Hu. split; [|split].
    + apply ascending_snoc; [done|].
      eapply Forall_impl; [exact Hseq|]. intros r Hr. simpl in *. lia.
    + apply Forall_app. split.
      * eapply Forall_impl; [exact Hseq|]. intros r Hr. simpl in *. lia.
      * repeat constructor. simpl. lia.
    + rewrite fmap_app. apply NoDup_app. split; [done|]. split.
      * intros x Hx Hin. apply list_elem_of_singleton in Hin. simpl in Hin. by subst.
      * apply NoDup_singleton.
Qed.

Lemma delete_user_wf (uid : Z) (d : Database) :
  users_wf d -> users_wf (delete_user_sql uid d).
Proof.
  intros (Hasc & Hseq & Hdup).
  unfold users_wf, delete_user_sql. cbn [users users_seq]. split; [|split].
  - by apply (ascending_filter user_id).
  - apply Forall_forall. intros x Hx. apply list_elem_of_filter in Hx as [_ Hx].
    rewrite Forall_forall in Hseq. by apply Hseq.
  - eapply sublist_NoDup; [exact Hdup|]. apply fmap_sublist, sublist_filter.
Qed.

Lemma upsert_user_raises (now : datetime) (telegram_id : Z) (name : option string)
    (d : Database) :
  ~ (INT64_MIN <= telegram_id <= INT64_MAX) ->
  upsert_user now telegram_id name d = Raise OverflowError.
Proof. intros H. unfold upsert_user. by rewrite bind_int_Raise. Qed.

Lemma get_user_by_telegram_raises (telegram_id : Z) (d : Database) :
  ~ (INT64_MIN <= telegram_id <= INT64_MAX) ->
  get_user_by_telegram telegram_id d = Raise OverflowError.
Proof. intros H. unfold get_user_by_telegram. by rewrite bind_int_Raise. Qed.

Lemma is_user_banned_raises (telegram_id : Z) (d : Database) :
  ~ (INT64_MIN <= telegram_id <= INT64_MAX) ->
  is_user_banned telegram_id d = Raise OverflowError.
Proof. intros H. unfold is_user_banned. by rewrite bind_int_Raise. Qed.

(** [delete_user] by cases of the lookup. *)
Lemma delete_user_run (telegram_id : Z) (d : Database) :
  delete_user telegram_id d
  = match get_user_by_telegram telegram_id d with
    | Raise e => Raise e
    | Ok None => Ok (false, d)
    | Ok (Some u) => Ok (true, delete_user_sql (user_id u) d)
    end.
Proof.
  unfold delete_user. by destruct (get_user_by_telegram telegram_id d) as [[u|]|e].
Qed.

(** X1. The shape of the [users] table is kept by the two operations that
    write it.  For an id that binds, after [upsert_user] and after
    [delete_user] the rows are still in key order below the sequence value and
    no two rows share a [telegram_id].  [upsert_user] moves the sequence by
    one on every call, whether it inserts or meets its conflict: for a new id
    it returns the new sequence value, for an id on record the row id of the
    record, which is below the new sequence value.  [delete_user] leaves the
    sequence as it is.  For an id outside 64 bits both raise [OverflowError]. *)
Theorem users_wf_invariant (now : datetime) (telegram_id : Z) (name : option string)
    (d : Database) :
  users_wf d ->
  match upsert_user now telegram_id name d with
  | Ok (id, d') =>
      INT64_MIN <= telegram_id <= INT64_MAX /\
      users_wf d' /\ id <= users_seq d' /\ users_seq d' = users_seq d + 1 /\
      (get_user_by_telegram telegram_id d = Ok None -> id = users_seq d') /\
      (forall u, get_user_by_telegram telegram_id d = Ok (Some u) ->
                 id = user_id u /\ id < users_seq d')
  | Raise e => e = OverflowError /\ ~ (INT64_MIN <= telegram_id <= INT64_MAX)
  end /\
  match delete_user telegram_id d with
  | Ok (_, d') =>
      INT64_MIN <= telegram_id <= INT64_MAX /\
      users_wf d' /\ users_seq d' = users_seq d
  | Raise e => e = OverflowError /\ ~ (INT64_MIN <= telegram_id <= INT64_MAX)
  end.
Proof.
  intros Hwf.
  destruct (decide (INT64_MIN <= telegram_id <= INT64_MAX)) as [Hr|Hr].
  - rewrite (upsert_user_bound _ _ _ _ Hr), delete_user_run.
    rewrite (get_user_by_telegram_bound _ _ Hr). split.
    + pose proof (upsert_user_wf now telegram_id name d Hwf) as Hwf'.
      destruct Hwf as (_ & Hseq & _). rewrite upsert_user_run in Hwf' |- *.
      destruct (get_user_by_telegram_sql telegram_id d) as [u|] eqn:Hu;
        cbn [fst snd set_users users_seq] in *.
      * apply get_user_by_telegram_Some in Hu as [Hin _].
        rewrite Forall_forall in Hseq. specialize (Hseq u Hin).
        split; [done|]. split; [done|]. split; [lia|]. split; [done|].
        split; [by intros [=]|]. intros ? [= <-]. lia.
      * split; [done|]. split; [done|]. split; [lia|]. split; [done|].
        split; [done|]. by intros ? [=].
    + destruct (get_user_by_telegram_sql telegram_id d) as [u|]; [|done].
      split; [done|]. split; [by apply delete_user_wf | done].
  - rewrite (upsert_user_raises _ _ _ _ Hr), delete_user_run.
    by rewrite (get_user_by_telegram_raises _ _ Hr).
Qed.

Lemma rename_row_twice (telegram_id : Z) (name : option string) (r : user_row) :
  rename_row telegram_id name (rename_row telegram_id name r)
  = rename_row telegram_id name r.
Proof.
  unfold rename_row. destruct (decide (user_telegram_id r = telegram_id)) as [H|H].
  - rewrite (bool_decide_eq_true_2 _ H). simpl. by rewrite bool_decide_eq_true_2.
  - by rewrite !(bool_decide_eq_false_2 _ H).
Qed.

(** The rows [upsert_user] leaves are closed under the renaming it did. *)
Lemma upsert_user_renamed (now : datetime) (telegram_id : Z) (name : option string)
    (d : Database) :
  rename_row telegram_id name <$> users (upsert_user_sql now telegram_id name d).2
  = users (upsert_user_sql now telegram_id name d).2.
Proof.
  rewrite upsert_user_run.
  destruct (get_user_by_telegram_sql telegram_id d) as [u0|] eqn:Hu0;
    cbn [snd set_users users].
  - rewrite <- list_fmap_compose. apply list_fmap_ext.
    intros _ x _. apply rename_row_twice.
  - rewrite fmap_app. f_equal.
    + apply get_user_by_telegram_None in Hu0.
      rewrite <- (list_fmap_id (users d)) at 2. apply list_fmap_ext.
      intros i x Hx. unfold rename_row. rewrite bool_decide_eq_false_2; [done|].
      intros Heq. apply Hu0. apply list_elem_of_fmap. exists x.
      split; [done|]. by eapply list_elem_of_lookup_2.
    + simpl. unfold rename_row. simpl. by rewrite bool_decide_eq_true_2.
Qed.

Lemma upsert_user_again (now now' : datetime) (telegram_id : Z)
    (name : option string) (d : Database) :
  let r := upsert_user_sql now telegram_id name d in
  (upsert_user_sql now' telegram_id name r.2).1 = r.1 /\
  users (upsert_user_sql now' telegram_id name r.2).2 = users r.2 /\
  users_seq (upsert_user_sql now' telegram_id name r.2).2 = users_seq r.2 + 1.
Proof.
  intros r.
  destruct (upsert_user_found now telegram_id name d) as [(u & Hget & Hid & _) _].
  fold r in Hget, Hid. rewrite upsert_user_run, Hget, Hid.
  cbn [fst snd set_users users users_seq]. split; [done|]. split; [|done].
  apply upsert_user_renamed.
Qed.

(** X2. After [upsert_user] on an id that binds, the id is on record:
    [get_user_by_telegram] finds a row with the row id returned, that
    [telegram_id] and the name given; the lookup of every other id answers as
    before; and a second [upsert_user] with the same name returns the same row
    id and leaves the rows of the table as they are.  On an id outside 64 bits
    [upsert_user] raises [OverflowError], and on no other. *)
Theorem upsert_user_lookup (now now' : datetime) (telegram_id : Z)
    (name : option string) (d : Database) :
  match upsert_user now telegram_id name d with
  | Ok (id, d') =>
      INT64_MIN <= telegram_id <= INT64_MAX /\
      (exists u, get_user_by_telegram telegram_id d' = Ok (Some u) /\
                 user_id u = id /\ user_telegram_id u = telegram_id /\
                 user_username u = name) /\
      (forall other, other <> telegram_id ->
         get_user_by_telegram other d' = get_user_by_telegram other d) /\
      (exists d'', upsert_user now' telegram_id name d' = Ok (id, d'') /\
                   users d'' = users d')
  | Raise e => e = OverflowError /\ ~ (INT64_MIN <= telegram_id <= INT64_MAX)
  end.
Proof.
  destruct (decide (INT64_MIN <= telegram_id <= INT64_MAX)) as [Hr|Hr];
    [|by rewrite (upsert_user_raises _ _ _ _ Hr)].
  rewrite (upsert_user_bound _ _ _ _ Hr).
  destruct (upsert_user_found now telegram_id name d) as [Hrow Hrest].
  destruct (upsert_user_again now now' telegram_id name d) as (Hid & Hrows & _).
  destruct (upsert_user_sql now telegram_id name d) as [id d'] eqn:Hup.
  cbn [fst snd] in *. split; [done|]. split; [|split].
  - destruct Hrow as (u & Hu & Hfacts). exists u.
    by rewrite (get_user_by_telegram_bound _ _ Hr), Hu.
  - intros other Hne. unfold get_user_by_telegram.
    destruct (bind_int other) as [n|e] eqn:Hn; [|done].
    apply bind_int_inv in Hn as [_ ->]. simpl. by rewrite (Hrest other Hne).
  - rewrite (upsert_user_bound _ _ _ _ Hr).
    destruct (upsert_user_sql now' telegram_id name d') as [id' d''].
    cbn [fst snd] in *. subst id'. by exists d''.
Qed.

(** ** Deleting a participant *)

Lemma unique_telegram_id (d : Database) (u v : user_row) :
  NoDup (user_telegram_id <$> users d) ->
  u ∈ users d -> v ∈ users d -> user_telegram_id u = user_telegram_id v -> u = v.
Proof.
  intros Hdup Hu Hv Heq.
  apply list_elem_of_lookup in Hu as [i Hi]. apply list_elem_of_lookup in Hv as [j Hj].
  assert (i = j) as ->; [|congruence].
  eapply NoDup_lookup; [exact Hdup| |].
  - rewrite list_lookup_fmap, Hi. reflexivity.
  - rewrite list_lookup_fmap, Hj. simpl. by rewrite Heq.
Qed.

Lemma delete_user_facts (telegram_id : Z) (d : Database) (u : user_row) :
  users_wf d ->
  get_user_by_telegram_sql telegram_id d = Some u ->
  let d' := delete_user_sql (user_id u) d in
  get_user_by_telegram_sql telegram_id d' = None /\
  count_photos_for_user (user_id u) d' = 0 /\
  list_photos_for_user (user_id u) d' = [] /\
  (forall other, other <> telegram_id ->
     get_user_by_telegram_sql other d' = get_user_by_telegram_sql other d) /\
  (forall uid, uid <> user_id u ->
     list_photos_for_user uid d' = list_photos_for_user uid d) /\
  users_seq d' = users_seq d /\
  banned_users d' = banned_users d.
Proof.
  intros (Hasc & Hseq & Hdup) Hu d'. unfold d', delete_user_sql.
  pose proof (get_user_by_telegram_Some _ _ _ Hu) as [Hin Htid].
  assert (filter (fun p => photo_user_id p = user_id u)
            (filter (fun p => photo_user_id p <> user_id u) (photos d)) = []) as Hnone.
  { apply filter_none, Forall_forall. intros p Hp.
    apply list_elem_of_filter in Hp as [Hp _]. done. }
  split; [|split; [|split; [|split; [|split]]]].
  - apply get_user_by_telegram_None. cbn [users]. intros Hx.
    apply list_elem_of_fmap in Hx as (v & Hv & Hvin).
    apply list_elem_of_filter in Hvin as [Hne Hvin].
    apply Hne. f_equal. apply (unique_telegram_id d); [done..|congruence].
  - unfold count_photos_for_user. cbn [photos]. by rewrite Hnone.
  - unfold list_photos_for_user. cbn [photos]. by rewrite Hnone.
  - intros other Hne. unfold get_user_by_telegram_sql. cbn [users].
    assert (forall l : list user_row,
              (list_find (fun v => user_telegram_id v = other)
                 (filter (fun v => user_id v <> user_id u) l)
                 ≫= fun '(_, v) => Some v)
              = (list_find (fun v => user_telegram_id v = other) l
                 ≫= fun '(_, v) => Some v) \/
              exists v, v ∈ l /\ user_id v = user_id u /\ user_telegram_id v = other)
      as Hgen.
    { induction l as [|a l IH]; [by left|].
      rewrite filter_cons. destruct (decide (user_id a <> user_id u)) as [Ha|Ha].
      - destruct (decide (user_telegram_id a = other)) as [Hao|Hao].
        + left. cbn. by rewrite !decide_True by done.
        + destruct IH as [IH|(v & Hv & Hid & Ho)].
          * left. cbn. rewrite !decide_False by done.
            destruct (list_find _ (filter _ l)) as [[i x]|];
              destruct (list_find _ l) as [[j y]|]; simpl in *; congruence.
          * right. exists v. split; [by apply list_elem_of_further | done].
      - apply dec_stable in Ha.
        destruct (decide (user_telegram_id a = other)) as [Hao|Hao].
        + right. exists a. split; [by apply list_elem_of_here | done].
        + destruct IH as [IH|(v & Hv & Hid & Ho)].
          * left. rewrite IH. cbn. rewrite decide_False by done.
            by destruct (list_find _ l) as [[j y]|].
          * right. exists v. split; [by apply list_elem_of_further | done]. }
    destruct (Hgen (users d)) as [->|(v & Hv & Hid & Ho)]; [done|].
    exfalso. apply Hne. rewrite <- Ho, <- Htid. f_equal.
    by apply (ascending_key_inj user_id (users d)).
  - intros uid Hne. unfold list_photos_for_user. cbn [photos].
    f_equal. rewrite list_filter_filter. apply list_filter_iff.
    intros p. split; [tauto|]. intros ->. done.
  - done.
Qed.

(** X3. [delete_user] on a table with unique ids.  For an id without a record
    it returns [False] and the store is untouched.  For an id with a record it
    returns [True]; afterwards the id has no record and no photo row carries
    the deleted row id, the records and photo lists of all others are as
    before, and neither the sequence value nor the ban list has moved.  For an
    id outside 64 bits the lookup raises [OverflowError], and [delete_user]
    with it. *)
Theorem delete_user_spec (telegram_id : Z) (d : Database) :
  users_wf d ->
  match get_user_by_telegram telegram_id d with
  | Raise e =>
      e = OverflowError /\ ~ (INT64_MIN <= telegram_id <= INT64_MAX) /\
      delete_user telegram_id d = Raise OverflowError
  | Ok None =>
      INT64_MIN <= telegram_id <= INT64_MAX /\
      delete_user telegram_id d = Ok (false, d)
  | Ok (Some u) =>
      INT64_MIN <= telegram_id <= INT64_MAX /\
      exists d',
        delete_user telegram_id d = Ok (true, d') /\
        get_user_by_telegram telegram_id d' = Ok None /\
        count_photos_for_user (user_id u) d' = 0 /\
        list_photos_for_user (user_id u) d' = [] /\
        (forall other, other <> telegram_id ->
           get_user_by_telegram other d' = get_user_by_telegram other d) /\
        (forall uid, uid <> user_id u ->
           list_photos_for_user uid d' = list_photos_for_user uid d) /\
        users_seq d' = users_seq d /\
        banned_users d' = banned_users d
  end.
Proof.
  intros Hwf. rewrite delete_user_run.
  destruct (decide (INT64_MIN <= telegram_id <= INT64_MAX)) as [Hr|Hr];
    [|by rewrite (get_user_by_telegram_raises _ _ Hr)].
  rewrite (get_user_by_telegram_bound _ _ Hr).
  destruct (get_user_by_telegram_sql telegram_id d) as [u|] eqn:Hu; [|done].
  destruct (delete_user_facts telegram_id d u Hwf Hu)
    as (Hgone & Hcount & Hlist & Hrest & Hothers & Hseq & Hbans).
  split; [done|]. eexists. split; [reflexivity|].
  rewrite (get_user_by_telegram_bound _ _ Hr), Hgone.
  do 3 (split; [done|]). split; [|done].
  intros other Hne. unfold get_user_by_telegram.
  destruct (bind_int other) as [n|e] eqn:Hn; [|done].
  apply bind_int_inv in Hn as [_ ->]. simpl. by rewrite (Hrest other Hne).
Qed.

(** X4. A participant who is deleted and registers again gets the row id after
    the sequence value, larger than every row id the table held, and starts
    with an empty journal: no photo row of the store carries the new row id. *)
Theorem reregistered_user_is_fresh (now : datetime) (telegram_id : Z)
    (name : option string) (d : Database) (u : user_row) :
  users_wf d -> photos_wf d ->
  get_user_by_telegram telegram_id d = Ok (Some u) ->
  exists d1 id d2,
    delete_user telegram_id d = Ok (true, d1) /\
    upsert_user now telegram_id name d1 = Ok (id, d2) /\
    id = users_seq d + 1 /\
    (forall v, v ∈ users d -> user_id v < id) /\
    count_photos_for_user id d2 = 0 /\
    list_photos_for_user id d2 = [].
Proof.
  intros Hwf Hph Hget.
  destruct (get_user_by_telegram_inv _ _ _ Hget) as [Hr Hu].
  destruct (delete_user_facts telegram_id d u Hwf Hu) as (Hgone & _ & _ & _ & _ & Hseq' & _).
  set (d1 := delete_user_sql (user_id u) d) in *.
  set (r := upsert_user_sql now telegram_id name d1).
  exists d1, r.1, r.2.
  assert (r.1 = users_seq d + 1) as Hid.
  { unfold r. rewrite upsert_user_run, Hgone. cbn [fst]. by rewrite Hseq'. }
  assert (filter (fun p => photo_user_id p = r.1) (photos r.2) = []) as Hnone.
  { apply filter_none, Forall_forall. intros p Hp. rewrite Hid.
    assert (p ∈ photos d) as Hpd.
    { revert Hp. unfold r. rewrite upsert_user_run, Hgone. cbn [snd set_users photos].
      unfold d1, delete_user_sql. cbn [photos].
      rewrite list_elem_of_filter. tauto. }
    unfold photos_wf in Hph. rewrite Forall_forall in Hph. specialize (Hph p Hpd). lia. }
  split; [by rewrite delete_user_run, Hget|].
  split; [rewrite (upsert_user_bound _ _ _ _ Hr); f_equal; apply surjective_pairing|].
  split; [done|]. split; [|split].
  - intros v Hv. destruct Hwf as (_ & Hseq & _). rewrite Forall_forall in Hseq.
    specialize (Hseq v Hv). lia.
  - unfold count_photos_for_user. by rewrite Hnone.
  - unfold list_photos_for_user. by rewrite Hnone.
Qed.

(** ** Bans *)

Lemma is_user_banned_set (telegram_id : Z) (rows : list ban_row) (d : Database) :
  is_user_banned_sql telegram_id (set_banned_users rows d)
  = bool_decide (telegram_id ∈ ban_telegram_id <$> rows).
Proof. reflexivity. Qed.

Lemma set_reason_telegram_id (telegram_id : Z) (reason : option string) (r : ban_row) :
  ban_telegram_id (set_reason telegram_id reason r) = ban_telegram_id r.
Proof. unfold set_reason. by case_bool_decide. Qed.

Lemma ban_user_ids (now : datetime) (telegram_id : Z) (reason : option string)
    (d : Database) :
  ban_telegram_id <$> banned_users (ban_user_sql now telegram_id reason d)
  = if is_user_banned_sql telegram_id d
    then ban_telegram_id <$> banned_users d
    else (ban_telegram_id <$> banned_users d) ++ [telegram_id].
Proof.
  unfold ban_user_sql.
  destruct (is_user_banned_sql telegram_id d); cbn [set_banned_users banned_users].
  - rewrite <- list_fmap_compose. apply list_fmap_ext.
    intros _ r _. apply (set_reason_telegram_id telegram_id reason).
  - by rewrite fmap_app.
Qed.

Lemma ban_unban_facts (now : datetime) (telegram_id : Z) (reason : option string)
    (d : Database) :
  is_user_banned_sql telegram_id (ban_user_sql now telegram_id reason d) = true /\
  is_user_banned_sql telegram_id (unban_user_sql telegram_id d) = false /\
  (forall other, other <> telegram_id ->
     is_user_banned_sql other (ban_user_sql now telegram_id reason d)
     = is_user_banned_sql other d /\
     is_user_banned_sql other (unban_user_sql telegram_id d) = is_user_banned_sql other d) /\
  users (ban_user_sql now telegram_id reason d) = users d /\
  photos (ban_user_sql now telegram_id reason d) = photos d.
Proof.
  split; [|split; [|split; [|split]]].
  - unfold is_user_banned_sql at 1. rewrite ban_user_ids. apply bool_decide_eq_true.
    destruct (is_user_banned_sql telegram_id d) eqn:Hb.
    + by apply bool_decide_eq_true in Hb.
    + apply elem_of_app. right. by apply list_elem_of_singleton.
  - unfold unban_user_sql. rewrite is_user_banned_set. apply bool_decide_eq_false.
    intros Hin. apply list_elem_of_fmap in Hin as (r & Hr & Hin).
    apply list_elem_of_filter in Hin as [Hne _]. by apply Hne.
  - intros other Hne. split.
    + unfold is_user_banned_sql at 1. rewrite ban_user_ids. apply bool_decide_ext.
      destruct (is_user_banned_sql telegram_id d); [done|].
      rewrite elem_of_app, list_elem_of_singleton. tauto.
    + unfold unban_user_sql. rewrite is_user_banned_set. apply bool_decide_ext.
      rewrite !list_elem_of_fmap. split.
      * intros (r & Hr & Hin). apply list_elem_of_filter in Hin as [_ Hin]. eauto.
      * intros (r & Hr & Hin). exists r. split; [done|].
        apply list_elem_of_filter. split; [congruence | done].
  - unfold ban_user_sql. by destruct (is_user_banned_sql telegram_id d).
  - unfold ban_user_sql. by destruct (is_user_banned_sql telegram_id d).
Qed.

Lemma ban_user_key_facts (now : datetime) (telegram_id : Z) (reason : option string)
    (d : Database) :
  bans_wf d ->
  bans_wf (ban_user_sql now telegram_id reason d) /\
  bans_wf (unban_user_sql telegram_id d) /\
  (exists r, r ∈ banned_users (ban_user_sql now telegram_id reason d) /\
             ban_telegram_id r = telegram_id /\ ban_reason r = reason /\
             (is_user_banned_sql telegram_id d = false -> ban_created_at r = now) /\
             (forall r0, r0 ∈ banned_users d -> ban_telegram_id r0 = telegram_id ->
                         ban_created_at r = ban_created_at r0)) /\
  count_banned_users (ban_user_sql now telegram_id reason d)
  = count_banned_users d + (if is_user_banned_sql telegram_id d then 0 else 1).
Proof.
  unfold bans_wf. intros Hdup. split; [|split; [|split]].
  - rewrite ban_user_ids. destruct (is_user_banned_sql telegram_id d) eqn:Hb; [done|].
    apply bool_decide_eq_false in Hb.
    apply NoDup_app. split; [done|]. split; [|apply NoDup_singleton].
    intros x Hx Hin. apply list_elem_of_singleton in Hin. by subst.
  - unfold unban_user_sql. cbn [set_banned_users banned_users].
    eapply sublist_NoDup; [exact Hdup|]. apply fmap_sublist, sublist_filter.
  - unfold ban_user_sql. destruct (is_user_banned_sql telegram_id d) eqn:Hb;
      cbn [set_banned_users banned_users].
    + apply bool_decide_eq_true in Hb.
      apply list_elem_of_fmap in Hb as (r0 & Hr0 & Hin0).
      exists (set_reason telegram_id reason r0). split; [|split; [|split; [|split]]].
      * apply list_elem_of_fmap. by exists r0.
      * by rewrite set_reason_telegram_id.
      * unfold set_reason. by rewrite bool_decide_eq_true_2.
      * done.
      * intros r1 Hr1 Ht1. unfold set_reason. rewrite bool_decide_eq_true_2 by done.
        simpl. f_equal.
        apply list_elem_of_lookup in Hin0 as [i Hi].
        apply list_elem_of_lookup in Hr1 as [j Hj].
        assert (i = j) as ->; [|congruence].
        eapply NoDup_lookup; [exact Hdup| |].
        -- rewrite list_lookup_fmap, Hi. reflexivity.
        -- rewrite list_lookup_fmap, Hj. simpl. congruence.
    + apply bool_decide_eq_false in Hb. eexists. split; [|split; [|split; [|split]]].
      * apply elem_of_app. right. by apply list_elem_of_singleton.
      * done.
      * done.
      * done.
      * intros r0 Hr0 Ht0. exfalso. apply Hb. apply list_elem_of_fmap. by exists r0.
  - unfold count_banned_users.
    rewrite <- !(length_fmap ban_telegram_id), ban_user_ids.
    destruct (is_user_banned_sql telegram_id d); [lia|].
    rewrite length_app. simpl. lia.
Qed.

(** X5. [ban_user], [unban_user] and [is_user_banned].  For an id that binds:
    after [ban_user] the id is banned, after [unban_user] it is not, and
    neither changes the answer for another id, the users or the photos; on a
    ban list with one row for each id, both keep one row for each id,
    [ban_user] leaves a row with the reason given, dated now when the id was
    not banned and keeping its date when it was, and the count of bans grows
    by one exactly when the id was not banned before.  For an id outside 64
    bits all three raise [OverflowError]. *)
Theorem ban_user_spec (now : datetime) (telegram_id : Z) (reason : option string)
    (d : Database) :
  (INT64_MIN <= telegram_id <= INT64_MAX ->
   exists d1 d2,
     ban_user now telegram_id reason d = Ok d1 /\
     unban_user telegram_id d = Ok d2 /\
     is_user_banned telegram_id d1 = Ok true /\
     is_user_banned telegram_id d2 = Ok false /\
     (forall other, other <> telegram_id ->
        is_user_banned other d1 = is_user_banned other d /\
        is_user_banned other d2 = is_user_banned other d) /\
     users d1 = users d /\
     photos d1 = photos d /\
     (bans_wf d ->
      bans_wf d1 /\
      bans_wf d2 /\
      (exists r, r ∈ banned_users d1 /\
                 ban_telegram_id r = telegram_id /\ ban_reason r = reason /\
                 (is_user_banned telegram_id d = Ok false -> ban_created_at r = now) /\
                 (forall r0, r0 ∈ banned_users d -> ban_telegram_id r0 = telegram_id ->
                             ban_created_at r = ban_created_at r0)) /\
      forall banned, is_user_banned telegram_id d = Ok banned ->
        count_banned_users d1 = count_banned_users d + (if banned : bool then 0 else 1))) /\
  (~ (INT64_MIN <= telegram_id <= INT64_MAX) ->
   ban_user now telegram_id reason d = Raise OverflowError /\
   unban_user telegram_id d = Raise OverflowError /\
   is_user_banned telegram_id d = Raise OverflowError).
Proof.
  split.
  - intros Hr.
    destruct (ban_unban_facts now telegram_id reason d) as (H1 & H2 & H3 & H4 & H5).
    exists (ban_user_sql now telegram_id reason d), (unban_user_sql telegram_id d).
    unfold ban_user, unban_user. rewrite (bind_int_Ok _ Hr).
    rewrite !(is_user_banned_bound _ _ Hr), H1, H2.
    do 4 (split; [done|]). split; [|split; [done|split; [done|]]].
    + intros other Hne. destruct (H3 other Hne) as [Hb Hu].
      unfold is_user_banned. destruct (bind_int other) as [n|e] eqn:Hn; [|done].
      apply bind_int_inv in Hn as [_ ->]. simpl. by rewrite Hb, Hu.
    + intros Hwf.
      destruct (ban_user_key_facts now telegram_id reason d Hwf)
        as (K1 & K2 & (r & Hin & Hid & Hre & Hnew & Hold) & K4).
      split; [done|]. split; [done|]. split.
      * exists r. do 3 (split; [done|]). split; [|done].
        intros [= Hb]. by apply Hnew.
      * intros banned [= <-]. exact K4.
  - intros Hr. unfold ban_user, unban_user, is_user_banned.
    by rewrite (bind_int_Raise _ Hr).
Qed.

(** ** The photo journal *)

Section order_by_desc.
Context {A : Type} (key : A -> Z).

Lemma order_by_desc_sorted (rows : list A) :
  StronglySorted (fun a b => key b <= key a) (order_by_desc key rows).
Proof.
  unfold order_by_desc.
  set (R := fun a b : A => Is_true (bool_decide (key b <= key a))).
  assert (Transitive R) as HT.
  { intros x y z Hxy Hyz. unfold R in *.
    apply bool_decide_unpack in Hxy, Hyz. apply bool_decide_pack. lia. }
  assert (Total R) as Htot.
  { intros x y. unfold R. destruct (decide (key y <= key x)).
    - left. by apply bool_decide_pack.
    - right. apply bool_decide_pack. lia. }
  pose proof (StronglySorted_merge_sort R rows) as Hs.
  induction Hs as [|a l Hl IH Ha]; constructor; [done|].
  eapply Forall_impl; [exact Ha|]. intros b Hb. by apply bool_decide_unpack in Hb.
Qed.

Lemma order_by_desc_Permutation (rows : list A) : order_by_desc key rows ≡ₚ rows.
Proof. apply merge_sort_Permutation. Qed.
End order_by_desc.

Lemma list_photos_for_user_facts (user_id : Z) (d : Database) :
  StronglySorted (fun p q => photo_timestamp q <= photo_timestamp p)
    (list_photos_for_user user_id d) /\
  (forall p, p ∈ list_photos_for_user user_id d <->
             p ∈ photos d /\ photo_user_id p = user_id) /\
  Z.of_nat (length (list_photos_for_user user_id d)) = count_photos_for_user user_id d /\
  (forall timestamp key,
     {| photo_id := photos_seq d + 1; photo_user_id := user_id;
        photo_timestamp := timestamp; photo_object_key := key |}
       ∈ list_photos_for_user user_id (add_photo user_id timestamp key d) /\
     count_photos_for_user user_id (add_photo user_id timestamp key d)
     = count_photos_for_user user_id d + 1 /\
     forall other, other <> user_id ->
       list_photos_for_user other (add_photo user_id timestamp key d)
       = list_photos_for_user other d).
Proof.
  unfold list_photos_for_user, count_photos_for_user.
  split; [apply order_by_desc_sorted|]. split; [|split].
  - intros p. rewrite order_by_desc_Permutation, list_elem_of_filter. tauto.
  - by rewrite order_by_desc_Permutation.
  - intros timestamp key. unfold add_photo. cbn [photos]. rewrite filter_app.
    split; [|split].
    + rewrite order_by_desc_Permutation. apply elem_of_app. right.
      rewrite filter_cons_True by done. apply list_elem_of_here.
    + rewrite length_app, filter_cons_True by done. simpl. lia.
    + intros other Hne. rewrite filter_app, filter_cons_False by (simpl; congruence).
      rewrite filter_nil. by rewrite app_nil_r.
Qed.

(** X6. [list_photos_for_user] returns the photo rows of that row id and no
    others, newest timestamp first, as many as [count_photos_for_user] counts;
    after [add_photo] the new row is in that participant's list, the count is
    one more, and the lists of all other participants are as before. *)
Theorem list_photos_for_user_spec (user_id : Z) (d : Database) :
  StronglySorted (fun p q => photo_timestamp q <= photo_timestamp p)
    (list_photos_for_user user_id d) /\
  (forall p, p ∈ list_photos_for_user user_id d <->
             p ∈ photos d /\ photo_user_id p = user_id) /\
  Z.of_nat (length (list_photos_for_user user_id d)) = count_photos_for_user user_id d /\
  (forall timestamp key,
     {| photo_id := photos_seq d + 1; photo_user_id := user_id;
        photo_timestamp := timestamp; photo_object_key := key |}
       ∈ list_photos_for_user user_id (add_photo user_id timestamp key d) /\
     count_photos_for_user user_id (add_photo user_id timestamp key d)
     = count_photos_for_user user_id d + 1 /\
     forall other, other <> user_id ->
       list_photos_for_user other (add_photo user_id timestamp key d)
       = list_photos_for_user other d).
Proof. exact (list_photos_for_user_facts user_id d). Qed.

(** ** Recent minutes and pruning *)

(** X7. On a history table in key order, [get_recent_prompt_minutes(limit)] is
    the minutes of the [limit] rows inserted last, the newest first, and never
    more than [limit] of them; after [add_prompt_history] it starts with the
    minute of the instant just added, followed by what [limit - 1] gave
    before. *)
Theorem get_recent_prompt_minutes_newest_first (limit : Z) (d : Database) :
  history_wf d -> 0 <= limit ->
  get_recent_prompt_minutes limit d
   = history_minute_of_day <$> take (Z.to_nat limit) (reverse (prompt_history d)) /\
  Z.of_nat (length (get_recent_prompt_minutes limit d)) <= limit /\
  (forall t, 0 < limit ->
     get_recent_prompt_minutes limit (add_prompt_history t d)
     = minute_of_day t :: get_recent_prompt_minutes (limit - 1) d).
Proof.
  intros Hwf Hlimit.
  assert (forall lim d0, history_wf d0 -> 0 <= lim ->
            get_recent_prompt_minutes lim d0
            = history_minute_of_day <$> take (Z.to_nat lim) (reverse (prompt_history d0)))
    as Hgen.
  { intros lim d0 [Hasc _] Hlim. unfold get_recent_prompt_minutes, sql_limit.
    rewrite bool_decide_eq_false_2 by lia. by rewrite order_by_desc_ascending. }
  split; [by apply Hgen|]. split.
  - rewrite Hgen by done. rewrite length_fmap, length_take. lia.
  - intros t Hpos. rewrite Hgen; [|by apply add_prompt_history_wf | done].
    rewrite Hgen by (done || lia).
    unfold add_prompt_history. cbn [set_prompt_history prompt_history].
    rewrite reverse_app.
    replace (Z.to_nat limit) with (S (Z.to_nat (limit - 1))) by lia.
    reflexivity.
Qed.

Lemma sql_limit_all {A} (limit : Z) (rows : list A) :
  limit < 0 \/ Z.of_nat (length rows) <= limit -> sql_limit limit rows = rows.
Proof.
  intros H. unfold sql_limit. case_bool_decide; [done|].
  apply take_ge. lia.
Qed.

(** X8. [prune_prompt_history] at the edges of its limit: with a negative
    limit (no bound in SQLite) or a limit that is not below the number of rows
    it changes nothing, with limit 0 it empties the table; on a table in key
    order the number of rows left is the smaller of the limit and the number
    there was, and pruning twice is pruning once. *)
Theorem prune_prompt_history_edges (limit : Z) (d : Database) :
  (limit < 0 \/ count_prompt_history d <= limit -> prune_prompt_history limit d = d) /\
  prompt_history (prune_prompt_history 0 d) = [] /\
  (history_wf d -> 0 <= limit ->
   count_prompt_history (prune_prompt_history limit d)
     = Z.min limit (count_prompt_history d) /\
   prune_prompt_history limit (prune_prompt_history limit d)
     = prune_prompt_history limit d).
Proof.
  assert (forall lim d0, lim < 0 \/ count_prompt_history d0 <= lim ->
            prune_prompt_history lim d0 = d0) as Hall.
  { intros lim d0 H. unfold prune_prompt_history.
    rewrite sql_limit_all.
    - rewrite filter_all; [by destruct d0|].
      apply Forall_forall. intros r Hr. apply list_elem_of_fmap. exists r.
      split; [done|]. by rewrite order_by_desc_Permutation.
    - destruct H as [H|H]; [by left|]. right.
      by rewrite order_by_desc_Permutation. }
  split; [apply Hall|]. split.
  - unfold prune_prompt_history, sql_limit. cbn. apply filter_none, Forall_forall.
    intros r _ Hin. by apply elem_of_nil in Hin.
  - intros Hwf Hlimit.
    assert (count_prompt_history (prune_prompt_history limit d)
            = Z.min limit (count_prompt_history d)) as Hcount.
    { unfold count_prompt_history. rewrite prune_prompt_history_rows by done.
      rewrite length_drop. lia. }
    split; [done|]. apply Hall. right. rewrite Hcount. lia.
Qed.

(** ** The scheduler's avoidance set *)

(** A list shorter than the day leaves some minute out. *)
Lemma short_list_free_minute (l : list Z) :
  (length l < 1440)%nat -> exists m0, 0 <= m0 < MINUTES_PER_DAY /\ m0 ∉ l.
Proof.
  intros Hlen.
  destruct (decide (Forall (fun m => m ∈ l) (seqZ 0 MINUTES_PER_DAY))) as [Hall|Hex].
  - exfalso. rewrite Forall_forall in Hall.
    pose proof (NoDup_submseteq _ _ (NoDup_seqZ 0 MINUTES_PER_DAY) Hall) as Hsub.
    apply submseteq_length in Hsub. rewrite length_seqZ in Hsub.
    unfold MINUTES_PER_DAY in Hsub. lia.
  - apply not_Forall_Exists in Hex; [|intros m; apply _].
    apply Exists_exists in Hex as (m0 & Hin & Hfree).
    exists m0. split; [|done]. apply elem_of_seqZ in Hin. lia.
Qed.

Lemma get_recent_prompt_minutes_length (limit : Z) (d : Database) :
  0 <= limit -> (length (get_recent_prompt_minutes limit d) <= Z.to_nat limit)%nat.
Proof.
  intros Hl. unfold get_recent_prompt_minutes, sql_limit.
  rewrite bool_decide_eq_false_2 by lia. rewrite length_fmap, length_take. lia.
Qed.

(** X9. The set the scheduler passes to the picker holds at most 1439 minutes,
    so it never covers the day: the list of available minutes is the filtered
    one (the fallback to the whole day is never taken).  A target the
    scheduler obtains is persisted (a read of [next_prompt] returns it), it is
    after now, and its minute of the day is none of the minutes read by
    [get_recent_prompt_minutes(1439)].  Before the last day of the calendar a
    target is always obtained; the only failure is the picker's
    [OverflowError] on that day, and then nothing was written. *)
Theorem fresh_target_avoids_recent (r1 r2 : nat) (now : datetime) (w : World)
    (d : Database) :
  db w = Some d ->
  (forall target w',
     fresh_target r1 r2 now w = (Ok target, w') ->
     w' = with_db (set_next_prompt (Some target) d) w /\
     (db w' ≫= get_next_prompt) = Some target /\
     now < target /\
     minute_of_day target ∉ get_recent_prompt_minutes 1439 d) /\
  (dt_date now < DATE_MAX ->
   exists target w', fresh_target r1 r2 now w = (Ok target, w')) /\
  (forall e w',
     fresh_target r1 r2 now w = (Raise e, w') ->
     e = OverflowError /\ w' = w /\ DATE_MAX <= dt_date now) /\
  available_minutes (list_to_set (get_recent_prompt_minutes 1439 d))
  = filter (fun m => m ∉ get_recent_prompt_minutes 1439 d) (seqZ 0 MINUTES_PER_DAY).
Proof.
  intros Hd. rewrite (fresh_target_run r1 r2 now w d Hd).
  set (recent := get_recent_prompt_minutes 1439 d) in *.
  destruct (short_list_free_minute recent) as (m0 & Hr0 & Hfree0).
  { pose proof (get_recent_prompt_minutes_length 1439 d ltac:(lia)). unfold recent. lia. }
  assert (m0 ∉ (list_to_set recent : gset Z)) as Hfree by (by rewrite elem_of_list_to_set).
  assert (forall m day, m ∈ available_minutes (list_to_set recent) ->
            minute_of_day (day * US_PER_DAY + m * US_PER_MINUTE) ∉ recent) as Hok.
  { intros m day Hin.
    rewrite minute_of_day_of_minute by (by eapply available_minutes_range).
    rewrite <- (elem_of_list_to_set (C := gset Z)).
    by eapply available_minutes_free. }
  split; [|split; [|split]].
  - intros target w'.
    destruct (choose_prompt_time r1 r2 now (last_prompt d) (list_to_set recent))
      as [t|e] eqn:Hc; [|done].
    intros [= <- <-]. split; [done|]. split; [done|].
    split; [by eapply choose_prompt_time_after|].
    revert Hc. unfold choose_prompt_time.
    destruct (first_target_day now (last_prompt d)) as [day|e]; [|done]. simpl.
    destruct (candidate_spec r1 day (list_to_set recent)) as (m1 & Hin1 & ->). simpl.
    case_bool_decide; [|intros [= <-]; by apply Hok].
    destruct (next_day (dt_date now)) as [day'|e]; [|done]. simpl.
    destruct (candidate_spec r2 day' (list_to_set recent)) as (m2 & Hin2 & ->).
    intros [= <-]. by apply Hok.
  - intros Hday.
    destruct (choose_prompt_time_returns r1 r2 now (last_prompt d) (list_to_set recent)
                Hday) as (t & -> & _).
    by eexists _, _.
  - intros e w'.
    destruct (choose_prompt_time r1 r2 now (last_prompt d) (list_to_set recent))
      as [t|e'] eqn:Hc; [done|].
    intros [= <- <-]. destruct (choose_prompt_time_raises _ _ _ _ _ _ Hc). done.
  - unfold available_minutes.
    destruct (filter _ _) as [|a l] eqn:Hf.
    + exfalso.
      assert (m0 ∈ filter (fun m => m ∉ (list_to_set recent : gset Z))
                     (seqZ 0 MINUTES_PER_DAY)) as Hin.
      { rewrite list_elem_of_filter, elem_of_seqZ. split; [done | lia]. }
      rewrite Hf in Hin. by apply not_elem_of_nil in Hin.
    + rewrite <- Hf. apply list_filter_iff. intros m.
      by rewrite elem_of_list_to_set.
Qed.

(** ** The day of the chosen instant *)

Lemma dt_date_of_minute (day m : Z) :
  0 <= m < MINUTES_PER_DAY -> dt_date (day * US_PER_DAY + m * US_PER_MINUTE) = day.
Proof.
  unfold MINUTES_PER_DAY, dt_date. rewrite US_PER_DAY_eq, US_PER_MINUTE_eq. intros Hm.
  symmetry. apply (Z.div_unique_pos _ _ _ (m * 60000000)); lia.
Qed.

(** X10. An instant [choose_prompt_time] returns is a whole minute, drawn from
    the available minutes, of the calendar day of [now] or of the day after,
    never past the last day of the calendar; it is less than two days away;
    and when the last prompt fell on the day of [now] it is on the day after,
    so no second prompt falls on that day.  Before the last day of the
    calendar the picker always returns.  It raises nothing but
    [OverflowError], and only on the last day; it does so there when the last
    prompt fell on that day. *)
Theorem choose_prompt_time_day (r1 r2 : nat) (now : datetime)
    (last_prompt : option datetime) (excluded : gset Z) :
  (forall t, choose_prompt_time r1 r2 now last_prompt excluded = Ok t ->
     exists m,
       m ∈ available_minutes excluded /\
       minute_of_day t = m /\
       t = dt_date t * US_PER_DAY + m * US_PER_MINUTE /\
       dt_date now <= dt_date t <= dt_date now + 1 /\
       t - now < days 2 /\
       (dt_date now <= DATE_MAX -> dt_date t <= DATE_MAX) /\
       (forall lp, last_prompt = Some lp -> dt_date lp = dt_date now ->
                   dt_date t = dt_date now + 1)) /\
  (dt_date now < DATE_MAX ->
   exists t, choose_prompt_time r1 r2 now last_prompt excluded = Ok t) /\
  (forall e, choose_prompt_time r1 r2 now last_prompt excluded = Raise e ->
             e = OverflowError /\ DATE_MAX <= dt_date now) /\
  (DATE_MAX <= dt_date now ->
   forall lp, last_prompt = Some lp -> dt_date lp = dt_date now ->
              choose_prompt_time r1 r2 now last_prompt excluded = Raise OverflowError).
Proof.
  assert (forall day m, 0 <= m < MINUTES_PER_DAY -> dt_date now <= day <= dt_date now + 1 ->
            day * US_PER_DAY + m * US_PER_MINUTE - now < days 2) as Hnear.
  { intros day m Hm Hd. unfold MINUTES_PER_DAY, dt_date, days in *.
    rewrite US_PER_DAY_eq, US_PER_MINUTE_eq in *.
    pose proof (Z.mod_pos_bound now 86400000000 ltac:(lia)).
    pose proof (Z.div_mod now 86400000000 ltac:(lia)). nia. }
  split; [|split; [|split]].
  - intros t. unfold choose_prompt_time.
    destruct (first_target_day_cases now last_prompt) as [[-> Hother]|[-> Hsame]].
    + simpl. destruct (candidate_spec r1 (dt_date now) excluded) as (m1 & Hin1 & ->).
      pose proof (available_minutes_range _ _ Hin1) as Hr1. simpl.
      case_bool_decide as Hle.
      * destruct (next_day (dt_date now)) as [day'|e] eqn:Hn; [|done]. simpl.
        apply next_day_inv in Hn as [Hlast ->].
        destruct (candidate_spec r2 (dt_date now + 1) excluded) as (m2 & Hin2 & ->).
        pose proof (available_minutes_range _ _ Hin2) as Hr2.
        intros [= <-]. exists m2.
        rewrite dt_date_of_minute, minute_of_day_of_minute by done.
        do 3 (split; [done|]). split; [lia|]. split; [apply Hnear; [done | lia]|].
        split; [lia|]. done.
      * intros [= <-]. exists m1.
        rewrite dt_date_of_minute, minute_of_day_of_minute by done.
        do 3 (split; [done|]). split; [lia|]. split; [apply Hnear; [done | lia]|].
        split; [done|]. intros lp Hlp Hd. by destruct (Hother lp Hlp).
    + destruct (next_day (dt_date now)) as [day|e] eqn:Hn; [|done]. simpl.
      apply next_day_inv in Hn as [Hlast ->].
      destruct (candidate_spec r1 (dt_date now + 1) excluded) as (m1 & Hin1 & ->).
      pose proof (available_minutes_range _ _ Hin1) as Hr1. simpl.
      case_bool_decide as Hle.
      * simpl. destruct (candidate_spec r2 (dt_date now + 1) excluded) as (m2 & Hin2 & ->).
        pose proof (available_minutes_range _ _ Hin2) as Hr2.
        intros [= <-]. exists m2.
        rewrite dt_date_of_minute, minute_of_day_of_minute by done.
        do 3 (split; [done|]). split; [lia|]. split; [apply Hnear; [done | lia]|].
        split; [lia|]. done.
      * intros [= <-]. exists m1.
        rewrite dt_date_of_minute, minute_of_day_of_minute by done.
        do 3 (split; [done|]). split; [lia|]. split; [apply Hnear; [done | lia]|].
        split; [lia|]. done.
  - intros Hd. destruct (choose_prompt_time_returns r1 r2 now last_prompt excluded Hd)
      as (t & Ht & _). by exists t.
  - intros e. apply choose_prompt_time_raises.
  - intros Hd lp Hlp Hsame.
    by apply (proj1 (choose_prompt_time_last_day r1 r2 now last_prompt excluded Hd) lp).
Qed.

(** ** Scheduler turns that change nothing *)

(** X11. A scheduler turn that finds a persisted target still ahead of now
    keeps it: nothing is drawn and the store is not written; the turn logs,
    sleeps for exactly the time left to that target, and goes on to the
    broadcast. *)
Theorem await_target_not_due (i : turn) (w : World) (d : Database) (t : datetime) :
  db w = Some d -> next_prompt d = Some t -> turn_now i < t ->
  await_target (turn_r1 i) (turn_r2 i) (turn_now i) w = (Ok t, w) /\
  scheduler_turn i w
    = send_daily_prompt (turn_deliver i) (turn_prompt_time i)
        (with_trace (trace w ++ [LogInfo; Slept (t - turn_now i)]) w).
Proof.
  intros Hd Hnext Hlt.
  assert (await_target (turn_r1 i) (turn_r2 i) (turn_now i) w = (Ok t, w)) as Hawait.
  { by eapply await_target_ahead. }
  split; [done|]. by eapply scheduler_turn_run.
Qed.

(** X12. While the global [db] is unset the scheduler does nothing but sleep:
    each turn sleeps five seconds, returns normally and leaves the process
    state as it is. *)
Theorem scheduler_loop_without_store (turns : list turn) (w : World) :
  db w = None ->
  scheduler_loop turns w
  = (Ok tt, with_trace (trace w ++ replicate (length turns) (Slept (seconds 5))) w).
Proof.
  unfold scheduler_loop. revert w. induction turns as [|i turns IH]; intros w Hd.
  - simpl. rewrite app_nil_r. by destruct w.
  - cbn [for_each length replicate].
    assert (scheduler_turn i w = (Ok tt, with_trace (trace w ++ [Slept (seconds 5)]) w))
      as Hturn.
    { unfold scheduler_turn, mbind, Eff_bind, get_world. by rewrite Hd. }
    rewrite (bind_run _ _ _ _ _ Hturn). rewrite IH by done.
    unfold with_trace. cbn [db storage bot_app trace].
    by rewrite <- (assoc_L (++)).
Qed.

(** ** Photo submissions *)

(** With an id that binds, a method is the statement it executes. *)
Lemma db_try_query_Ok {A} (q : Database -> A) :
  db_try_query (fun d => Ok (q d)) = db_query q.
Proof. reflexivity. Qed.

Lemma db_try_call_Ok {A} (f : Database -> A * Database) :
  db_try_call (fun d => Ok (f d)) = db_call f.
Proof. reflexivity. Qed.

Lemma db_try_exec_Ok (f : Database -> Database) :
  db_try_exec (fun d => Ok (f d)) = db_exec f.
Proof. reflexivity. Qed.

Lemma is_user_banned_fun (telegram_id : Z) :
  INT64_MIN <= telegram_id <= INT64_MAX ->
  is_user_banned telegram_id = fun d => Ok (is_user_banned_sql telegram_id d).
Proof. intros H. unfold is_user_banned. by rewrite (bind_int_Ok _ H). Qed.

Lemma get_user_by_telegram_fun (telegram_id : Z) :
  INT64_MIN <= telegram_id <= INT64_MAX ->
  get_user_by_telegram telegram_id
  = fun d => Ok (get_user_by_telegram_sql telegram_id d).
Proof. intros H. unfold get_user_by_telegram. by rewrite (bind_int_Ok _ H). Qed.

Lemma upsert_user_fun (now : datetime) (telegram_id : Z) (name : option string) :
  INT64_MIN <= telegram_id <= INT64_MAX ->
  upsert_user now telegram_id name
  = fun d => Ok (upsert_user_sql now telegram_id name d).
Proof. intros H. unfold upsert_user. by rewrite (bind_int_Ok _ H). Qed.

(** With an id that does not bind, the first call on the store raises. *)
Lemma db_try_query_raises {A B} (q : Database -> result A) (f : A -> Eff B)
    (w : World) (d : Database) (e : exn) :
  db w = Some d -> q d = Raise e -> (db_try_query q ≫= f) w = (Raise e, w).
Proof. intros Hd Hq. rewrite (bind_db_try_query _ _ _ _ Hd). by rewrite Hq. Qed.

Lemma handle_photo_enter (i : photo_inputs) (update : Update) (w : World)
    (d : Database) (objects : gmap object_key bytes) (chat_id : Z) :
  db w = Some d -> storage w = Some objects ->
  effective_chat update = Some chat_id ->
  INT64_MIN <= chat_id <= INT64_MAX ->
  handle_photo i update w
  = (if is_user_banned_sql chat_id d then reply_text update BannedText
     else
       match capture_window (photo_now i) (last_prompt d) with
       | NoPrompt => reply_text update NoPromptText
       | Missed => reply_text update MissedWindowText
       | InWindow =>
           m ← or_raise AttributeError (message update);
           file ← or_raise IndexError (last (photo m));
           photo_bytes ← or_raise NetworkError (photo_download i file);
           user_record ← db_query (get_user_by_telegram_sql chat_id);
           user_id ← match user_record with
                     | None =>
                         user ← or_raise AttributeError (effective_user update);
                         db_call (upsert_user_sql (photo_created_at i) chat_id (username user))
                     | Some u => mret (user_id u)
                     end;
           let timestamp := photo_timestamp_now i in
           let key : object_key := (chat_id, timestamp / US_PER_SECOND) in
           upload_photo (photo_upload_accepted i) key photo_bytes;;
           db_exec (add_photo user_id timestamp key);;
           reply_text update PhotoReceivedText
       end) w.
Proof.
  intros Hd Hst Hchat Hr. unfold handle_photo.
  unfold mbind at 1. unfold Eff_bind at 1. unfold get_world.
  rewrite Hd, Hst, Hchat.
  rewrite (is_user_banned_fun _ Hr), db_try_query_Ok.
  erewrite bind_db_query by done.
  destruct (is_user_banned_sql chat_id d); [done|].
  erewrite bind_db_query by done.
  unfold get_user_by_telegram, upsert_user. rewrite (bind_int_Ok _ Hr).
  reflexivity.
Qed.

Lemma reply_text_run (update : Update) (m : Message) (body : text) (w : World) :
  message update = Some m ->
  reply_text update body w
  = (Ok tt, with_trace (trace w ++ [Sent (message_chat m) body]) w).
Proof. intros Hm. unfold reply_text. rewrite Hm. reflexivity. Qed.

(** X13. A photo that is refused stores nothing and is answered with one
    message: from a banned chat the answer is the ban notice, whatever the
    window; from a chat that is not banned it is the no-prompt notice when no
    prompt was ever recorded, and the missed-window notice when more than 60
    seconds have passed since the last prompt.  The store and the object store
    are as before.  The ban lookup raises only for a chat id outside 64 bits,
    with [OverflowError]; the handler then ends with it and has done nothing. *)
Theorem handle_photo_refused (i : photo_inputs) (update : Update) (w : World)
    (d : Database) (objects : gmap object_key bytes) (chat_id : Z) (m : Message) :
  db w = Some d -> storage w = Some objects ->
  effective_chat update = Some chat_id ->
  message update = Some m ->
  let answered body :=
    handle_photo i update w
    = (Ok tt, with_trace (trace w ++ [Sent (message_chat m) body]) w) in
  (is_user_banned chat_id d = Ok true -> answered BannedText) /\
  (is_user_banned chat_id d = Ok false -> last_prompt d = None ->
   answered NoPromptText) /\
  (forall lp, is_user_banned chat_id d = Ok false -> last_prompt d = Some lp ->
              seconds 60 < photo_now i - lp -> answered MissedWindowText) /\
  (forall e, is_user_banned chat_id d = Raise e ->
             e = OverflowError /\ ~ (INT64_MIN <= chat_id <= INT64_MAX) /\
             handle_photo i update w = (Raise OverflowError, w)).
Proof.
  intros Hd Hst Hchat Hm answered. unfold answered.
  split; [|split; [|split]].
  - intros Hb. apply is_user_banned_inv in Hb as [Hr Hb].
    rewrite (handle_photo_enter i update w d objects chat_id Hd Hst Hchat Hr), Hb.
    by apply reply_text_run.
  - intros Hb Hlp. apply is_user_banned_inv in Hb as [Hr Hb].
    rewrite (handle_photo_enter i update w d objects chat_id Hd Hst Hchat Hr), Hb, Hlp.
    by apply reply_text_run.
  - intros lp Hb Hlp Hlate. apply is_user_banned_inv in Hb as [Hr Hb].
    rewrite (handle_photo_enter i update w d objects chat_id Hd Hst Hchat Hr), Hb, Hlp.
    unfold capture_window, total_seconds_gt.
    rewrite bool_decide_eq_true_2 by done. by apply reply_text_run.
  - intros e Hb.
    destruct (decide (INT64_MIN <= chat_id <= INT64_MAX)) as [Hr|Hr].
    { by rewrite (is_user_banned_bound _ _ Hr) in Hb. }
    rewrite (is_user_banned_raises _ _ Hr) in Hb. injection Hb as <-.
    do 2 (split; [done|]).
    unfold handle_photo. unfold mbind at 1. unfold Eff_bind at 1. unfold get_world.
    rewrite Hd, Hst, Hchat.
    by apply (db_try_query_raises _ _ _ d), is_user_banned_raises.
Qed.

Lemma handle_photo_accepted_run (i : photo_inputs) (update : Update) (w : World)
    (d : Database) (objects : gmap object_key bytes) (chat_id file : Z) (m : Message)
    (data : bytes) :
  db w = Some d -> storage w = Some objects ->
  effective_chat update = Some chat_id ->
  message update = Some m ->
  last (photo m) = Some file ->
  photo_download i file = Some data ->
  INT64_MIN <= chat_id <= INT64_MAX ->
  is_user_banned_sql chat_id d = false ->
  capture_window (photo_now i) (last_prompt d) = InWindow ->
  (get_user_by_telegram_sql chat_id d = None -> effective_user update <> None) ->
  let r := filed_under i chat_id (effective_user update ≫= username) d in
  let key : object_key := (chat_id, photo_timestamp_now i / US_PER_SECOND) in
  handle_photo i update w
  = if photo_upload_accepted i
    then (Ok tt,
          {| db := Some (add_photo r.1 (photo_timestamp_now i) key r.2);
             storage := Some (<[key := data]> objects);
             bot_app := bot_app w;
             trace := trace w ++ [Sent (message_chat m) PhotoReceivedText] |})
    else (Raise S3Error, with_db r.2 w).
Proof.
  intros Hd Hst Hchat Hm Hfile Hdl Hr Hban Hwin Huser r key.
  rewrite (handle_photo_enter i update w d objects chat_id Hd Hst Hchat Hr).
  rewrite Hban, Hwin.
  destruct w as [wdb wst wbot wtr]. simpl in Hd, Hst. subst wdb wst.
  rewrite Hm. cbn [or_raise]. rewrite bind_ret.
  rewrite Hfile. cbn [or_raise]. rewrite bind_ret.
  rewrite Hdl. cbn [or_raise]. rewrite bind_ret.
  erewrite bind_db_query by done.
  unfold r, filed_under.
  destruct (get_user_by_telegram_sql chat_id d) as [u|] eqn:Hu.
  - rewrite bind_ret. cbn [fst snd].
    unfold upload_photo at 1. unfold mbind at 1. unfold Eff_bind at 1.
    cbn [db storage bot_app trace].
    destruct (photo_upload_accepted i); [|done].
    erewrite bind_db_exec by done.
    rewrite (reply_text_run _ m) by done. reflexivity.
  - destruct (effective_user update) as [user|]; [|by destruct Huser].
    cbn [or_raise]. rewrite bind_bind, bind_ret.
    erewrite bind_db_call by done.
    cbn [mbind option_bind].
    unfold upload_photo at 1. unfold mbind at 1. unfold Eff_bind at 1.
    unfold with_db at 1. cbn [db storage bot_app trace].
    destruct (photo_upload_accepted i); [|done].
    erewrite bind_db_exec by done.
    rewrite (reply_text_run _ m) by done. reflexivity.
Qed.

Lemma filed_under_store (i : photo_inputs) (chat_id : Z) (name : option string)
    (d : Database) :
  let r := filed_under i chat_id name d in
  photos r.2 = photos d /\ photos_seq r.2 = photos_seq d /\
  last_prompt r.2 = last_prompt d /\ banned_users r.2 = banned_users d /\
  registrations_open r.2 = registrations_open d /\
  (exists u, get_user_by_telegram_sql chat_id r.2 = Some u /\ user_id u = r.1).
Proof.
  intros r. unfold r, filed_under.
  destruct (get_user_by_telegram_sql chat_id d) as [u|] eqn:Hu.
  - cbn [fst snd]. repeat split. by exists u.
  - destruct (upsert_user_found (photo_created_at i) chat_id name d)
      as [(u & Hget & Hid & _) _].
    rewrite upsert_user_run, Hu in *. cbn [fst snd] in *.
    repeat split. by exists u.
Qed.

(** X14. A photo inside the window from a participant on record: the [users]
    table is not written, one photo row is appended under the participant's
    row id with the timestamp of the submission, the bytes are stored under
    the key of that row, the row shows in the participant's journal, and the
    only message is the confirmation. *)
Theorem handle_photo_known_participant (i : photo_inputs) (update : Update)
    (w : World) (d : Database) (objects : gmap object_key bytes) (chat_id file : Z)
    (m : Message) (data : bytes) (u : user_row) :
  db w = Some d -> storage w = Some objects ->
  effective_chat update = Some chat_id ->
  message update = Some m ->
  last (photo m) = Some file ->
  photo_download i file = Some data ->
  photo_upload_accepted i = true ->
  is_user_banned chat_id d = Ok false ->
  capture_window (photo_now i) (last_prompt d) = InWindow ->
  get_user_by_telegram chat_id d = Ok (Some u) ->
  let key : object_key := (chat_id, photo_timestamp_now i / US_PER_SECOND) in
  let row := {| photo_id := photos_seq d + 1; photo_user_id := user_id u;
                photo_timestamp := photo_timestamp_now i; photo_object_key := key |} in
  exists w' d',
    handle_photo i update w = (Ok tt, w') /\
    db w' = Some d' /\
    users d' = users d /\
    photos d' = photos d ++ [row] /\
    row ∈ list_photos_for_user (user_id u) d' /\
    storage w' = Some (<[key := data]> objects) /\
    trace w' = trace w ++ [Sent (message_chat m) PhotoReceivedText].
Proof.
  intros Hd Hst Hchat Hm Hfile Hdl Hup Hban Hwin Hu key row.
  apply is_user_banned_inv in Hban as [Hr Hban].
  apply get_user_by_telegram_inv in Hu as [_ Hu].
  pose proof (handle_photo_accepted_run i update w d objects chat_id file m data
                Hd Hst Hchat Hm Hfile Hdl Hr Hban Hwin) as Hrun.
  cbv zeta in Hrun. rewrite Hup in Hrun. unfold filed_under in Hrun.
  rewrite Hu in Hrun. cbn [fst snd] in Hrun.
  eexists _, _. split; [apply Hrun; congruence|]. cbn [db storage trace].
  split; [reflexivity|]. repeat split.
  apply (list_photos_for_user_facts (user_id u) d).
Qed.

(** X15. What a submission that fails inside the window leaves behind.  With
    no photo sizes in the message it raises [IndexError], and when the
    download fails it raises the download's error, both with the process state
    unchanged.  When the object store refuses the upload it raises [S3Error]
    after the participant row was written: the sender is on record, and no
    photo row and no answer exist. *)
Theorem handle_photo_failures (i : photo_inputs) (update : Update) (w : World)
    (d : Database) (objects : gmap object_key bytes) (chat_id : Z) (m : Message) :
  db w = Some d -> storage w = Some objects ->
  effective_chat update = Some chat_id ->
  message update = Some m ->
  is_user_banned chat_id d = Ok false ->
  capture_window (photo_now i) (last_prompt d) = InWindow ->
  (photo m = [] -> handle_photo i update w = (Raise IndexError, w)) /\
  (forall file, last (photo m) = Some file -> photo_download i file = None ->
                handle_photo i update w = (Raise NetworkError, w)) /\
  (forall file data user,
     last (photo m) = Some file -> photo_download i file = Some data ->
     effective_user update = Some user ->
     photo_upload_accepted i = false ->
     exists d',
       handle_photo i update w = (Raise S3Error, with_db d' w) /\
       d' = (filed_under i chat_id (username user) d).2 /\
       (exists u, get_user_by_telegram chat_id d' = Ok (Some u)) /\
       photos d' = photos d).
Proof.
  intros Hd Hst Hchat Hm Hban Hwin.
  apply is_user_banned_inv in Hban as [Hr Hban].
  split; [|split].
  - intros Hnil.
    rewrite (handle_photo_enter i update w d objects chat_id Hd Hst Hchat Hr).
    rewrite Hban, Hwin, Hm. cbn [or_raise]. rewrite bind_ret.
    rewrite Hnil. reflexivity.
  - intros file Hfile Hdl.
    rewrite (handle_photo_enter i update w d objects chat_id Hd Hst Hchat Hr).
    rewrite Hban, Hwin, Hm. cbn [or_raise]. rewrite bind_ret.
    rewrite Hfile. cbn [or_raise]. rewrite bind_ret.
    rewrite Hdl. reflexivity.
  - intros file data user Hfile Hdl Huser Hup.
    pose proof (handle_photo_accepted_run i update w d objects chat_id file m data
                  Hd Hst Hchat Hm Hfile Hdl Hr Hban Hwin) as Hrun.
    cbv zeta in Hrun. rewrite Hup, Huser in Hrun. cbn [mbind option_bind] in Hrun.
    eexists. split; [apply Hrun; congruence|]. split; [done|].
    destruct (filed_under_store i chat_id (username user) d)
      as (Hph & _ & _ & _ & _ & (u & Hget & _)).
    split; [|done]. exists u. by rewrite (get_user_by_telegram_bound _ _ Hr), Hget.
Qed.

(** X16. The object key is built from the chat id and the timestamp cut to the
    second.  Two photos of one chat accepted with timestamps in the same
    second therefore get two photo rows with the same key under the same
    participant row, and the object store holds one object under it: the bytes
    of the second photo. *)
Theorem photos_in_one_second_share_an_object (i1 i2 : photo_inputs) (update : Update)
    (w : World) (d : Database) (objects : gmap object_key bytes) (chat_id file : Z)
    (m : Message) (user : User) (data1 data2 : bytes) :
  db w = Some d -> storage w = Some objects ->
  effective_chat update = Some chat_id ->
  message update = Some m ->
  effective_user update = Some user ->
  last (photo m) = Some file ->
  photo_download i1 file = Some data1 -> photo_download i2 file = Some data2 ->
  photo_upload_accepted i1 = true -> photo_upload_accepted i2 = true ->
  is_user_banned chat_id d = Ok false ->
  capture_window (photo_now i1) (last_prompt d) = InWindow ->
  capture_window (photo_now i2) (last_prompt d) = InWindow ->
  photo_timestamp_now i1 / US_PER_SECOND = photo_timestamp_now i2 / US_PER_SECOND ->
  let key : object_key := (chat_id, photo_timestamp_now i1 / US_PER_SECOND) in
  exists w1 w2 d2 uid,
    handle_photo i1 update w = (Ok tt, w1) /\
    handle_photo i2 update w1 = (Ok tt, w2) /\
    db w2 = Some d2 /\
    photos d2
    = photos d ++
      [{| photo_id := photos_seq d + 1; photo_user_id := uid;
          photo_timestamp := photo_timestamp_now i1; photo_object_key := key |};
       {| photo_id := photos_seq d + 2; photo_user_id := uid;
          photo_timestamp := photo_timestamp_now i2; photo_object_key := key |}] /\
    storage w2 = Some (<[key := data2]> objects) /\
    (storage w2 ≫= fun o => o !! key) = Some data2.
Proof.
  intros Hd Hst Hchat Hm Huser Hfile Hdl1 Hdl2 Hup1 Hup2 Hban Hwin1 Hwin2 Hsec key.
  apply is_user_banned_inv in Hban as [Hr Hban].
  pose proof (handle_photo_accepted_run i1 update w d objects chat_id file m data1
                Hd Hst Hchat Hm Hfile Hdl1 Hr Hban Hwin1) as Hrun1.
  cbv zeta in Hrun1. rewrite Hup1, Huser in Hrun1. cbn [mbind option_bind] in Hrun1.
  specialize (Hrun1 ltac:(congruence)).
  destruct (filed_under_store i1 chat_id (username user) d)
    as (Hph & Hpseq & Hlp & Hbans & _ & (u & Hget & Hid)).
  set (r := filed_under i1 chat_id (username user) d) in *.
  set (d1 := add_photo r.1 (photo_timestamp_now i1) key r.2).
  set (w1 := {| db := Some d1; storage := Some (<[key := data1]> objects);
                bot_app := bot_app w;
                trace := trace w ++ [Sent (message_chat m) PhotoReceivedText] |}).
  assert (get_user_by_telegram_sql chat_id d1 = Some u) as Hget1 by exact Hget.
  assert (is_user_banned_sql chat_id d1 = false) as Hban1.
  { unfold is_user_banned_sql, d1, add_photo. cbn [banned_users]. by rewrite Hbans. }
  assert (last_prompt d1 = last_prompt d) as Hlp1 by exact Hlp.
  pose proof (handle_photo_accepted_run i2 update w1 d1 (<[key := data1]> objects)
                chat_id file m data2 eq_refl eq_refl Hchat Hm Hfile Hdl2 Hr Hban1)
    as Hrun2.
  rewrite Hlp1 in Hrun2. specialize (Hrun2 Hwin2 ltac:(congruence)).
  cbv zeta in Hrun2. rewrite Hup2 in Hrun2. unfold filed_under in Hrun2.
  rewrite Hget1 in Hrun2. cbn [fst snd] in Hrun2. rewrite <- Hsec in Hrun2.
  fold key in Hrun2.
  eexists w1, _, _, r.1. split; [exact Hrun1|]. split; [exact Hrun2|].
  cbn [db storage]. split; [reflexivity|]. split; [|split].
  - unfold d1, add_photo. cbn [photos photos_seq]. rewrite Hph, Hpseq, Hid.
    rewrite <- (assoc_L (++)). cbn [app].
    by replace (photos_seq d + 1 + 1) with (photos_seq d + 2) by lia.
  - by rewrite insert_insert_eq.
  - cbn [mbind option_bind]. by rewrite insert_insert_eq, lookup_insert_eq.
Qed.

(** ** Registration by command *)

Lemma handle_start_enter (created_at : datetime) (update : Update) (w : World)
    (d : Database) (chat_id : Z) (m : Message) :
  db w = Some d -> effective_chat update = Some chat_id -> message update = Some m ->
  INT64_MIN <= chat_id <= INT64_MAX ->
  handle_start created_at update w
  = (banned ← db_query (is_user_banned_sql chat_id);
     if banned : bool then reply_text update BannedText
     else
       let name := effective_user update ≫= username in
       existing ← db_query (get_user_by_telegram_sql chat_id);
       match existing with
       | Some _ =>
           db_call (upsert_user_sql created_at chat_id name);;
           reply_text update AlreadyRegisteredText
       | None =>
           open ← db_query are_registrations_open;
           if negb open then reply_text update RegistrationsClosedText
           else
             db_call (upsert_user_sql created_at chat_id name);;
             reply_text update RegistrationSuccessfulText
       end) w.
Proof.
  intros Hd Hchat Hm Hr. unfold handle_start.
  unfold mbind at 1. unfold Eff_bind at 1. unfold get_world.
  rewrite Hd, Hchat, Hm.
  unfold is_user_banned, get_user_by_telegram, upsert_user. rewrite (bind_int_Ok _ Hr).
  reflexivity.
Qed.

Lemma handle_start_raises (created_at : datetime) (update : Update) (w : World)
    (d : Database) (chat_id : Z) (m : Message) :
  db w = Some d -> effective_chat update = Some chat_id -> message update = Some m ->
  ~ (INT64_MIN <= chat_id <= INT64_MAX) ->
  handle_start created_at update w = (Raise OverflowError, w).
Proof.
  intros Hd Hchat Hm Hr. unfold handle_start.
  unfold mbind at 1. unfold Eff_bind at 1. unfold get_world.
  rewrite Hd, Hchat, Hm.
  by apply (db_try_query_raises _ _ _ d), is_user_banned_raises.
Qed.

Lemma handle_start_run (created_at : datetime) (update : Update) (w : World)
    (d : Database) (chat_id : Z) (m : Message) :
  db w = Some d -> effective_chat update = Some chat_id -> message update = Some m ->
  INT64_MIN <= chat_id <= INT64_MAX ->
  exists w' d',
    handle_start created_at update w = (Ok tt, w') /\
    db w' = Some d' /\
    storage w' = storage w /\
    trace w' = trace w ++
      [Sent (message_chat m)
         (if is_user_banned_sql chat_id d then BannedText
          else if bool_decide (get_user_by_telegram_sql chat_id d <> None)
               then AlreadyRegisteredText
               else if registrations_open d then RegistrationSuccessfulText
                    else RegistrationsClosedText)] /\
    (get_user_by_telegram_sql chat_id d' <> None <->
     get_user_by_telegram_sql chat_id d <> None \/
     (is_user_banned_sql chat_id d = false /\ registrations_open d = true)) /\
    (forall other, other <> chat_id ->
       get_user_by_telegram_sql other d' = get_user_by_telegram_sql other d) /\
    photos d' = photos d /\ banned_users d' = banned_users d.
Proof.
  intros Hd Hchat Hm Hr.
  rewrite (handle_start_enter created_at update w d chat_id m Hd Hchat Hm Hr).
  destruct w as [wdb wst wbot wtr]. simpl in Hd. subst wdb.
  erewrite bind_db_query by done.
  destruct (is_user_banned_sql chat_id d) eqn:Hban.
  { rewrite (reply_text_run _ m) by done. eexists _, d.
    split; [reflexivity|]. cbn [db storage trace with_trace].
    do 3 (split; [done|]). split; [|done].
    split; [by left | by intros [H|[H _]]]. }
  erewrite bind_db_query by done.
  set (name := effective_user update ≫= username).
  destruct (upsert_user_found created_at chat_id name d)
    as [(u & Hget & _) Hother].
  cbv zeta in Hother.
  assert (photos (upsert_user_sql created_at chat_id name d).2 = photos d /\
          banned_users (upsert_user_sql created_at chat_id name d).2 = banned_users d)
    as [Hph Hbans].
  { rewrite upsert_user_run. by destruct (get_user_by_telegram_sql chat_id d). }
  destruct (get_user_by_telegram_sql chat_id d) as [u0|] eqn:Hu0.
  - erewrite bind_db_call by done. rewrite (reply_text_run _ m) by done.
    eexists _, _. split; [reflexivity|]. cbn [db storage trace with_trace with_db].
    split; [reflexivity|].
    rewrite bool_decide_eq_true_2 by done.
    do 2 (split; [done|]). split; [|done].
    split; [by left | by rewrite Hget].
  - erewrite bind_db_query by done. unfold are_registrations_open.
    rewrite bool_decide_eq_false_2 by (by intros H; apply H).
    destruct (registrations_open d) eqn:Hopen; cbn [negb].
    + erewrite bind_db_call by done. rewrite (reply_text_run _ m) by done.
      eexists _, _. split; [reflexivity|]. cbn [db storage trace with_trace with_db].
      split; [reflexivity|]. do 2 (split; [done|]). split; [|done].
      split; [by right | by rewrite Hget].
    + rewrite (reply_text_run _ m) by done. eexists _, d.
      split; [reflexivity|]. cbn [db storage trace with_trace].
      do 3 (split; [done|]). split; [|done].
      rewrite Hu0. split; [done | by intros [H|[_ H]]].
Qed.

(** X17. [/start] with a store, a chat and a message.  For a chat id that
    binds it returns normally and answers once: the ban notice to a banned
    chat, the already-registered text to a participant on record, and
    otherwise the success text when registrations are open and the closed text
    when they are not; afterwards the chat is a participant exactly when it
    was one before or it is not banned and registrations are open, and no
    other participant, photo or ban is touched.  For a chat id outside 64 bits
    it raises [OverflowError] and has done nothing. *)
Theorem handle_start_outcome (created_at : datetime) (update : Update) (w : World)
    (d : Database) (chat_id : Z) (m : Message) :
  db w = Some d -> effective_chat update = Some chat_id -> message update = Some m ->
  (forall banned existing,
     is_user_banned chat_id d = Ok banned ->
     get_user_by_telegram chat_id d = Ok existing ->
     exists w' d',
       handle_start created_at update w = (Ok tt, w') /\
       db w' = Some d' /\
       storage w' = storage w /\
       trace w' = trace w ++
         [Sent (message_chat m)
            (if banned : bool then BannedText
             else if bool_decide (existing <> None)
                  then AlreadyRegisteredText
                  else if registrations_open d then RegistrationSuccessfulText
                       else RegistrationsClosedText)] /\
       ((exists u, get_user_by_telegram chat_id d' = Ok (Some u)) <->
        existing <> None \/ (banned = false /\ registrations_open d = true)) /\
       (forall other, other <> chat_id ->
          get_user_by_telegram other d' = get_user_by_telegram other d) /\
       photos d' = photos d /\ banned_users d' = banned_users d) /\
  (INT64_MIN <= chat_id <= INT64_MAX ->
   exists banned existing,
     is_user_banned chat_id d = Ok banned /\
     get_user_by_telegram chat_id d = Ok existing) /\
  (~ (INT64_MIN <= chat_id <= INT64_MAX) ->
   handle_start created_at update w = (Raise OverflowError, w)).
Proof.
  intros Hd Hchat Hm. split; [|split].
  - intros banned existing Hban Hget.
    apply is_user_banned_inv in Hban as [Hr <-].
    apply get_user_by_telegram_inv in Hget as [_ <-].
    destruct (handle_start_run created_at update w d chat_id m Hd Hchat Hm Hr)
      as (w' & d' & Hrun & Hdb & Hst & Htr & Hiff & Hother & Hph & Hbans).
    exists w', d'. do 4 (split; [done|]). split; [|split; [|done]].
    + rewrite (get_user_by_telegram_bound _ _ Hr), <- Hiff. split.
      * by intros [u [= ->]].
      * destruct (get_user_by_telegram_sql chat_id d') as [u|]; [by exists u | done].
    + intros other Hne. unfold get_user_by_telegram.
      destruct (bind_int other) as [n|e] eqn:Hn; [|done].
      apply bind_int_inv in Hn as [_ ->]. simpl. by rewrite (Hother other Hne).
  - intros Hr. eexists _, _.
    by rewrite (is_user_banned_bound _ _ Hr), (get_user_by_telegram_bound _ _ Hr).
  - by apply (handle_start_raises created_at update w d chat_id m).
Qed.

(** ** From the broadcast to the photo *)

Lemma send_daily_prompt_run (deliver : Z -> bool) (prompt_time : datetime)
    (w : World) (d : Database) :
  db w = Some d -> bot_app w = true -> users d <> [] ->
  send_daily_prompt deliver prompt_time w
  = (Ok tt,
     {| db := Some (record_prompt prompt_time d); storage := storage w;
        bot_app := true;
        trace := trace w ++
          flat_map (fun u => delivery_events deliver (user_telegram_id u))
            (recipients d) |}).
Proof.
  intros Hd Hbot Husers.
  destruct w as [wdb wst wbot wtr]. simpl in Hd, Hbot. subst wdb wbot.
  unfold send_daily_prompt.
  unfold mbind at 1. unfold Eff_bind at 1. unfold get_world. cbn [db bot_app].
  erewrite bind_db_query by reflexivity.
  destruct (get_users d) as [|u us] eqn:Hus.
  { by apply get_users_nil in Hus. }
  erewrite bind_db_query by reflexivity.
  cbv zeta.
  rewrite (bind_run _ _ _ _ _ (delivery_loop_run deliver d (u :: us) _)).
  unfold with_trace. cbn [db storage bot_app trace].
  erewrite bind_db_exec by reflexivity.
  erewrite bind_db_exec by reflexivity.
  erewrite db_exec_run by reflexivity.
  unfold with_db, recipients, record_prompt. rewrite Hus. reflexivity.
Qed.

Lemma record_prompt_store (t : datetime) (d : Database) :
  last_prompt (record_prompt t d) = Some t /\
  users (record_prompt t d) = users d /\
  users_seq (record_prompt t d) = users_seq d /\
  photos (record_prompt t d) = photos d /\
  photos_seq (record_prompt t d) = photos_seq d /\
  banned_users (record_prompt t d) = banned_users d /\
  registrations_open (record_prompt t d) = registrations_open d /\
  next_prompt (record_prompt t d) = next_prompt d.
Proof. by repeat split. Qed.

(** X18. The window opens with the broadcast.  After [send_daily_prompt] has
    run on a store with at least one participant and recorded its instant, a
    photo from a chat that is not banned is stored when it arrives within 60
    seconds of that instant (one more photo row, its timestamp the one of the
    submission, its object in the object store, the confirmation sent) and is
    answered with the missed-window text when it arrives later. *)
Theorem photo_after_broadcast (deliver : Z -> bool) (prompt_time : datetime)
    (i : photo_inputs) (update : Update) (w : World) (d : Database)
    (objects : gmap object_key bytes) (chat_id file : Z) (m : Message) (user : User)
    (data : bytes) :
  db w = Some d -> bot_app w = true -> storage w = Some objects ->
  users d <> [] ->
  effective_chat update = Some chat_id ->
  message update = Some m ->
  effective_user update = Some user ->
  last (photo m) = Some file ->
  photo_download i file = Some data ->
  photo_upload_accepted i = true ->
  is_user_banned chat_id d = Ok false ->
  exists w1,
    send_daily_prompt deliver prompt_time w = (Ok tt, w1) /\
    (photo_now i - prompt_time <= seconds 60 ->
     exists w2 d2,
       handle_photo i update w1 = (Ok tt, w2) /\
       db w2 = Some d2 /\
       count_photos_total d2 = count_photos_total d + 1 /\
       (exists p, last (photos d2) = Some p /\
                  photo_timestamp p = photo_timestamp_now i /\
                  (storage w2 ≫= fun o => o !! photo_object_key p) = Some data) /\
       trace w2 = trace w1 ++ [Sent (message_chat m) PhotoReceivedText]) /\
    (seconds 60 < photo_now i - prompt_time ->
     handle_photo i update w1
     = (Ok tt, with_trace (trace w1 ++ [Sent (message_chat m) MissedWindowText]) w1)).
Proof.
  intros Hd Hbot Hst Husers Hchat Hm Huser Hfile Hdl Hup Hban.
  apply is_user_banned_inv in Hban as [Hr Hban].
  eexists. split; [by apply send_daily_prompt_run|].
  set (w1 := {| db := Some (record_prompt prompt_time d); storage := storage w;
                bot_app := true; trace := _ |}).
  destruct (record_prompt_store prompt_time d)
    as (Hlp & Hus & Hseq & Hph & Hpseq & Hbans & _).
  assert (is_user_banned_sql chat_id (record_prompt prompt_time d) = false) as Hban1.
  { unfold is_user_banned_sql. by rewrite Hbans. }
  split.
  - intros Hin.
    pose proof (handle_photo_accepted_run i update w1 (record_prompt prompt_time d)
                  objects chat_id file m data eq_refl Hst Hchat Hm Hfile Hdl Hr Hban1)
      as Hrun.
    rewrite Hlp in Hrun. unfold capture_window, total_seconds_gt in Hrun.
    rewrite bool_decide_eq_false_2 in Hrun by lia.
    specialize (Hrun eq_refl ltac:(congruence)). cbv zeta in Hrun.
    rewrite Hup in Hrun.
    eexists _, _. split; [exact Hrun|]. cbn [db storage trace].
    split; [reflexivity|].
    destruct (filed_under_store i chat_id (effective_user update ≫= username)
                (record_prompt prompt_time d)) as (Hph' & _).
    split; [|split; [|done]].
    + unfold count_photos_total, add_photo. cbn [photos].
      rewrite length_app, Hph', Hph. simpl. lia.
    + eexists. unfold add_photo. cbn [photos]. rewrite last_snoc.
      split; [reflexivity|]. cbn [photo_timestamp photo_object_key].
      split; [done|]. cbn [mbind option_bind]. by rewrite lookup_insert_eq.
  - intros Hlate.
    rewrite (handle_photo_enter i update w1 (record_prompt prompt_time d) objects
               chat_id eq_refl Hst Hchat Hr).
    rewrite Hban1, Hlp. unfold capture_window, total_seconds_gt.
    rewrite bool_decide_eq_true_2 by done. by apply reply_text_run.
Qed.

(** ** Sessions at the endpoints *)

Section SessionEndpoints.
Context {L : PyLib} {laws : PyLibLaws L}.

Lemma issued_token_verifies (env : Environ) (secret : string)
    (telegram_id issued_at : Z) :
  APP_SESSION_SECRET env = Some secret -> secret <> EmptyString ->
  exists token,
    create_session_token env issued_at telegram_id = Ok token /\
    forall now,
      parse_and_verify_session env now token
      = if bool_decide (issued_at + SESSION_TTL_SECONDS < now) then None
        else Some (session_payload telegram_id issued_at).
Proof.
  intros Henv Hne.
  pose proof (get_session_secret_set env secret Henv Hne) as Hsecret.
  set (payload := session_payload telegram_id issued_at).
  destruct (b64url_round_trip (str_encode_utf8 (json_dumps payload)))
    as (head & Hhead & Hhead_enc & Hhead_dec).
  destruct (alphabet_body head Hhead) as (Hhead_ascii & _ & Hhead_dot).
  destruct (b64url_round_trip (hmac_sha256 (str_encode_utf8 secret) head))
    as (tail & Htail & Htail_enc & Htail_dec).
  exists (string_of_list_byte head ++ "." ++ string_of_list_byte tail)%string.
  split.
  - unfold create_session_token. fold payload.
    rewrite Hhead_enc. cbn [mbind result_bind].
    rewrite Hsecret. cbn [mbind result_bind].
    rewrite (str_encode_ascii_bytes head Hhead_ascii). cbn [mbind result_bind].
    rewrite Htail_enc. reflexivity.
  - intros now. unfold parse_and_verify_session.
    change ("." ++ string_of_list_byte tail)%string
      with (String "." (string_of_list_byte tail)).
    rewrite (split_once_body head _ Hhead_dot). unfold verify_parts.
    rewrite Hsecret. cbn [mbind result_bind].
    rewrite (str_encode_ascii_bytes head Hhead_ascii). cbn [mbind result_bind].
    rewrite Htail_dec. cbn [mbind result_bind].
    rewrite bool_decide_eq_true_2 by done. cbn [negb].
    rewrite Hhead_dec. cbn [mbind result_bind].
    rewrite utf8_decode_encode. cbn [expect mbind result_bind].
    unfold payload. rewrite json_loads_dumps. cbn [expect mbind result_bind].
    rewrite session_payload_exp. cbn [mbind result_bind py_int].
    by case_bool_decide.
Qed.

(** X19. [GET /me] with the cookie [create_session_token] mints for an id.  Up
    to and including the second of its [exp] the endpoint answers with the
    record of exactly that id, with 404 when the id has no record, or with the
    exception of the lookup when the id does not bind; bans are not consulted.
    After [exp] the answer is 401, as it is without a cookie. *)
Theorem get_me_with_issued_cookie (env : Environ) (secret : string)
    (telegram_id issued_at : Z) (w : World) (d : Database) :
  APP_SESSION_SECRET env = Some secret -> secret <> EmptyString ->
  db w = Some d ->
  exists token,
    create_session_token env issued_at telegram_id = Ok token /\
    (forall now, now <= issued_at + SESSION_TTL_SECONDS ->
       get_me env now (Some token) w
       = match get_user_by_telegram telegram_id d with
         | Ok (Some user) => MeOk user
         | Ok None => MeHTTP 404
         | Raise e => MeRaise e
         end) /\
    (forall now, issued_at + SESSION_TTL_SECONDS < now ->
       get_me env now (Some token) w = MeHTTP 401) /\
    (forall now, get_me env now None w = MeHTTP 401).
Proof.
  intros Henv Hne Hd.
  destruct (issued_token_verifies env secret telegram_id issued_at Henv Hne)
    as (token & Hcreate & Hverify).
  exists token. split; [done|]. split; [|split].
  - intros now Hnow. unfold get_me. rewrite Hd. cbv zeta.
    change (default EmptyString (Some token)) with token.
    rewrite Hverify, bool_decide_eq_false_2 by lia.
    reflexivity.
  - intros now Hnow. unfold get_me. rewrite Hd. cbv zeta.
    change (default EmptyString (Some token)) with token.
    by rewrite Hverify, bool_decide_eq_true_2 by lia.
  - intros now. unfold get_me. by rewrite Hd.
Qed.

Lemma session_without_secret_facts (env : Environ) (time_now telegram_id : Z)
    (token : string) (w : World) (d : Database) :
  APP_SESSION_SECRET env = None \/ APP_SESSION_SECRET env = Some EmptyString ->
  db w = Some d ->
  create_session_token env time_now telegram_id = Raise RuntimeError /\
  parse_and_verify_session env time_now token = None /\
  get_me env time_now (Some token) w = MeHTTP 401.
Proof.
  intros Henv Hd.
  assert (_get_session_secret env = Raise RuntimeError) as Hsecret.
  { unfold _get_session_secret. by destruct Henv as [-> | ->]. }
  assert (parse_and_verify_session env time_now token = None) as Hparse.
  { unfold parse_and_verify_session, verify_parts.
    destruct (split_once "." token) as [[a b]|]; [|done]. by rewrite Hsecret. }
  split; [|split; [done|]].
  - unfold create_session_token.
    destruct (b64url_round_trip
                (str_encode_utf8 (json_dumps (session_payload telegram_id time_now))))
      as (head & _ & -> & _).
    cbn [mbind result_bind]. by rewrite Hsecret.
  - unfold get_me. rewrite Hd. cbv zeta.
    change (default EmptyString (Some token)) with token. by rewrite Hparse.
Qed.
End SessionEndpoints.

(** ** Login *)

Lemma telegram_auth_callback_enter {L : PyLib} (env : Environ) (time_now : Z)
    (created_at : datetime) (query_params : gmap string string) (w : World)
    (d : Database) :
  db w = Some d ->
  telegram_auth_callback env time_now created_at query_params w
  = match verify_telegram_login_payload env time_now query_params with
    | Raise e => (Raise e, w)
    | Ok None => (Raise (HTTPException 401), w)
    | Ok (Some data) =>
        if bool_decide (data = ∅) then (Raise (HTTPException 401), w)
        else
          match data !! "id"%string ≫= int_of_str with
          | None => (Raise (HTTPException 400), w)
          | Some telegram_id =>
              match bind_int telegram_id with
              | Raise e => (Raise e, w)
              | Ok _ =>
                  if is_user_banned_sql telegram_id d then (Raise (HTTPException 403), w)
                  else if bool_decide (get_user_by_telegram_sql telegram_id d = None)
                          && negb (registrations_open d)
                       then (Raise (HTTPException 403), w)
                       else
                         let w' :=
                           with_db (upsert_user_sql created_at telegram_id
                                      (data !! "username"%string) d).2 w in
                         match create_session_token env time_now telegram_id with
                         | Ok token => (Ok token, w')
                         | Raise RuntimeError => (Raise (HTTPException 500), w')
                         | Raise e => (Raise e, w')
                         end
              end
          end
    end.
Proof.
  intros Hd. destruct w as [wdb wst wbot wtr]. simpl in Hd. subst wdb.
  unfold telegram_auth_callback. unfold mbind at 1. unfold Eff_bind at 1.
  unfold get_world. cbn [db].
  unfold mbind at 1. unfold Eff_bind at 1. unfold lift_result at 1.
  destruct (verify_telegram_login_payload env time_now query_params)
    as [[data|]|e]; [|done..].
  case_bool_decide; [done|].
  destruct (data !! "id"%string ≫= int_of_str) as [telegram_id|]; [|done].
  destruct (decide (INT64_MIN <= telegram_id <= INT64_MAX)) as [Hr|Hr].
  2:{ rewrite (bind_int_Raise _ Hr).
      by apply (db_try_query_raises _ _ _ d), is_user_banned_raises. }
  rewrite (bind_int_Ok _ Hr).
  rewrite (is_user_banned_fun _ Hr), (get_user_by_telegram_fun _ Hr),
    (upsert_user_fun _ _ _ Hr), !db_try_query_Ok, db_try_call_Ok.
  erewrite bind_db_query by done.
  destruct (is_user_banned_sql telegram_id d); [done|].
  erewrite bind_db_query by done.
  erewrite bind_db_query by done.
  unfold are_registrations_open.
  destruct (bool_decide (get_user_by_telegram_sql telegram_id d = None)
            && negb (registrations_open d)); [done|].
  erewrite bind_db_call by done.
  unfold try_except, lift_result. cbv zeta.
  destruct (create_session_token env time_now telegram_id) as [tok|e]; [done|].
  by destruct e.
Qed.

(** X20. The ways the login callback turns a request away, all of them before
    the store is written: 401 when the assertion does not verify or carries
    nothing beside the hash, 400 when there is no integer [id], 403 for a
    banned id, 403 for an id without a record while registrations are closed;
    an exception raised by the verification comes out as it is, and so does
    the [OverflowError] of the ban lookup for an [id] outside 64 bits. *)
Theorem login_refusals {L : PyLib} (env : Environ) (time_now : Z)
    (created_at : datetime) (query_params : gmap string string) (w : World)
    (d : Database) :
  db w = Some d ->
  let run := telegram_auth_callback env time_now created_at query_params w in
  let verified := verify_telegram_login_payload env time_now query_params in
  (verified = Ok None -> run = (Raise (HTTPException 401), w)) /\
  (verified = Ok (Some ∅) -> run = (Raise (HTTPException 401), w)) /\
  (forall e, verified = Raise e -> run = (Raise e, w)) /\
  (forall data, verified = Ok (Some data) -> data <> ∅ ->
     data !! "id"%string ≫= int_of_str = None ->
     run = (Raise (HTTPException 400), w)) /\
  (forall data telegram_id, verified = Ok (Some data) -> data <> ∅ ->
     data !! "id"%string ≫= int_of_str = Some telegram_id ->
     is_user_banned telegram_id d = Ok true ->
     run = (Raise (HTTPException 403), w)) /\
  (forall data telegram_id, verified = Ok (Some data) -> data <> ∅ ->
     data !! "id"%string ≫= int_of_str = Some telegram_id ->
     get_user_by_telegram telegram_id d = Ok None -> registrations_open d = false ->
     run = (Raise (HTTPException 403), w)) /\
  (forall data telegram_id, verified = Ok (Some data) -> data <> ∅ ->
     data !! "id"%string ≫= int_of_str = Some telegram_id ->
     ~ (INT64_MIN <= telegram_id <= INT64_MAX) ->
     run = (Raise OverflowError, w)).
Proof.
  intros Hd run verified. unfold run.
  rewrite (telegram_auth_callback_enter env time_now created_at query_params w d Hd).
  fold verified. repeat split.
  - by intros ->.
  - intros ->. by rewrite bool_decide_eq_true_2.
  - by intros e ->.
  - intros data -> Hne Hid. rewrite bool_decide_eq_false_2 by done. by rewrite Hid.
  - intros data telegram_id -> Hne Hid Hban.
    apply is_user_banned_inv in Hban as [Hr Hban].
    rewrite bool_decide_eq_false_2 by done. by rewrite Hid, (bind_int_Ok _ Hr), Hban.
  - intros data telegram_id -> Hne Hid Hnew Hclosed.
    apply get_user_by_telegram_inv in Hnew as [Hr Hnew].
    rewrite bool_decide_eq_false_2 by done. rewrite Hid, (bind_int_Ok _ Hr).
    destruct (is_user_banned_sql telegram_id d); [done|].
    by rewrite Hnew, Hclosed, bool_decide_eq_true_2.
  - intros data telegram_id -> Hne Hid Hr.
    rewrite bool_decide_eq_false_2 by done. by rewrite Hid, (bind_int_Raise _ Hr).
Qed.

(** X21. What [verify_telegram_login_payload] does with an assertion it does
    not accept.  Without a bot token, or without a [hash] parameter, the
    result is [None].  With both: a hash holding a character outside ASCII
    makes [hmac.compare_digest] raise [TypeError], which nothing catches; an
    ASCII hash different from the computed one gives [None]; and a matching
    hash without [auth_date] is read as [auth_date] 0 and gives [None] once
    the clock is more than 600 seconds from the epoch. *)
Theorem verify_telegram_login_payload_rejects {L : PyLib} (env : Environ)
    (time_now : Z) (query_params : gmap string string) :
  let computed token :=
    hmac_sha256_hex (sha256 (str_encode_utf8 token))
      (str_encode_utf8 (data_check_string (delete "hash"%string query_params))) in
  (TELEGRAM_BOT_TOKEN env = None \/ TELEGRAM_BOT_TOKEN env = Some EmptyString ->
   verify_telegram_login_payload env time_now query_params = Ok None) /\
  (query_params !! "hash"%string = None \/
   query_params !! "hash"%string = Some EmptyString ->
   verify_telegram_login_payload env time_now query_params = Ok None) /\
  (forall token provided,
     TELEGRAM_BOT_TOKEN env = Some token -> token <> EmptyString ->
     query_params !! "hash"%string = Some provided -> provided <> EmptyString ->
     (is_ascii_str provided = false ->
      verify_telegram_login_payload env time_now query_params = Raise TypeError) /\
     (is_ascii_str provided = true -> is_ascii_str (computed token) = true ->
      provided <> computed token ->
      verify_telegram_login_payload env time_now query_params = Ok None) /\
     (provided = computed token -> is_ascii_str provided = true ->
      query_params !! "auth_date"%string = None ->
      int_of_str "0" = Some 0 -> 600 < Z.abs time_now ->
      verify_telegram_login_payload env time_now query_params = Ok None)).
Proof.
  intros computed. unfold verify_telegram_login_payload. split; [|split].
  - by intros [-> | ->].
  - intros H. destruct (TELEGRAM_BOT_TOKEN env) as [[|c token]|]; [done| |done].
    by destruct H as [-> | ->].
  - intros token provided -> Htoken -> Hprovided.
    destruct token as [|c token]; [done|].
    destruct provided as [|h provided]; [done|].
    fold (computed (String c token)). unfold compare_digest_str.
    split; [|split].
    + intros ->. by rewrite andb_false_r.
    + intros -> -> Hne. cbn [andb mbind result_bind].
      by rewrite bool_decide_eq_false_2 by congruence.
    + intros Heq Hascii Hdate Hzero Hfar. rewrite <- Heq, Hascii.
      cbn [andb mbind result_bind]. rewrite bool_decide_eq_true_2 by done.
      cbn [negb]. rewrite lookup_delete_ne by done. rewrite Hdate.
      change (default "0"%string None) with "0"%string. rewrite Hzero.
      rewrite bool_decide_eq_true_2; [done|]. rewrite Z.sub_0_r. lia.
Qed.

Section LoginLaws.
Context {L : PyLib} {laws : PyLibLaws L}.


Lemma login_without_secret_run (env : Environ) (time_now : Z) (created_at : datetime)
    (query_params data : gmap string string) (w : World) (d : Database)
    (telegram_id : Z) :
  APP_SESSION_SECRET env = None \/ APP_SESSION_SECRET env = Some EmptyString ->
  db w = Some d ->
  verify_telegram_login_payload env time_now query_params = Ok (Some data) ->
  data !! "id"%string ≫= int_of_str = Some telegram_id ->
  is_user_banned telegram_id d = Ok false ->
  get_user_by_telegram telegram_id d = Ok None -> registrations_open d = true ->
  exists w' d',
    telegram_auth_callback env time_now created_at query_params w
    = (Raise (HTTPException 500), w') /\
    db w' = Some d' /\
    users d' = users d ++
      [{| user_id := users_seq d + 1; user_telegram_id := telegram_id;
          user_username := data !! "username"%string;
          user_created_at := created_at |}].
Proof.
  intros Henv Hd Hverify Hid Hban Hnew Hopen.
  apply is_user_banned_inv in Hban as [Hr Hban].
  apply get_user_by_telegram_inv in Hnew as [_ Hnew].
  assert (create_session_token env time_now telegram_id = Raise RuntimeError) as Hcreate.
  { unfold create_session_token.
    destruct (b64url_round_trip
                (str_encode_utf8 (json_dumps (session_payload telegram_id time_now))))
      as (head & _ & -> & _).
    cbn [mbind result_bind]. unfold _get_session_secret.
    by destruct Henv as [-> | ->]. }
  assert (data <> ∅) as Hdata.
  { intros ->. by rewrite lookup_empty in Hid. }
  eexists _, _. split.
  - rewrite (telegram_auth_callback_enter env time_now created_at query_params w d Hd).
    rewrite Hverify, bool_decide_eq_false_2 by done.
    rewrite Hid, (bind_int_Ok _ Hr), Hban, Hopen.
    rewrite andb_false_r. cbv zeta. rewrite Hcreate. reflexivity.
  - unfold with_db. cbn [db]. split; [reflexivity|].
    rewrite upsert_user_run, Hnew. reflexivity.
Qed.

(** X23. With [APP_SESSION_SECRET] unset or empty: [create_session_token]
    raises [RuntimeError], [parse_and_verify_session] returns [None] for every
    token, and [GET /me] answers 401.  A login that passes every check ends in
    500, raised after [upsert_user] has run: a new participant is on record
    and no cookie was set. *)
Theorem without_session_secret (env : Environ) (w : World) (d : Database) :
  APP_SESSION_SECRET env = None \/ APP_SESSION_SECRET env = Some EmptyString ->
  db w = Some d ->
  (forall time_now telegram_id token,
     create_session_token env time_now telegram_id = Raise RuntimeError /\
     parse_and_verify_session env time_now token = None /\
     get_me env time_now (Some token) w = MeHTTP 401) /\
  (forall time_now created_at query_params data telegram_id,
     verify_telegram_login_payload env time_now query_params = Ok (Some data) ->
     data !! "id"%string ≫= int_of_str = Some telegram_id ->
     is_user_banned telegram_id d = Ok false ->
     get_user_by_telegram telegram_id d = Ok None -> registrations_open d = true ->
     exists w' d',
       telegram_auth_callback env time_now created_at query_params w
       = (Raise (HTTPException 500), w') /\
       db w' = Some d' /\
       users d' = users d ++
         [{| user_id := users_seq d + 1; user_telegram_id := telegram_id;
             user_username := data !! "username"%string;
             user_created_at := created_at |}]).
Proof.
  intros Henv Hd. split.
  - intros time_now telegram_id token.
    by apply (session_without_secret_facts env time_now telegram_id token w d).
  - intros time_now created_at query_params data telegram_id.
    by apply login_without_secret_run.
Qed.
End LoginLaws.

(** ** Owner commands *)

Section OwnerProperties.
Context {L : PyLib}.

Lemma require_owner_verdict (env : OwnerEnviron) (c : Command) :
  (require_owner env c).1 = is_owner env c.
Proof.
  unfold require_owner, is_owner.
  destruct (get_owner_telegram_id env) as [owner_id|]; [|done].
  case_bool_decide; [done|].
  destruct (effective_user (command_update c)); [|done].
  by case_bool_decide.
Qed.

Lemma require_owner_answers (env : OwnerEnviron) (c : Command) (m : Message) :
  message (command_update c) = Some m ->
  (require_owner env c).2
  = if is_owner env c then []
    else match get_owner_telegram_id env with
         | None => [OwnerNotConfiguredText]
         | Some owner_id =>
             if bool_decide (owner_id = 0) then [OwnerNotConfiguredText]
             else [OwnerOnlyText]
         end.
Proof.
  intros Hm. unfold require_owner, is_owner. rewrite Hm.
  destruct (get_owner_telegram_id env) as [owner_id|]; [|done].
  case_bool_decide; [done|].
  destruct (effective_user (command_update c)); [|done].
  by case_bool_decide.
Qed.

Lemma require_owner_answer_kinds (env : OwnerEnviron) (c : Command) (body : owner_text) :
  body ∈ (require_owner env c).2 ->
  body = OwnerNotConfiguredText \/ body = OwnerOnlyText.
Proof.
  unfold require_owner.
  assert (forall t, body ∈ match message (command_update c) with
                           | Some _ => [t]
                           | None => []
                           end -> body = t) as Hone.
  { intros t. destruct (message (command_update c)); intros Hin.
    - by apply list_elem_of_singleton in Hin.
    - by apply elem_of_nil in Hin. }
  destruct (get_owner_telegram_id env) as [o|]; [|by left; apply Hone].
  case_bool_decide; [by left; apply Hone|].
  destruct (effective_user (command_update c)); [|by right; apply Hone].
  case_bool_decide; [|by right; apply Hone].
  intros Hin. by apply elem_of_nil in Hin.
Qed.

Lemma require_owner_facts (env : OwnerEnviron) (c : Command) :
  (require_owner env c).1 = is_owner env c /\
  (is_owner env c = true <->
   exists owner_id,
     get_owner_telegram_id env = Some owner_id /\ owner_id <> 0 /\
     effective_user (command_update c) <> None /\
     effective_user_id c = owner_id) /\
  ((require_owner env c).2 = [] <->
   is_owner env c = true \/ message (command_update c) = None) /\
  (forall body, body ∈ (require_owner env c).2 ->
                body = OwnerNotConfiguredText \/ body = OwnerOnlyText).
Proof.
  split; [apply require_owner_verdict|]. split; [|split].
  - unfold is_owner. destruct (get_owner_telegram_id env) as [owner_id|].
    + case_bool_decide as Hz.
      * split; [done|]. intros (o & [= <-] & Hne & _). done.
      * destruct (effective_user (command_update c)) as [user|].
        -- rewrite bool_decide_eq_true. split.
           ++ intros Heq. exists owner_id. by repeat split.
           ++ by intros (o & [= <-] & _ & _ & Heq).
        -- split; [done|]. by intros (o & _ & _ & Hu & _).
    + split; [done|]. by intros (o & Ho & _).
  - destruct (message (command_update c)) as [m|] eqn:Hm.
    + rewrite (require_owner_answers env c m Hm).
      destruct (is_owner env c).
      * split; [by left | done].
      * destruct (get_owner_telegram_id env) as [o|]; [case_bool_decide|];
          (split; [done | by intros [?|?]]).
    + split; [by right|]. intros _. unfold require_owner. rewrite Hm.
      destruct (get_owner_telegram_id env) as [o|]; [|done].
      case_bool_decide; [done|].
      destruct (effective_user (command_update c)); [|done].
      by case_bool_decide.
  - apply require_owner_answer_kinds.
Qed.

Lemma owner_command_run (env : OwnerEnviron) (c : Command)
    (body : Eff (list owner_text)) (w : World) (d : Database) (m : Message) :
  db w = Some d -> message (command_update c) = Some m ->
  owner_command env c body w
  = if is_owner env c then body w
    else (Ok (require_owner env c).2, w).
Proof.
  intros Hd Hm. unfold owner_command.
  unfold mbind at 1. unfold Eff_bind at 1. unfold get_world. rewrite Hd, Hm.
  pose proof (require_owner_verdict env c) as Hv.
  pose proof (require_owner_answers env c m Hm) as Ha.
  destruct (require_owner env c) as [allowed answers]. cbn [fst snd] in *. subst allowed.
  destruct (is_owner env c); cbn [negb]; [|done].
  subst answers. unfold mbind, Eff_bind, mret, Eff_ret.
  by destruct (body w) as [[more|e] w'].
Qed.

Lemma strangers_refused (env : OwnerEnviron) (now : datetime)
    (r1 r2 : nat) (c : Command) (w : World) :
  is_owner env c = false ->
  let refused (run : Eff (list owner_text)) :=
    exists answers,
      run w = (Ok answers, w) /\
      forall body, body ∈ answers ->
                   body = OwnerNotConfiguredText \/ body = OwnerOnlyText in
  refused (handle_registrations env c) /\
  refused (handle_open_registrations env c) /\
  refused (handle_close_registrations env c) /\
  refused (handle_ban env now c) /\
  refused (handle_unban env c) /\
  refused (handle_delete_user env c) /\
  refused (handle_users env c) /\
  refused (handle_prompts env r1 r2 now c).
Proof.
  intros Hno refused.
  assert (forall body, refused (owner_command env c body)) as Hall.
  { intros body. unfold refused.
    destruct (db w) as [d|] eqn:Hd; [destruct (message (command_update c)) as [m|] eqn:Hm|].
    - rewrite (owner_command_run env c body w d m Hd Hm), Hno.
      eexists. split; [done|]. apply require_owner_answer_kinds.
    - exists []. split; [|intros b Hb; by apply elem_of_nil in Hb].
      unfold owner_command, mbind, Eff_bind, get_world. by rewrite Hd, Hm.
    - exists []. split; [|intros b Hb; by apply elem_of_nil in Hb].
      unfold owner_command, mbind, Eff_bind, get_world. by rewrite Hd. }
  repeat split; apply Hall.
Qed.
(** X24. Who the owner is, and what the owner commands do for anyone else.
    [require_owner] returns what [is_owner] returns, and that is true exactly
    when an owner id is configured, parses as an integer other than 0, and is
    the id of the user of the update.  For everyone else each of the eight
    commands returns normally with the process state untouched, having
    answered nothing but the not-configured or the owner-only notice. *)
Theorem owner_gate (env : OwnerEnviron) (now : datetime) (r1 r2 : nat) (c : Command)
    (w : World) :
  (require_owner env c).1 = is_owner env c /\
  (is_owner env c = true <->
   exists owner_id,
     get_owner_telegram_id env = Some owner_id /\ owner_id <> 0 /\
     effective_user (command_update c) <> None /\
     effective_user_id c = owner_id) /\
  (is_owner env c = false ->
   let refused (run : Eff (list owner_text)) :=
     exists answers,
       run w = (Ok answers, w) /\
       forall body, body ∈ answers ->
                    body = OwnerNotConfiguredText \/ body = OwnerOnlyText in
   refused (handle_registrations env c) /\
   refused (handle_open_registrations env c) /\
   refused (handle_close_registrations env c) /\
   refused (handle_ban env now c) /\
   refused (handle_unban env c) /\
   refused (handle_delete_user env c) /\
   refused (handle_users env c) /\
   refused (handle_prompts env r1 r2 now c)).
Proof.
  destruct (require_owner_facts env c) as (Hverdict & Hwho & _).
  split; [exact Hverdict|]. split; [exact Hwho|].
  apply strangers_refused.
Qed.
End OwnerProperties.

Section OwnerActs.
Context {L : PyLib}.

(** X25. The owner closes and opens registrations: both commands write the
    flag and confirm, and [/registrations] reports the flag without writing.
    The flag then decides [/start] from a chat that is not banned and has no
    record: after the closing command it is answered with the closed text and
    no record is made, after the opening command it is registered. *)
Theorem owner_toggles_registrations (env : OwnerEnviron) (c : Command) (w : World)
    (d : Database) (m : Message) :
  is_owner env c = true -> db w = Some d -> message (command_update c) = Some m ->
  handle_close_registrations env c w
    = (Ok [RegistrationsNowClosedText], with_db (set_registrations_open false d) w) /\
  handle_open_registrations env c w
    = (Ok [RegistrationsNowOpenText], with_db (set_registrations_open true d) w) /\
  handle_registrations env c w = (Ok [RegistrationsAreText (registrations_open d)], w) /\
  (forall created_at update chat_id m',
     effective_chat update = Some chat_id -> message update = Some m' ->
     is_user_banned chat_id d = Ok false -> get_user_by_telegram chat_id d = Ok None ->
     let closed := (handle_close_registrations env c w).2 in
     let opened := (handle_open_registrations env c w).2 in
     (exists w' d', handle_start created_at update closed = (Ok tt, w') /\
        trace w' = trace w ++ [Sent (message_chat m') RegistrationsClosedText] /\
        db w' = Some d' /\ get_user_by_telegram chat_id d' = Ok None) /\
     (exists w' d' u, handle_start created_at update opened = (Ok tt, w') /\
        trace w' = trace w ++ [Sent (message_chat m') RegistrationSuccessfulText] /\
        db w' = Some d' /\ get_user_by_telegram chat_id d' = Ok (Some u))).
Proof.
  intros Howner Hd Hm.
  assert (handle_close_registrations env c w
          = (Ok [RegistrationsNowClosedText], with_db (set_registrations_open false d) w))
    as Hclose.
  { unfold handle_close_registrations.
    rewrite (owner_command_run env c _ w d m Hd Hm), Howner.
    by erewrite bind_db_exec by done. }
  assert (handle_open_registrations env c w
          = (Ok [RegistrationsNowOpenText], with_db (set_registrations_open true d) w))
    as Hopen.
  { unfold handle_open_registrations.
    rewrite (owner_command_run env c _ w d m Hd Hm), Howner.
    by erewrite bind_db_exec by done. }
  split; [done|]. split; [done|]. split.
  { unfold handle_registrations.
    rewrite (owner_command_run env c _ w d m Hd Hm), Howner.
    by erewrite bind_db_query by done. }
  intros created_at update chat_id m' Hchat Hm' Hban Hnew closed opened.
  apply is_user_banned_inv in Hban as [Hr Hban].
  apply get_user_by_telegram_inv in Hnew as [_ Hnew].
  unfold closed, opened. rewrite Hclose, Hopen. cbn [snd]. split.
  - destruct (handle_start_run created_at update
                (with_db (set_registrations_open false d) w)
                (set_registrations_open false d) chat_id m' eq_refl Hchat Hm' Hr)
      as (w' & d' & Hrun & Hd' & _ & Htr & Hreg & _).
    exists w', d'. split; [done|]. split; [|split; [done|]].
    + rewrite Htr. unfold is_user_banned_sql in *.
      cbn [set_registrations_open banned_users].
      rewrite Hban.
      change (get_user_by_telegram_sql chat_id (set_registrations_open false d))
        with (get_user_by_telegram_sql chat_id d).
      by rewrite Hnew.
    + rewrite (get_user_by_telegram_bound _ _ Hr). f_equal.
      destruct (get_user_by_telegram_sql chat_id d') eqn:Hu; [|done].
      exfalso. destruct Hreg as [Hreg _]. destruct Hreg as [H|[_ H]]; [done| |done].
      apply H. exact Hnew.
  - destruct (handle_start_run created_at update
                (with_db (set_registrations_open true d) w)
                (set_registrations_open true d) chat_id m' eq_refl Hchat Hm' Hr)
      as (w' & d' & Hrun & Hd' & _ & Htr & Hreg & _).
    assert (get_user_by_telegram_sql chat_id d' <> None) as Hsome.
    { apply Hreg. right. split; [|done]. exact Hban. }
    destruct (get_user_by_telegram_sql chat_id d') as [u|] eqn:Hu; [|done].
    exists w', d', u. split; [done|]. split; [|split; [done|]].
    + rewrite Htr. unfold is_user_banned_sql in *.
      cbn [set_registrations_open banned_users].
      rewrite Hban.
      change (get_user_by_telegram_sql chat_id (set_registrations_open true d))
        with (get_user_by_telegram_sql chat_id d).
      by rewrite Hnew.
    + by rewrite (get_user_by_telegram_bound _ _ Hr), Hu.
Qed.
End OwnerActs.

Section OwnerBans.
Context {L : PyLib}.

Lemma with_telegram_id_run (usage : string) (c : Command)
    (body : Z -> Eff (list owner_text)) (arg : string) (rest : list string)
    (telegram_id : Z) :
  context_args c = arg :: rest -> int_of_str arg = Some telegram_id ->
  with_telegram_id usage c body = body telegram_id.
Proof. intros Hargs Hint. unfold with_telegram_id. by rewrite Hargs, Hint. Qed.

Lemma handle_start_banned_run (created_at : datetime) (update : Update) (w : World)
    (d : Database) (chat_id : Z) (m : Message) :
  db w = Some d -> effective_chat update = Some chat_id -> message update = Some m ->
  is_user_banned chat_id d = Ok true ->
  handle_start created_at update w
  = (Ok tt, with_trace (trace w ++ [Sent (message_chat m) BannedText]) w).
Proof.
  intros Hd Hchat Hm Hban. unfold handle_start.
  unfold mbind at 1. unfold Eff_bind at 1. unfold get_world. rewrite Hd, Hchat, Hm.
  erewrite bind_db_try_query by done. rewrite Hban. by apply reply_text_run.
Qed.

Lemma db_try_exec_run (f : Database -> result Database) (w : World) (d : Database) :
  db w = Some d ->
  db_try_exec f w
  = match f d with Ok d' => (Ok tt, with_db d' w) | Raise e => (Raise e, w) end.
Proof.
  intros Hd. unfold db_try_exec. rewrite (db_try_call_run _ w d Hd).
  by destruct (f d).
Qed.

Lemma bind_db_try_exec {B} (g : Database -> result Database) (f : unit -> Eff B)
    (w : World) (d : Database) :
  db w = Some d ->
  (db_try_exec g ≫= f) w
  = match g d with Ok d' => f tt (with_db d' w) | Raise e => (Raise e, w) end.
Proof.
  intros Hd. unfold mbind at 1. unfold Eff_bind at 1.
  rewrite (db_try_exec_run _ _ _ Hd). by destruct (g d).
Qed.

(** [/ban] and [/unban] once the owner's argument is read. *)
Lemma handle_ban_run (env : OwnerEnviron) (now : datetime) (c : Command)
    (w : World) (d : Database) (m : Message) (arg : string) (rest : list string)
    (telegram_id : Z) :
  is_owner env c = true -> db w = Some d -> message (command_update c) = Some m ->
  context_args c = arg :: rest -> int_of_str arg = Some telegram_id ->
  let text := strip (str_join " " rest) in
  let reason := if bool_decide (text = EmptyString) then None else Some text in
  handle_ban env now c w
  = match ban_user now telegram_id reason d with
    | Ok d1 => (Ok [BannedIdText telegram_id reason], with_db d1 w)
    | Raise e => (Raise e, w)
    end.
Proof.
  intros Howner Hd Hm Hargs Hint text reason.
  unfold handle_ban. rewrite (owner_command_run env c _ w d m Hd Hm), Howner.
  rewrite (with_telegram_id_run _ c _ arg rest telegram_id Hargs Hint).
  cbv zeta. rewrite Hargs. cbn [tail]. fold text. fold reason.
  erewrite bind_db_try_exec by done.
  by destruct (ban_user now telegram_id reason d).
Qed.

Lemma handle_unban_run (env : OwnerEnviron) (c : Command)
    (w : World) (d : Database) (m : Message) (arg : string) (rest : list string)
    (telegram_id : Z) :
  is_owner env c = true -> db w = Some d -> message (command_update c) = Some m ->
  context_args c = arg :: rest -> int_of_str arg = Some telegram_id ->
  handle_unban env c w
  = match unban_user telegram_id d with
    | Ok d1 => (Ok [UnbannedIdText telegram_id], with_db d1 w)
    | Raise e => (Raise e, w)
    end.
Proof.
  intros Howner Hd Hm Hargs Hint.
  unfold handle_unban. rewrite (owner_command_run env c _ w d m Hd Hm), Howner.
  rewrite (with_telegram_id_run _ c _ arg rest telegram_id Hargs Hint).
  erewrite bind_db_try_exec by done.
  by destruct (unban_user telegram_id d).
Qed.

Lemma handle_delete_user_run (env : OwnerEnviron) (c : Command)
    (w : World) (d : Database) (m : Message) (arg : string) (rest : list string)
    (telegram_id : Z) :
  is_owner env c = true -> db w = Some d -> message (command_update c) = Some m ->
  context_args c = arg :: rest -> int_of_str arg = Some telegram_id ->
  handle_delete_user env c w
  = match delete_user telegram_id d with
    | Ok (deleted, d') =>
        (Ok [if deleted : bool then DeletedUserText telegram_id else UserNotFoundText],
         with_db d' w)
    | Raise e => (Raise e, w)
    end.
Proof.
  intros Howner Hd Hm Hargs Hint.
  unfold handle_delete_user. rewrite (owner_command_run env c _ w d m Hd Hm), Howner.
  rewrite (with_telegram_id_run _ c _ arg rest telegram_id Hargs Hint).
  erewrite bind_db_try_call by done.
  by destruct (delete_user telegram_id d) as [[[] d']|e].
Qed.

(** X26. A ban by the owner shuts the chat out.  [/ban <id> ...] by the owner,
    for an id that binds, writes the ban with the reason taken from the
    remaining words and confirms it, leaving users and photos as they are;
    from then on a photo and [/start] from that chat are answered with the ban
    notice and change nothing, until [/unban <id>] by the owner lifts the ban.
    For an id outside 64 bits [ban_user] raises [OverflowError]: [/ban] and
    [/unban] end with it, having written and answered nothing. *)
Theorem owner_ban_is_enforced (env : OwnerEnviron) (now : datetime) (c : Command)
    (w : World) (d : Database) (m : Message) (arg : string) (rest : list string)
    (telegram_id : Z) :
  is_owner env c = true -> db w = Some d -> message (command_update c) = Some m ->
  context_args c = arg :: rest -> int_of_str arg = Some telegram_id ->
  let text := strip (str_join " " rest) in
  let reason := if bool_decide (text = EmptyString) then None else Some text in
  (INT64_MIN <= telegram_id <= INT64_MAX ->
   exists w1 d1,
     handle_ban env now c w = (Ok [BannedIdText telegram_id reason], w1) /\
     w1 = with_db d1 w /\ ban_user now telegram_id reason d = Ok d1 /\
     is_user_banned telegram_id d1 = Ok true /\
     users d1 = users d /\ photos d1 = photos d /\
     (forall i update m' objects,
        storage w = Some objects ->
        effective_chat update = Some telegram_id -> message update = Some m' ->
        handle_photo i update w1
        = (Ok tt, with_trace (trace w1 ++ [Sent (message_chat m') BannedText]) w1)) /\
     (forall created_at update m',
        effective_chat update = Some telegram_id -> message update = Some m' ->
        handle_start created_at update w1
        = (Ok tt, with_trace (trace w1 ++ [Sent (message_chat m') BannedText]) w1)) /\
     (exists w2 d2,
        handle_unban env c w1 = (Ok [UnbannedIdText telegram_id], w2) /\
        db w2 = Some d2 /\ is_user_banned telegram_id d2 = Ok false)) /\
  (~ (INT64_MIN <= telegram_id <= INT64_MAX) ->
   ban_user now telegram_id reason d = Raise OverflowError /\
   handle_ban env now c w = (Raise OverflowError, w) /\
   handle_unban env c w = (Raise OverflowError, w) /\
   is_user_banned telegram_id d = Raise OverflowError).
Proof.
  intros Howner Hd Hm Hargs Hint text reason.
  pose proof (handle_ban_run env now c w d m arg rest telegram_id
                Howner Hd Hm Hargs Hint) as Hban_run.
  cbv zeta in Hban_run. fold text in Hban_run. fold reason in Hban_run.
  split.
  - intros Hr.
    destruct (ban_unban_facts now telegram_id reason d) as (Hbanned & _ & _ & Hus & Hph).
    assert (ban_user now telegram_id reason d
            = Ok (ban_user_sql now telegram_id reason d)) as Hban.
    { unfold ban_user. by rewrite (bind_int_Ok _ Hr). }
    set (d1 := ban_user_sql now telegram_id reason d) in *.
    assert (is_user_banned telegram_id d1 = Ok true) as Hbanned1.
    { by rewrite (is_user_banned_bound _ _ Hr), Hbanned. }
    exists (with_db d1 w), d1.
    split; [by rewrite Hban_run, Hban|].
    do 5 (split; [done|]). split; [|split].
    + intros i update m' objects Hst Hchat Hm'.
      rewrite (handle_photo_enter i update (with_db d1 w) d1 objects
                 telegram_id eq_refl Hst Hchat Hr).
      rewrite Hbanned. by apply reply_text_run.
    + intros created_at update m' Hchat Hm'.
      by apply (handle_start_banned_run created_at update _ d1 telegram_id m').
    + eexists _, _. split.
      * rewrite (handle_unban_run env c (with_db d1 w) d1 m arg rest telegram_id
                   Howner eq_refl Hm Hargs Hint).
        unfold unban_user. rewrite (bind_int_Ok _ Hr). reflexivity.
      * unfold with_db. cbn [db]. split; [reflexivity|].
        rewrite (is_user_banned_bound _ _ Hr). f_equal.
        apply (ban_unban_facts now telegram_id None d1).
  - intros Hr.
    assert (ban_user now telegram_id reason d = Raise OverflowError) as Hban.
    { unfold ban_user. by rewrite (bind_int_Raise _ Hr). }
    split; [done|]. split; [by rewrite Hban_run, Hban|]. split.
    + rewrite (handle_unban_run env c w d m arg rest telegram_id
                 Howner Hd Hm Hargs Hint).
      unfold unban_user. by rewrite (bind_int_Raise _ Hr).
    + by apply is_user_banned_raises.
Qed.

(** X27. [/delete_user <id>] by the owner, for an id that binds, answers that
    the user was deleted when the id had a record and that it was not found
    when it had none.  Afterwards the id has no record and the deleted
    participant's journal is empty; the object store is not touched, so the
    objects of the photos stay; without a record the store is as before.  For
    an id outside 64 bits the lookup raises [OverflowError]: the command ends
    with it, having written and answered nothing. *)
Theorem owner_deletes_user (env : OwnerEnviron) (c : Command) (w : World)
    (d : Database) (m : Message) (arg : string) (rest : list string)
    (telegram_id : Z) :
  is_owner env c = true -> db w = Some d -> message (command_update c) = Some m ->
  context_args c = arg :: rest -> int_of_str arg = Some telegram_id ->
  users_wf d ->
  match get_user_by_telegram telegram_id d with
  | Ok existing =>
      INT64_MIN <= telegram_id <= INT64_MAX /\
      exists w' d',
        handle_delete_user env c w
        = (Ok [if bool_decide (existing <> None)
               then DeletedUserText telegram_id else UserNotFoundText], w') /\
        delete_user telegram_id d = Ok (bool_decide (existing <> None), d') /\
        db w' = Some d' /\
        storage w' = storage w /\ trace w' = trace w /\
        get_user_by_telegram telegram_id d' = Ok None /\
        (forall u, existing = Some u -> list_photos_for_user (user_id u) d' = []) /\
        (existing = None -> d' = d)
  | Raise e =>
      e = OverflowError /\ ~ (INT64_MIN <= telegram_id <= INT64_MAX) /\
      delete_user telegram_id d = Raise OverflowError /\
      handle_delete_user env c w = (Raise OverflowError, w)
  end.
Proof.
  intros Howner Hd Hm Hargs Hint Hwf.
  rewrite (handle_delete_user_run env c w d m arg rest telegram_id
             Howner Hd Hm Hargs Hint).
  rewrite delete_user_run.
  destruct (decide (INT64_MIN <= telegram_id <= INT64_MAX)) as [Hr|Hr];
    [|by rewrite (get_user_by_telegram_raises _ _ Hr)].
  rewrite (get_user_by_telegram_bound _ _ Hr). split; [done|].
  destruct (get_user_by_telegram_sql telegram_id d) as [u|] eqn:Hu.
  - destruct (delete_user_facts telegram_id d u Hwf Hu) as (Hgone & _ & Hnone & _).
    rewrite bool_decide_eq_true_2 by done.
    eexists _, _. split; [reflexivity|]. split; [reflexivity|].
    unfold with_db. cbn [db storage trace]. do 3 (split; [done|]).
    split; [by rewrite (get_user_by_telegram_bound _ _ Hr), Hgone|].
    split; [|done]. by intros u' [= <-].
  - rewrite bool_decide_eq_false_2 by (by intros H; apply H).
    eexists _, _. split; [reflexivity|]. split; [reflexivity|].
    unfold with_db. cbn [db storage trace]. do 3 (split; [done|]).
    split; [by rewrite (get_user_by_telegram_bound _ _ Hr), Hu|].
    split; [done | done].
Qed.
End OwnerBans.

(** ** The [/users] listing *)

Lemma chunk_lines_spec {A} (lines chunk : list A) :
  (length chunk < 40)%nat ->
  concat (chunk_lines lines chunk) = chunk ++ lines /\
  Forall (fun ch => (0 < length ch <= 40)%nat) (chunk_lines lines chunk) /\
  (forall i ch, chunk_lines lines chunk !! i = Some ch ->
                (S i < length (chunk_lines lines chunk))%nat -> length ch = 40%nat).
Proof.
  revert chunk. induction lines as [|line rest IH]; intros chunk Hlen.
  - cbn [chunk_lines]. destruct chunk as [|a chunk].
    + split; [done|]. split; [constructor|]. intros i ch Hi. by destruct i.
    + split; [by rewrite app_nil_r; cbn; rewrite app_nil_r|].
      split; [constructor; [simpl in *; lia | constructor]|].
      intros i ch Hi Hlast. simpl in Hlast. lia.
  - cbn [chunk_lines]. case_bool_decide as Hfull.
    + rewrite length_app in Hfull. simpl in Hfull.
      destruct (IH [] ltac:(simpl; lia)) as (Hcat & Hall & Hmid).
      split; [|split].
      * cbn [concat]. rewrite Hcat. by rewrite <- (assoc_L (++)).
      * constructor; [|done]. rewrite length_app. simpl. lia.
      * intros [|i] ch Hi Hlast.
        -- injection Hi as <-. rewrite length_app. simpl. lia.
        -- apply (Hmid i); [done|]. simpl in Hlast. lia.
    + rewrite length_app in Hfull. simpl in Hfull.
      destruct (IH (chunk ++ [line])) as (Hcat & Hall & Hmid).
      { rewrite length_app. simpl. lia. }
      split; [|done]. rewrite Hcat. by rewrite <- (assoc_L (++)).
Qed.

Section OwnerReads.
Context {L : PyLib}.

(** X28. [/users] by the owner writes nothing.  Without participants it
    answers that there are none.  Otherwise the lines of its messages, put end
    to end, are a header with the number of participants followed by one line
    for each participant in row-id order, with the participant's photo count
    and ban mark; no message is empty or longer than 40 lines, and every
    message but the last has exactly 40. *)
Theorem handle_users_lists_everyone (env : OwnerEnviron) (c : Command) (w : World)
    (d : Database) (m : Message) :
  is_owner env c = true -> db w = Some d -> message (command_update c) = Some m ->
  let entry (u : user_row) :=
    UsersEntry (user_telegram_id u) (shown_username (user_username u))
      (count_photos_for_user (user_id u) d)
      (is_user_banned_sql (user_telegram_id u) d) in
  (users d = [] -> handle_users env c w = (Ok [NoRegisteredUsersText], w)) /\
  (users d <> [] ->
   exists chunks,
     handle_users env c w = (Ok (UsersText <$> chunks), w) /\
     concat chunks = UsersHeader (length (users d)) :: (entry <$> get_users d) /\
     Forall (fun ch => (0 < length ch <= 40)%nat) chunks /\
     (forall i ch, chunks !! i = Some ch -> (S i < length chunks)%nat ->
                   length ch = 40%nat)).
Proof.
  intros Howner Hd Hm entry.
  assert (get_users_with_photo_counts d
          = (fun u => (u, count_photos_for_user (user_id u) d)) <$> get_users d) as Hjoin
    by reflexivity.
  split.
  - intros Hnil. unfold handle_users.
    rewrite (owner_command_run env c _ w d m Hd Hm), Howner.
    erewrite bind_db_query by done. rewrite Hjoin.
    apply get_users_nil in Hnil. by rewrite Hnil.
  - intros Hne.
    destruct (get_users d) as [|u us] eqn:Hus; [by apply get_users_nil in Hus|].
    assert (length (users d) = length (u :: us)) as Hcount.
    { rewrite <- Hus. unfold get_users, order_by.
      by rewrite merge_sort_Permutation. }
    set (lines := UsersHeader (length (users d)) :: (entry <$> u :: us)).
    destruct (chunk_lines_spec lines [] ltac:(simpl; lia)) as (Hcat & Hall & Hmid).
    exists (chunk_lines lines []). split; [|by repeat split].
    unfold handle_users.
    rewrite (owner_command_run env c _ w d m Hd Hm), Howner.
    erewrite bind_db_query by done. rewrite Hjoin.
    set (joined := (fun u0 => (u0, count_photos_for_user (user_id u0) d)) <$> u :: us).
    assert (UsersHeader (length joined)
            :: ((fun user : user_row * Z =>
                   UsersEntry (user_telegram_id user.1)
                     (shown_username (user_username user.1)) user.2
                     (bool_decide
                        (user_telegram_id user.1
                           ∈ (list_to_set (ban_telegram_id <$> get_banned_users d)
                              : gset Z)))) <$> joined)
            = lines) as Hlines.
    { unfold lines, joined. rewrite Hcount, length_fmap. f_equal.
      rewrite <- list_fmap_compose.
      apply list_fmap_ext. intros _ x _. cbn. unfold entry. f_equal.
      apply bool_decide_ext. rewrite banned_ids_spec.
      unfold is_user_banned_sql. by rewrite bool_decide_eq_true. }
    rewrite <- Hlines. unfold joined. rewrite fmap_cons.
    erewrite bind_db_query by done. reflexivity.
Qed.

Lemma handle_prompts_ahead (env : OwnerEnviron) (r1 r2 : nat) (now : datetime)
    (c : Command) (w : World) (d : Database) (m : Message) (t : datetime) :
  is_owner env c = true -> db w = Some d -> message (command_update c) = Some m ->
  get_next_prompt d = Some t -> now < t ->
  handle_prompts env r1 r2 now c w
  = (Ok [PromptsText (last_prompt d) (Some t) (t - now)], w).
Proof.
  intros Howner Hd Hm Hnext Hlt. unfold handle_prompts.
  rewrite (owner_command_run env c _ w d m Hd Hm), Howner.
  erewrite bind_db_query by done. erewrite bind_db_query by done.
  unfold get_last_prompt. rewrite Hnext. cbv zeta.
  rewrite bool_decide_eq_false_2 by lia. reflexivity.
Qed.

Lemma handle_prompts_stale (env : OwnerEnviron) (r1 r2 : nat) (now : datetime)
    (c : Command) (w : World) (d : Database) (m : Message) :
  is_owner env c = true -> db w = Some d -> message (command_update c) = Some m ->
  match next_prompt d with Some t => t <= now | None => True end ->
  handle_prompts env r1 r2 now c w
  = match choose_prompt_time r1 r2 now (last_prompt d)
            (list_to_set (get_recent_prompt_minutes 1439 d)) with
    | Ok target =>
        (Ok [PromptsText (last_prompt d) (Some target) (target - now)],
         with_db (set_next_prompt (Some target) d) w)
    | Raise e => (Raise e, w)
    end.
Proof.
  intros Howner Hd Hm Hstale. unfold handle_prompts.
  rewrite (owner_command_run env c _ w d m Hd Hm), Howner.
  erewrite bind_db_query by done. erewrite bind_db_query by done.
  unfold get_next_prompt, get_last_prompt. cbv zeta.
  assert (forall stale : bool, stale = true ->
            ((if stale
              then
                recent ← db_query (get_recent_prompt_minutes
                                     (PROMPT_MINUTE_HISTORY_DAYS - 1));
                target ← lift_result
                           (choose_prompt_time r1 r2 now (last_prompt d)
                              (list_to_set recent));
                db_exec (set_next_prompt (Some target));;
                mret (Some target)
              else mret (next_prompt d))
             ≫= fun next_prompt : option Z =>
                  mret [PromptsText (last_prompt d) next_prompt
                          match next_prompt with
                          | Some t => t - now
                          | None => 0
                          end]) w
            = match choose_prompt_time r1 r2 now (last_prompt d)
                      (list_to_set (get_recent_prompt_minutes 1439 d)) with
              | Ok target =>
                  (Ok [PromptsText (last_prompt d) (Some target) (target - now)],
                   with_db (set_next_prompt (Some target) d) w)
              | Raise e => (Raise e, w)
              end) as Hrun.
  { intros stale ->.
    rewrite bind_bind. erewrite bind_db_query by done.
    change (PROMPT_MINUTE_HISTORY_DAYS - 1) with 1439.
    destruct (choose_prompt_time _ _ _ _ _) as [target|e]; [|done].
    unfold lift_result. rewrite bind_bind.
    unfold mbind at 1. unfold Eff_bind at 1. rewrite bind_bind.
    erewrite bind_db_exec by done. reflexivity. }
  apply Hrun. destruct (next_prompt d); [by apply bool_decide_eq_true_2 | done].
Qed.

(** X29. [/prompts] by the owner reports the last prompt, the next target and
    the time left to it.  A persisted target that is still ahead is reported
    as it is and the store is not written.  A target that is missing or due is
    replaced the way the scheduler replaces it: the picker is asked with the
    persisted last prompt and the minutes of
    [get_recent_prompt_minutes(1439)]; the target it returns is persisted (a
    read of [next_prompt] returns it, a later [/prompts] before it reports it
    unchanged) and the time left that is reported is positive.  Before the
    last day of the calendar the picker returns; when it raises, which is
    [OverflowError] on that day, the command ends with it, having written and
    answered nothing. *)
Theorem handle_prompts_refreshes (env : OwnerEnviron) (r1 r2 : nat) (now : datetime)
    (c : Command) (w : World) (d : Database) (m : Message) :
  is_owner env c = true -> db w = Some d -> message (command_update c) = Some m ->
  (forall t, next_prompt d = Some t -> now < t ->
     handle_prompts env r1 r2 now c w
     = (Ok [PromptsText (last_prompt d) (Some t) (t - now)], w)) /\
  (match next_prompt d with Some t => t <= now | None => True end ->
   match choose_prompt_time r1 r2 now (last_prompt d)
           (list_to_set (get_recent_prompt_minutes 1439 d)) with
   | Ok target =>
       exists w',
         handle_prompts env r1 r2 now c w
         = (Ok [PromptsText (last_prompt d) (Some target) (target - now)], w') /\
         w' = with_db (set_next_prompt (Some target) d) w /\
         (db w' ≫= get_next_prompt) = Some target /\
         (db w' ≫= get_last_prompt) = last_prompt d /\
         0 < target - now /\
         (forall r1' r2' now', now' < target ->
            handle_prompts env r1' r2' now' c w'
            = (Ok [PromptsText (last_prompt d) (Some target) (target - now')], w'))
   | Raise e =>
       e = OverflowError /\ DATE_MAX <= dt_date now /\
       handle_prompts env r1 r2 now c w = (Raise OverflowError, w)
   end) /\
  (dt_date now < DATE_MAX ->
   exists target,
     choose_prompt_time r1 r2 now (last_prompt d)
       (list_to_set (get_recent_prompt_minutes 1439 d)) = Ok target).
Proof.
  intros Howner Hd Hm. split; [|split].
  - intros t Hnext Hlt. by eapply handle_prompts_ahead.
  - intros Hstale.
    rewrite (handle_prompts_stale env r1 r2 now c w d m Howner Hd Hm Hstale).
    destruct (choose_prompt_time _ _ _ _ _) as [target|e] eqn:Hc.
    + pose proof (choose_prompt_time_after _ _ _ _ _ _ Hc) as Hlt.
      eexists. split; [reflexivity|]. do 3 (split; [done|]). split; [lia|].
      intros r1' r2' now' Hnow'.
      by apply (handle_prompts_ahead env r1' r2' now' c _
                  (set_next_prompt (Some target) d) m target).
    + destruct (choose_prompt_time_raises _ _ _ _ _ _ Hc) as [-> Hday]. done.
  - intros Hday.
    destruct (choose_prompt_time_returns r1 r2 now (last_prompt d)
                (list_to_set (get_recent_prompt_minutes 1439 d)) Hday)
      as (target & Hc & _).
    by exists target.
Qed.
End OwnerReads.

(** ** Durations in words *)

Lemma format_duration_total (seconds : SpecFloat.spec_float) (total : Z) :
  int_of_float seconds = Ok total ->
  let total' := Z.max total 0 in
  format_duration seconds
  = Ok (str_join " "
          ((if bool_decide (total' / 86400 <> 0)
            then [amount (total' / 86400) "d"] else []) ++
           (if bool_decide (total' mod 86400 / 3600 <> 0)
            then [amount (total' mod 86400 / 3600) "h"] else []) ++
           (if bool_decide (total' mod 86400 mod 3600 / 60 <> 0)
            then [amount (total' mod 86400 mod 3600 / 60) "m"] else []) ++
           [amount (total' mod 86400 mod 3600 mod 60) "s"])).
Proof.
  intros Hint total'. unfold format_duration. rewrite Hint. cbn [mbind result_bind].
  assert ((if bool_decide (total < 0) then 0 else total) = total') as ->.
  { unfold total'. case_bool_decide; lia. }
  unfold divmod. cbv zeta. unfold mret, result_ret. f_equal. f_equal.
  repeat case_bool_decide; reflexivity.
Qed.

(** X30. [format_duration] on a finite number of seconds truncates it to an
    integer, takes a negative one for 0, and writes days, hours, minutes and
    seconds that add up to it, with hours below 24 and minutes and seconds
    below 60; a part that is zero is left out, except the seconds, which are
    always written, so that nothing or less gives [0s].  On an infinity it
    raises [OverflowError] and on a NaN [ValueError]. *)
Theorem format_duration_spec (seconds : SpecFloat.spec_float) (total : Z) :
  int_of_float seconds = Ok total ->
  (exists days hours minutes secs,
     0 <= days /\ 0 <= hours < 24 /\ 0 <= minutes < 60 /\ 0 <= secs < 60 /\
     Z.max total 0 = days * 86400 + hours * 3600 + minutes * 60 + secs /\
     format_duration seconds
     = Ok (str_join " "
             ((if bool_decide (days <> 0) then [amount days "d"] else []) ++
              (if bool_decide (hours <> 0) then [amount hours "h"] else []) ++
              (if bool_decide (minutes <> 0) then [amount minutes "m"] else []) ++
              [amount secs "s"]))) /\
  (total <= 0 -> format_duration seconds = Ok "0s"%string) /\
  (forall sign, format_duration (SpecFloat.S754_infinity sign) = Raise OverflowError) /\
  format_duration SpecFloat.S754_nan = Raise ValueError.
Proof.
  intros Hint. pose proof (format_duration_total seconds total Hint) as Hrun.
  cbv zeta in Hrun. split; [|split; [|by split]].
  - set (t := Z.max total 0) in *.
    exists (t / 86400), (t mod 86400 / 3600), (t mod 86400 mod 3600 / 60),
      (t mod 86400 mod 3600 mod 60).
    assert (0 <= t) by (unfold t; lia).
    repeat split; try exact Hrun; try lia.
  - intros Hle. rewrite Hrun. replace (Z.max total 0) with 0 by lia. reflexivity.
Qed.

(** ** The further theorems on sample input *)

Lemma sample_db_users_wf : users_wf sample_db.
Proof.
  unfold users_wf, ascending. cbn [users sample_db users_seq]. split; [|split].
  - repeat first [apply SSorted_nil | apply SSorted_cons
                 | apply List.Forall_nil | apply List.Forall_cons]; reflexivity.
  - repeat first [apply List.Forall_nil | apply List.Forall_cons]; discriminate.
  - by apply (bool_decide_unpack (NoDup (user_telegram_id <$> [alice; bob; carol]))).
Qed.

Lemma journal_db_users_wf : users_wf journal_db.
Proof. exact sample_db_users_wf. Qed.

Lemma journal_db_photos_wf : photos_wf journal_db.
Proof.
  unfold photos_wf. cbn.
  repeat first [apply List.Forall_nil | apply List.Forall_cons]; discriminate.
Qed.

Lemma sample_db_history_wf : history_wf sample_db.
Proof.
  unfold history_wf, ascending. cbn [prompt_history sample_db prompt_history_seq].
  split; repeat first [apply SSorted_nil | apply SSorted_cons
                      | apply List.Forall_nil | apply List.Forall_cons].
  discriminate.
Qed.

#[local] Existing Instance ref_lib.

(** The row ids of a fresh store when chat 101 registers three times and chat
    104 once: the sequence moves with every call, so 104 gets id 4. *)
Lemma upsert_user_leaves_gaps :
  (r1 ← upsert_user noon 101 None init;
   r2 ← upsert_user noon 101 None r1.2;
   r3 ← upsert_user noon 101 None r2.2;
   r4 ← upsert_user noon 104 None r3.2;
   Ok ([r1.1; r2.1; r3.1; r4.1], users_seq r4.2))
  = Ok ([1; 1; 1; 4], 4).
Proof. vm_compute. reflexivity. Qed.

(** [/ban 9223372036854775808] and [/delete_user 9223372036854775808] by the
    owner: the id does not bind, the call on the store raises, nothing is
    written and nothing is answered. *)
Lemma owner_id_out_of_range :
  let too_large := owner_says ["9223372036854775808"%string] in
  int_of_str "9223372036854775808" = Some (INT64_MAX + 1) /\
  handle_ban sample_owner_env noon too_large sample_world
    = (Raise OverflowError, sample_world) /\
  handle_unban sample_owner_env too_large sample_world
    = (Raise OverflowError, sample_world) /\
  handle_delete_user sample_owner_env too_large sample_world
    = (Raise OverflowError, sample_world).
Proof. vm_compute. by repeat split. Qed.

Lemma users_wf_invariant_witness :
  match upsert_user noon 104 (Some "dave"%string) sample_db with
  | Ok (id, d') =>
      INT64_MIN <= 104 <= INT64_MAX /\
      users_wf d' /\ id <= users_seq d' /\ users_seq d' = users_seq sample_db + 1 /\
      (get_user_by_telegram 104 sample_db = Ok None -> id = users_seq d') /\
      (forall u, get_user_by_telegram 104 sample_db = Ok (Some u) ->
                 id = user_id u /\ id < users_seq d')
  | Raise e => e = OverflowError /\ ~ (INT64_MIN <= 104 <= INT64_MAX)
  end /\
  match delete_user 104 sample_db with
  | Ok (_, d') =>
      INT64_MIN <= 104 <= INT64_MAX /\
      users_wf d' /\ users_seq d' = users_seq sample_db
  | Raise e => e = OverflowError /\ ~ (INT64_MIN <= 104 <= INT64_MAX)
  end.
Proof.
  refine (users_wf_invariant noon 104 (Some "dave"%string) sample_db
            sample_db_users_wf).
Defined.

Lemma delete_user_spec_witness :
  match get_user_by_telegram 101 journal_db with
  | Raise e =>
      e = OverflowError /\ ~ (INT64_MIN <= 101 <= INT64_MAX) /\
      delete_user 101 journal_db = Raise OverflowError
  | Ok None =>
      INT64_MIN <= 101 <= INT64_MAX /\
      delete_user 101 journal_db = Ok (false, journal_db)
  | Ok (Some u) =>
      INT64_MIN <= 101 <= INT64_MAX /\
      exists d',
        delete_user 101 journal_db = Ok (true, d') /\
        get_user_by_telegram 101 d' = Ok None /\
        count_photos_for_user (user_id u) d' = 0 /\
        list_photos_for_user (user_id u) d' = [] /\
        (forall other, other <> 101 ->
           get_user_by_telegram other d' = get_user_by_telegram other journal_db) /\
        (forall uid, uid <> user_id u ->
           list_photos_for_user uid d' = list_photos_for_user uid journal_db) /\
        users_seq d' = users_seq journal_db /\
        banned_users d' = banned_users journal_db
  end.
Proof.
  refine (delete_user_spec 101 journal_db
            journal_db_users_wf).
Defined.

Lemma reregistered_user_is_fresh_witness :
  exists d1 id d2,
    delete_user 101 journal_db = Ok (true, d1) /\
    upsert_user noon 101 (Some "alice"%string) d1 = Ok (id, d2) /\
    id = users_seq journal_db + 1 /\
    (forall v, v ∈ users journal_db -> user_id v < id) /\
    count_photos_for_user id d2 = 0 /\
    list_photos_for_user id d2 = [].
Proof.
  refine (reregistered_user_is_fresh noon 101 (Some "alice"%string) journal_db alice
            journal_db_users_wf journal_db_photos_wf eq_refl).
Defined.

Lemma get_recent_prompt_minutes_newest_first_witness :
  get_recent_prompt_minutes 1439 sample_db
   = history_minute_of_day <$> take (Z.to_nat 1439) (reverse (prompt_history sample_db)) /\
  Z.of_nat (length (get_recent_prompt_minutes 1439 sample_db)) <= 1439 /\
  (forall t, 0 < 1439 ->
     get_recent_prompt_minutes 1439 (add_prompt_history t sample_db)
     = minute_of_day t :: get_recent_prompt_minutes (1439 - 1) sample_db).
Proof.
  refine (get_recent_prompt_minutes_newest_first 1439 sample_db
            sample_db_history_wf _).
  - lia.
Defined.

Lemma fresh_target_avoids_recent_witness :
  (forall target w',
     fresh_target (7%nat) (11%nat) noon sample_world = (Ok target, w') ->
     w' = with_db (set_next_prompt (Some target) sample_db) sample_world /\
     (db w' ≫= get_next_prompt) = Some target /\
     noon < target /\
     minute_of_day target ∉ get_recent_prompt_minutes 1439 sample_db) /\
  (dt_date noon < DATE_MAX ->
   exists target w', fresh_target (7%nat) (11%nat) noon sample_world = (Ok target, w')) /\
  (forall e w',
     fresh_target (7%nat) (11%nat) noon sample_world = (Raise e, w') ->
     e = OverflowError /\ w' = sample_world /\ DATE_MAX <= dt_date noon) /\
  available_minutes (list_to_set (get_recent_prompt_minutes 1439 sample_db))
  = filter (fun m => m ∉ get_recent_prompt_minutes 1439 sample_db) (seqZ 0 MINUTES_PER_DAY).
Proof.
  refine (fresh_target_avoids_recent (7%nat) (11%nat) noon sample_world sample_db
            eq_refl).
Defined.

Lemma await_target_not_due_witness :
  await_target (turn_r1 early_turn) (turn_r2 early_turn) (turn_now early_turn) sample_world
      = (Ok (noon - 10 * US_PER_MINUTE), sample_world) /\
  scheduler_turn early_turn sample_world
    = send_daily_prompt (turn_deliver early_turn) (turn_prompt_time early_turn)
        (with_trace (trace sample_world ++ [LogInfo;
            Slept ((noon - 10 * US_PER_MINUTE) - turn_now early_turn)]) sample_world).
Proof.
  refine (await_target_not_due early_turn sample_world sample_db (noon - 10 * US_PER_MINUTE)
            eq_refl eq_refl _).
  - vm_compute. reflexivity.
Defined.

Lemma scheduler_loop_without_store_witness :
  scheduler_loop ([sample_turn; early_turn]) stopped_world
  = (Ok tt, with_trace (trace stopped_world ++ replicate (length ([sample_turn;
      early_turn])) (Slept (seconds 5))) stopped_world).
Proof.
  refine (scheduler_loop_without_store ([sample_turn; early_turn]) stopped_world
            eq_refl).
Defined.

Lemma handle_photo_refused_witness :
  let answered body :=
    handle_photo sample_photo_inputs bob_update sample_world
    = (Ok tt, with_trace (trace sample_world ++ [Sent (message_chat (photo_message 102))
        body]) sample_world) in
  (is_user_banned 102 sample_db = Ok true -> answered BannedText) /\
  (is_user_banned 102 sample_db = Ok false -> last_prompt sample_db = None ->
   answered NoPromptText) /\
  (forall lp, is_user_banned 102 sample_db = Ok false -> last_prompt sample_db = Some lp ->
              seconds 60 < photo_now sample_photo_inputs - lp
                  -> answered MissedWindowText) /\
  (forall e, is_user_banned 102 sample_db = Raise e ->
             e = OverflowError /\ ~ (INT64_MIN <= 102 <= INT64_MAX) /\
             handle_photo sample_photo_inputs bob_update sample_world
                 = (Raise OverflowError, sample_world)).
Proof.
  refine (handle_photo_refused sample_photo_inputs bob_update sample_world sample_db ∅ 102
      (photo_message 102)
            eq_refl eq_refl eq_refl eq_refl).
Defined.

Lemma handle_photo_known_participant_witness :
  let key : object_key := (101, photo_timestamp_now sample_photo_inputs / US_PER_SECOND) in
  let row := {| photo_id := photos_seq sample_db + 1; photo_user_id := user_id alice;
                photo_timestamp := photo_timestamp_now sample_photo_inputs;
                    photo_object_key := key |} in
  exists w' d',
    handle_photo sample_photo_inputs alice_update sample_world = (Ok tt, w') /\
    db w' = Some d' /\
    users d' = users sample_db /\
    photos d' = photos sample_db ++ [row] /\
    row ∈ list_photos_for_user (user_id alice) d' /\
    storage w' = Some (<[key := jpeg]> ∅) /\
    trace w' = trace sample_world ++ [Sent (message_chat (photo_message 101))
        PhotoReceivedText].
Proof.
  refine (handle_photo_known_participant sample_photo_inputs alice_update sample_world
      sample_db ∅ 101 9002 (photo_message 101) jpeg alice
            eq_refl eq_refl eq_refl eq_refl eq_refl _ eq_refl _ _ _).
  - vm_compute. reflexivity.
  - vm_compute. reflexivity.
  - vm_compute. reflexivity.
  - vm_compute. reflexivity.
Defined.

Lemma handle_photo_failures_witness :
  (photo (photo_message 555) = [] -> handle_photo refused_photo_inputs sample_update
      sample_world = (Raise IndexError, sample_world)) /\
  (forall file, last (photo (photo_message 555)) = Some file
      -> photo_download refused_photo_inputs file = None ->
                handle_photo refused_photo_inputs sample_update sample_world
                    = (Raise NetworkError, sample_world)) /\
  (forall file data user,
     last (photo (photo_message 555)) = Some file
         -> photo_download refused_photo_inputs file = Some data ->
     effective_user sample_update = Some user ->
     photo_upload_accepted refused_photo_inputs = false ->
     exists d',
       handle_photo refused_photo_inputs sample_update sample_world
           = (Raise S3Error, with_db d' sample_world) /\
       d' = (filed_under refused_photo_inputs 555 (username user) sample_db).2 /\
       (exists u, get_user_by_telegram 555 d' = Ok (Some u)) /\
       photos d' = photos sample_db).
Proof.
  refine (handle_photo_failures refused_photo_inputs sample_update sample_world sample_db ∅
      555 (photo_message 555)
            eq_refl eq_refl eq_refl eq_refl _ _).
  - vm_compute. reflexivity.
  - vm_compute. reflexivity.
Defined.

Lemma photos_in_one_second_share_an_object_witness :
  let key : object_key := (555, photo_timestamp_now sample_photo_inputs / US_PER_SECOND) in
  exists w1 w2 d2 uid,
    handle_photo sample_photo_inputs sample_update sample_world = (Ok tt, w1) /\
    handle_photo later_photo_inputs sample_update w1 = (Ok tt, w2) /\
    db w2 = Some d2 /\
    photos d2
    = photos sample_db ++
      [{| photo_id := photos_seq sample_db + 1; photo_user_id := uid;
          photo_timestamp := photo_timestamp_now sample_photo_inputs;
              photo_object_key := key |};
       {| photo_id := photos_seq sample_db + 2; photo_user_id := uid;
          photo_timestamp := photo_timestamp_now later_photo_inputs;
              photo_object_key := key |}] /\
    storage w2 = Some (<[key := jpeg2]> ∅) /\
    (storage w2 ≫= fun o => o !! key) = Some jpeg2.
Proof.
  refine (photos_in_one_second_share_an_object sample_photo_inputs later_photo_inputs
      sample_update sample_world sample_db ∅ 555 9002 (photo_message 555) dana jpeg jpeg2
            eq_refl eq_refl eq_refl eq_refl eq_refl eq_refl _ _ eq_refl eq_refl _ _ _ _).
  - vm_compute. reflexivity.
  - vm_compute. reflexivity.
  - vm_compute. reflexivity.
  - vm_compute. reflexivity.
  - vm_compute. reflexivity.
  - vm_compute. reflexivity.
Defined.

Lemma handle_start_outcome_witness :
  (forall banned existing,
     is_user_banned 555 init = Ok banned ->
     get_user_by_telegram 555 init = Ok existing ->
     exists w' d',
       handle_start noon sample_update fresh_world = (Ok tt, w') /\
       db w' = Some d' /\
       storage w' = storage fresh_world /\
       trace w' = trace fresh_world ++
         [Sent (message_chat (photo_message 555))
            (if banned : bool then BannedText
             else if bool_decide (existing <> None)
                  then AlreadyRegisteredText
                  else if registrations_open init then RegistrationSuccessfulText
                       else RegistrationsClosedText)] /\
       ((exists u, get_user_by_telegram 555 d' = Ok (Some u)) <->
        existing <> None \/ (banned = false /\ registrations_open init = true)) /\
       (forall other, other <> 555 ->
          get_user_by_telegram other d' = get_user_by_telegram other init) /\
       photos d' = photos init /\ banned_users d' = banned_users init) /\
  (INT64_MIN <= 555 <= INT64_MAX ->
   exists banned existing,
     is_user_banned 555 init = Ok banned /\
     get_user_by_telegram 555 init = Ok existing) /\
  (~ (INT64_MIN <= 555 <= INT64_MAX) ->
   handle_start noon sample_update fresh_world = (Raise OverflowError, fresh_world)).
Proof.
  refine (handle_start_outcome noon sample_update fresh_world init 555 (photo_message 555)
            eq_refl eq_refl eq_refl).
Defined.

Lemma photo_after_broadcast_witness :
  exists w1,
    send_daily_prompt sample_deliver noon sample_world = (Ok tt, w1) /\
    (photo_now sample_photo_inputs - noon <= seconds 60 ->
     exists w2 d2,
       handle_photo sample_photo_inputs sample_update w1 = (Ok tt, w2) /\
       db w2 = Some d2 /\
       count_photos_total d2 = count_photos_total sample_db + 1 /\
       (exists p, last (photos d2) = Some p /\
                  photo_timestamp p = photo_timestamp_now sample_photo_inputs /\
                  (storage w2 ≫= fun o => o !! photo_object_key p) = Some jpeg) /\
       trace w2 = trace w1 ++ [Sent (message_chat (photo_message 555)) PhotoReceivedText])
           /\
    (seconds 60 < photo_now sample_photo_inputs - noon ->
     handle_photo sample_photo_inputs sample_update w1
     = (Ok tt, with_trace (trace w1 ++ [Sent (message_chat (photo_message 555))
         MissedWindowText]) w1)).
Proof.
  refine (photo_after_broadcast sample_deliver noon sample_photo_inputs sample_update
      sample_world sample_db ∅ 555 9002 (photo_message 555) dana jpeg
            eq_refl eq_refl eq_refl _ eq_refl eq_refl eq_refl eq_refl _ eq_refl _).
  - discriminate.
  - vm_compute. reflexivity.
  - vm_compute. reflexivity.
Defined.

Lemma get_me_with_issued_cookie_witness :
  exists token,
    create_session_token sample_env 1700000000 101 = Ok token /\
    (forall now, now <= 1700000000 + SESSION_TTL_SECONDS ->
       get_me sample_env now (Some token) sample_world
       = match get_user_by_telegram 101 sample_db with
         | Ok (Some user) => MeOk user
         | Ok None => MeHTTP 404
         | Raise e => MeRaise e
         end) /\
    (forall now, 1700000000 + SESSION_TTL_SECONDS < now ->
       get_me sample_env now (Some token) sample_world = MeHTTP 401) /\
    (forall now, get_me sample_env now None sample_world = MeHTTP 401).
Proof.
  refine (get_me_with_issued_cookie (L := ref_lib) (laws := ref_lib_laws) sample_env
      ("s3cret"%string) 101 1700000000 sample_world sample_db
            eq_refl _ eq_refl).
  - discriminate.
Defined.

Lemma login_refusals_witness :
  let run := telegram_auth_callback sample_env 1700000599 noon sample_query sample_world in
  let verified := verify_telegram_login_payload sample_env 1700000599 sample_query in
  (verified = Ok None -> run = (Raise (HTTPException 401), sample_world)) /\
  (verified = Ok (Some ∅) -> run = (Raise (HTTPException 401), sample_world)) /\
  (forall e, verified = Raise e -> run = (Raise e, sample_world)) /\
  (forall data, verified = Ok (Some data) -> data <> ∅ ->
     data !! "id"%string ≫= int_of_str = None ->
     run = (Raise (HTTPException 400), sample_world)) /\
  (forall data telegram_id, verified = Ok (Some data) -> data <> ∅ ->
     data !! "id"%string ≫= int_of_str = Some telegram_id ->
     is_user_banned telegram_id sample_db = Ok true ->
     run = (Raise (HTTPException 403), sample_world)) /\
  (forall data telegram_id, verified = Ok (Some data) -> data <> ∅ ->
     data !! "id"%string ≫= int_of_str = Some telegram_id ->
     get_user_by_telegram telegram_id sample_db = Ok None -> registrations_open sample_db
         = false ->
     run = (Raise (HTTPException 403), sample_world)) /\
  (forall data telegram_id, verified = Ok (Some data) -> data <> ∅ ->
     data !! "id"%string ≫= int_of_str = Some telegram_id ->
     ~ (INT64_MIN <= telegram_id <= INT64_MAX) ->
     run = (Raise OverflowError, sample_world)).
Proof.
  refine (login_refusals (L := ref_lib) sample_env 1700000599 noon sample_query
      sample_world sample_db
            eq_refl).
Defined.


Lemma without_session_secret_witness :
  (forall time_now telegram_id token,
     create_session_token no_secret_env time_now telegram_id = Raise RuntimeError /\
     parse_and_verify_session no_secret_env time_now token = None /\
     get_me no_secret_env time_now (Some token) fresh_world = MeHTTP 401) /\
  (forall time_now created_at query_params data telegram_id,
     verify_telegram_login_payload no_secret_env time_now query_params = Ok (Some data) ->
     data !! "id"%string ≫= int_of_str = Some telegram_id ->
     is_user_banned telegram_id init = Ok false ->
     get_user_by_telegram telegram_id init = Ok None -> registrations_open init = true ->
     exists w' d',
       telegram_auth_callback no_secret_env time_now created_at query_params fresh_world
       = (Raise (HTTPException 500), w') /\
       db w' = Some d' /\
       users d' = users init ++
         [{| user_id := users_seq init + 1; user_telegram_id := telegram_id;
             user_username := data !! "username"%string;
             user_created_at := created_at |}]).
Proof.
  refine (without_session_secret (L := ref_lib) (laws := ref_lib_laws) no_secret_env
      fresh_world init
            _ eq_refl).
  - left. reflexivity.
Defined.

Lemma owner_toggles_registrations_witness :
  handle_close_registrations sample_owner_env (owner_says []) sample_world
    = (Ok [RegistrationsNowClosedText], with_db (set_registrations_open false sample_db)
        sample_world) /\
  handle_open_registrations sample_owner_env (owner_says []) sample_world
    = (Ok [RegistrationsNowOpenText], with_db (set_registrations_open true sample_db)
        sample_world) /\
  handle_registrations sample_owner_env (owner_says []) sample_world
      = (Ok [RegistrationsAreText (registrations_open sample_db)], sample_world) /\
  (forall created_at update chat_id m',
     effective_chat update = Some chat_id -> message update = Some m' ->
     is_user_banned chat_id sample_db = Ok false -> get_user_by_telegram chat_id sample_db
         = Ok None ->
     let closed := (handle_close_registrations sample_owner_env (owner_says [])
         sample_world).2 in
     let opened := (handle_open_registrations sample_owner_env (owner_says [])
         sample_world).2 in
     (exists w' d', handle_start created_at update closed = (Ok tt, w') /\
        trace w' = trace sample_world ++ [Sent (message_chat m') RegistrationsClosedText] /\
        db w' = Some d' /\ get_user_by_telegram chat_id d' = Ok None) /\
     (exists w' d' u, handle_start created_at update opened = (Ok tt, w') /\
        trace w' = trace sample_world ++ [Sent (message_chat m')
            RegistrationSuccessfulText] /\
        db w' = Some d' /\ get_user_by_telegram chat_id d' = Ok (Some u))).
Proof.
  refine (owner_toggles_registrations (L := ref_lib) sample_owner_env (owner_says [])
      sample_world sample_db (photo_message 101)
            _ eq_refl eq_refl).
  - vm_compute. reflexivity.
Defined.

Lemma owner_ban_is_enforced_witness :
  let text := strip (str_join " " (["spam"%string])) in
  let reason := if bool_decide (text = EmptyString) then None else Some text in
  (INT64_MIN <= 103 <= INT64_MAX ->
   exists w1 d1,
     handle_ban sample_owner_env noon (owner_says ["103"; "spam"]%string) sample_world
         = (Ok [BannedIdText 103 reason], w1) /\
     w1 = with_db d1 sample_world /\ ban_user noon 103 reason sample_db = Ok d1 /\
     is_user_banned 103 d1 = Ok true /\
     users d1 = users sample_db /\ photos d1 = photos sample_db /\
     (forall i update m' objects,
        storage sample_world = Some objects ->
        effective_chat update = Some 103 -> message update = Some m' ->
        handle_photo i update w1
        = (Ok tt, with_trace (trace w1 ++ [Sent (message_chat m') BannedText]) w1)) /\
     (forall created_at update m',
        effective_chat update = Some 103 -> message update = Some m' ->
        handle_start created_at update w1
        = (Ok tt, with_trace (trace w1 ++ [Sent (message_chat m') BannedText]) w1)) /\
     (exists w2 d2,
        handle_unban sample_owner_env (owner_says ["103"; "spam"]%string) w1
            = (Ok [UnbannedIdText 103], w2) /\
        db w2 = Some d2 /\ is_user_banned 103 d2 = Ok false)) /\
  (~ (INT64_MIN <= 103 <= INT64_MAX) ->
   ban_user noon 103 reason sample_db = Raise OverflowError /\
   handle_ban sample_owner_env noon (owner_says ["103"; "spam"]%string) sample_world
       = (Raise OverflowError, sample_world) /\
   handle_unban sample_owner_env (owner_says ["103"; "spam"]%string) sample_world
       = (Raise OverflowError, sample_world) /\
   is_user_banned 103 sample_db = Raise OverflowError).
Proof.
  refine (owner_ban_is_enforced (L := ref_lib) sample_owner_env noon (owner_says ["103";
      "spam"]%string) sample_world sample_db (photo_message 101) ("103"%string)
      (["spam"%string]) 103
            _ eq_refl eq_refl eq_refl _).
  - vm_compute. reflexivity.
  - vm_compute. reflexivity.
Defined.

Lemma owner_deletes_user_witness :
  match get_user_by_telegram 103 sample_db with
  | Ok existing =>
      INT64_MIN <= 103 <= INT64_MAX /\
      exists w' d',
        handle_delete_user sample_owner_env (owner_says ["103"%string]) sample_world
        = (Ok [if bool_decide (existing <> None)
               then DeletedUserText 103 else UserNotFoundText], w') /\
        delete_user 103 sample_db = Ok (bool_decide (existing <> None), d') /\
        db w' = Some d' /\
        storage w' = storage sample_world /\ trace w' = trace sample_world /\
        get_user_by_telegram 103 d' = Ok None /\
        (forall u, existing = Some u -> list_photos_for_user (user_id u) d' = []) /\
        (existing = None -> d' = sample_db)
  | Raise e =>
      e = OverflowError /\ ~ (INT64_MIN <= 103 <= INT64_MAX) /\
      delete_user 103 sample_db = Raise OverflowError /\
      handle_delete_user sample_owner_env (owner_says ["103"%string]) sample_world
          = (Raise OverflowError, sample_world)
  end.
Proof.
  refine (owner_deletes_user (L := ref_lib) sample_owner_env (owner_says ["103"%string])
      sample_world sample_db (photo_message 101) ("103"%string) ([]) 103
            _ eq_refl eq_refl eq_refl _ sample_db_users_wf).
  - vm_compute. reflexivity.
  - vm_compute. reflexivity.
Defined.

Lemma handle_users_lists_everyone_witness :
  let entry (u : user_row) :=
    UsersEntry (user_telegram_id u) (shown_username (user_username u))
      (count_photos_for_user (user_id u) sample_db)
      (is_user_banned_sql (user_telegram_id u) sample_db) in
  (users sample_db = [] -> handle_users sample_owner_env (owner_says []) sample_world
      = (Ok [NoRegisteredUsersText], sample_world)) /\
  (users sample_db <> [] ->
   exists chunks,
     handle_users sample_owner_env (owner_says []) sample_world
         = (Ok (UsersText <$> chunks), sample_world) /\
     concat chunks = UsersHeader (length (users sample_db)) :: (entry <$> get_users
         sample_db) /\
     Forall (fun ch => (0 < length ch <= 40)%nat) chunks /\
     (forall i ch, chunks !! i = Some ch -> (S i < length chunks)%nat ->
                   length ch = 40%nat)).
Proof.
  refine (handle_users_lists_everyone (L := ref_lib) sample_owner_env (owner_says [])
      sample_world sample_db (photo_message 101)
            _ eq_refl eq_refl).
  - vm_compute. reflexivity.
Defined.

Lemma handle_prompts_refreshes_witness :
  (forall t, next_prompt sample_db = Some t -> noon < t ->
     handle_prompts sample_owner_env (7%nat) (11%nat) noon (owner_says []) sample_world
     = (Ok [PromptsText (last_prompt sample_db) (Some t) (t - noon)], sample_world)) /\
  (match next_prompt sample_db with Some t => t <= noon | None => True end ->
   match choose_prompt_time (7%nat) (11%nat) noon (last_prompt sample_db)
           (list_to_set (get_recent_prompt_minutes 1439 sample_db)) with
   | Ok target =>
       exists w',
         handle_prompts sample_owner_env (7%nat) (11%nat) noon (owner_says []) sample_world
         = (Ok [PromptsText (last_prompt sample_db) (Some target) (target - noon)], w') /\
         w' = with_db (set_next_prompt (Some target) sample_db) sample_world /\
         (db w' ≫= get_next_prompt) = Some target /\
         (db w' ≫= get_last_prompt) = last_prompt sample_db /\
         0 < target - noon /\
         (forall r1' r2' now', now' < target ->
            handle_prompts sample_owner_env r1' r2' now' (owner_says []) w'
            = (Ok [PromptsText (last_prompt sample_db) (Some target) (target - now')], w'))
   | Raise e =>
       e = OverflowError /\ DATE_MAX <= dt_date noon /\
       handle_prompts sample_owner_env (7%nat) (11%nat) noon (owner_says []) sample_world
           = (Raise OverflowError, sample_world)
   end) /\
  (dt_date noon < DATE_MAX ->
   exists target,
     choose_prompt_time (7%nat) (11%nat) noon (last_prompt sample_db)
       (list_to_set (get_recent_prompt_minutes 1439 sample_db)) = Ok target).
Proof.
  refine (handle_prompts_refreshes (L := ref_lib) sample_owner_env (7%nat) (11%nat) noon
      (owner_says []) sample_world sample_db (photo_message 101)
            _ eq_refl eq_refl).
  - vm_compute. reflexivity.
Defined.

Lemma format_duration_spec_witness :
  (exists days hours minutes secs,
     0 <= days /\ 0 <= hours < 24 /\ 0 <= minutes < 60 /\ 0 <= secs < 60 /\
     Z.max 93784 0 = days * 86400 + hours * 3600 + minutes * 60 + secs /\
     format_duration (SpecFloat.S754_finite false 93784 0)
     = Ok (str_join " "
             ((if bool_decide (days <> 0) then [amount days "d"] else []) ++
              (if bool_decide (hours <> 0) then [amount hours "h"] else []) ++
              (if bool_decide (minutes <> 0) then [amount minutes "m"] else []) ++
              [amount secs "s"]))) /\
  (93784 <= 0 -> format_duration (SpecFloat.S754_finite false 93784 0) = Ok "0s"%string) /\
  (forall sign, format_duration (SpecFloat.S754_infinity sign) = Raise OverflowError) /\
  format_duration SpecFloat.S754_nan = Raise ValueError.
Proof.
  refine (format_duration_spec (SpecFloat.S754_finite false 93784 0) 93784
            eq_refl).
Defined.
